(** * A shallow embedding of the pygame window manager (main.py)

    The program is a single-threaded event loop over a graph of mutable
    Python objects.  Objects that are shared by reference (windows, which
    are referenced from the window manager, the taskbar, the selection and
    the popups; option dictionaries, which are referenced from a window's
    [dynamic_options] and from an editing popup) live in two stores and are
    named by their index; everything else is threaded as a value. *)

From Stdlib Require Import ZArith Lia Bool String Ascii List.
From Stdlib Require Import SpecFloat DecimalString.
From stdpp Require Import base list strings.

Local Open Scope Z_scope.

(** ** Python numbers

    Python integers are unbounded ([Z]).  Python floats are IEEE binary64;
    they are modelled by the Standard Library's executable specification
    [spec_float] with [prec = 53] and [emax = 1024]. *)
Module PyFloat.

Definition prec : Z := 53.
Definition emax : Z := 1024.

(** [float(n)]: round to nearest even; OverflowError when out of range. *)
Definition of_int (n : Z) : option spec_float :=
  match binary_normalize prec emax n 0 false with
  | S754_infinity _ => None
  | S754_nan => None
  | f => Some f
  end.

(** [a / b] on two ints: ZeroDivisionError for [b = 0].  The quotient of
    the two converted operands is the correctly rounded quotient whenever
    both are below [2^53] in magnitude, which holds for every screen and
    rectangle coordinate pygame can deliver (C ints). *)
Definition truediv (a b : Z) : option spec_float :=
  if b =? 0 then None
  else
    match of_int a, of_int b with
    | Some fa, Some fb =>
        match SFdiv prec emax fa fb with
        | S754_infinity _ => None
        | q => Some q
        end
    | _, _ => None
    end.

(** [n * f] with an int on the left: the int is converted first. *)
Definition int_mul (n : Z) (f : spec_float) : option spec_float :=
  match of_int n with
  | Some fn => Some (SFmul prec emax fn f)
  | None => None
  end.

(** [f * n] with an int on the right. *)
Definition mul_int (f : spec_float) (n : Z) : option spec_float :=
  match of_int n with
  | Some fn => Some (SFmul prec emax f fn)
  | None => None
  end.

(** [int(f)]: truncation toward zero; OverflowError on an infinity and
    ValueError on a NaN. *)
Definition to_int (f : spec_float) : option Z :=
  match f with
  | S754_zero _ => Some 0
  | S754_finite s m e =>
      let mag := if 0 <=? e then Z.shiftl (Zpos m) e
                 else Z.shiftr (Zpos m) (- e) in
      Some (if s then - mag else mag)
  | S754_infinity _ => None
  | S754_nan => None
  end.

End PyFloat.

(** ** pygame.Rect *)
Module Rect.

Record t := mk { x : Z; y : Z; width : Z; height : Z }.

Definition right (r : t) : Z := x r + width r.
Definition bottom (r : t) : Z := y r + height r.
Definition copy (r : t) : t := r.

Definition set_x (v : Z) (r : t) : t := mk v (y r) (width r) (height r).
Definition set_y (v : Z) (r : t) : t := mk (x r) v (width r) (height r).
Definition set_width (v : Z) (r : t) : t := mk (x r) (y r) v (height r).
Definition set_height (v : Z) (r : t) : t := mk (x r) (y r) (width r) v.
Definition set_topleft (p : Z * Z) (r : t) : t :=
  mk (fst p) (snd p) (width r) (height r).
Definition set_size (s : Z * Z) (r : t) : t :=
  mk (x r) (y r) (fst s) (snd s).

(** A point is inside when it is on the left or top edge, and outside
    when it is on the right or bottom edge. *)
Definition collidepoint (r : t) (p : Z * Z) : bool :=
  (x r <=? fst p) && (fst p <? x r + width r)
  && (y r <=? snd p) && (snd p <? y r + height r).

End Rect.

(** ** Input events and the host

    The [type] tag of a pygame event selects the constructor; [OTHER]
    stands for every event type the program never inspects. *)
Inductive Event :=
| QUIT
| KEYDOWN (key : Z) (unicode : string)
| VIDEORESIZE (w h : Z)
| MOUSEBUTTONDOWN (button : Z) (pos : Z * Z)
| MOUSEBUTTONUP (button : Z) (pos : Z * Z)
| MOUSEMOTION (pos : Z * Z)
| OTHER.

Definition K_BACKSPACE : Z := 8.
Definition K_RETURN : Z := 13.
Definition K_f : Z := 102.
Definition K_n : Z := 110.
Definition K_w : Z := 119.
Definition KMOD_SHIFT : Z := 3.
Definition KMOD_CTRL : Z := 192.

(** What the program reads from its environment while it handles one
    event: the keyboard modifier mask, the entropy behind the two
    [random.randint] calls, the size [get_size()] reports for the surface
    that [set_mode((0, 0), FULLSCREEN)] returns and for the one that
    [set_mode((800, 600), RESIZABLE)] returns, and the pixel size of a
    rendered line of text. *)
Record Host := {
  get_mods : Z;
  entropy_x : Z;
  entropy_y : Z;
  fullscreen_size : Z * Z;
  windowed_size : Z * Z;
  font_size : string -> Z * Z
}.

(** [random.randint(a, b)]: some integer of [[a, b]]; ValueError when the
    range is empty. *)
Definition randint (entropy a b : Z) : option Z :=
  if a <=? b then Some (a + entropy mod (b - a + 1)) else None.

(** ** Object layouts

    One record per class, with the attributes the methods read or write.
    [wid] names a [DraggableWindow] object and [oid] an option dictionary
    [{'name': ..., 'body': ...}]; both are indices into the stores of the
    application state, so two references are the same object exactly when
    the indices are equal (the classes define no [__eq__]). *)
Abbreviation wid := nat.
Abbreviation oid := nat.

Definition TASKBAR_HEIGHT : Z := 40.
Definition OPTIONS_PER_PAGE : Z := 5.

Module OptionRecord.
Record t := mk { name : string; body : string }.
Definition set_name (v : string) (o : t) : t := mk v (body o).
Definition set_body (v : string) (o : t) : t := mk (name o) v.
End OptionRecord.

Module DraggableWindowObj.
Record t := mk {
  rect : Rect.t;
  title : string;
  minimized : bool;
  maximized : bool;
  selected : bool;
  color : Z * Z * Z;
  resize : bool;
  offset_x : Z;
  offset_y : Z;
  prev_rect : Rect.t;
  dynamic_options : list oid;
  minimize_button : Rect.t;
  maximize_button : Rect.t
}.

Definition set_rect v w :=
  mk v (title w) (minimized w) (maximized w) (selected w) (color w)
     (resize w) (offset_x w) (offset_y w) (prev_rect w)
     (dynamic_options w) (minimize_button w) (maximize_button w).
Definition set_minimized v w :=
  mk (rect w) (title w) v (maximized w) (selected w) (color w)
     (resize w) (offset_x w) (offset_y w) (prev_rect w)
     (dynamic_options w) (minimize_button w) (maximize_button w).
Definition set_maximized v w :=
  mk (rect w) (title w) (minimized w) v (selected w) (color w)
     (resize w) (offset_x w) (offset_y w) (prev_rect w)
     (dynamic_options w) (minimize_button w) (maximize_button w).
Definition set_selected v w :=
  mk (rect w) (title w) (minimized w) (maximized w) v (color w)
     (resize w) (offset_x w) (offset_y w) (prev_rect w)
     (dynamic_options w) (minimize_button w) (maximize_button w).
Definition set_color v w :=
  mk (rect w) (title w) (minimized w) (maximized w) (selected w) v
     (resize w) (offset_x w) (offset_y w) (prev_rect w)
     (dynamic_options w) (minimize_button w) (maximize_button w).
Definition set_resize v w :=
  mk (rect w) (title w) (minimized w) (maximized w) (selected w) (color w)
     v (offset_x w) (offset_y w) (prev_rect w)
     (dynamic_options w) (minimize_button w) (maximize_button w).
Definition set_offset_x v w :=
  mk (rect w) (title w) (minimized w) (maximized w) (selected w) (color w)
     (resize w) v (offset_y w) (prev_rect w)
     (dynamic_options w) (minimize_button w) (maximize_button w).
Definition set_offset_y v w :=
  mk (rect w) (title w) (minimized w) (maximized w) (selected w) (color w)
     (resize w) (offset_x w) v (prev_rect w)
     (dynamic_options w) (minimize_button w) (maximize_button w).
Definition set_prev_rect v w :=
  mk (rect w) (title w) (minimized w) (maximized w) (selected w) (color w)
     (resize w) (offset_x w) (offset_y w) v
     (dynamic_options w) (minimize_button w) (maximize_button w).
Definition set_dynamic_options v w :=
  mk (rect w) (title w) (minimized w) (maximized w) (selected w) (color w)
     (resize w) (offset_x w) (offset_y w) (prev_rect w)
     v (minimize_button w) (maximize_button w).
Definition set_minimize_button v w :=
  mk (rect w) (title w) (minimized w) (maximized w) (selected w) (color w)
     (resize w) (offset_x w) (offset_y w) (prev_rect w)
     (dynamic_options w) v (maximize_button w).
Definition set_maximize_button v w :=
  mk (rect w) (title w) (minimized w) (maximized w) (selected w) (color w)
     (resize w) (offset_x w) (offset_y w) (prev_rect w)
     (dynamic_options w) (minimize_button w) v.

Definition button_width : Z := 20.
Definition button_height : Z := 20.

(** [DraggableWindow.__init__] (with [Window.__init__]). *)
Definition init (x y width height : Z) (title : string) : t :=
  let r := Rect.mk x y width height in
  mk r title false false false (100, 100, 250) false 0 0 (Rect.copy r) []
     (Rect.mk 0 0 button_width button_height)
     (Rect.mk 0 0 button_width button_height).
End DraggableWindowObj.

Module MainMenuWindowObj.
Record t := mk {
  target_window : wid;
  rect : Rect.t;
  current_page : Z
}.
Definition set_rect v m := mk (target_window m) v (current_page m).
Definition set_current_page v m := mk (target_window m) (rect m) v.

Definition static_options : list string := ["RGB"; "Help"; "New Option"]%string.

(** [MainMenuWindow.__init__] *)
Definition init (x y : Z) (target : wid) : t :=
  mk target (Rect.mk x y 200 0) 0.
End MainMenuWindowObj.

Module EditablePopupWindowObj.
Record t := mk {
  target_window : wid;
  option : oid;
  title : string;
  body : string;
  rect : Rect.t;
  editing_title : bool;
  editing_body : bool;
  input_text : string;
  cursor_visible : bool;
  cursor_counter : Z
}.
Definition set_title v e :=
  mk (target_window e) (option e) v (body e) (rect e) (editing_title e)
     (editing_body e) (input_text e) (cursor_visible e) (cursor_counter e).
Definition set_body v e :=
  mk (target_window e) (option e) (title e) v (rect e) (editing_title e)
     (editing_body e) (input_text e) (cursor_visible e) (cursor_counter e).
Definition set_editing_title v e :=
  mk (target_window e) (option e) (title e) (body e) (rect e) v
     (editing_body e) (input_text e) (cursor_visible e) (cursor_counter e).
Definition set_editing_body v e :=
  mk (target_window e) (option e) (title e) (body e) (rect e) (editing_title e)
     v (input_text e) (cursor_visible e) (cursor_counter e).
Definition set_input_text v e :=
  mk (target_window e) (option e) (title e) (body e) (rect e) (editing_title e)
     (editing_body e) v (cursor_visible e) (cursor_counter e).
Definition set_cursor_visible v e :=
  mk (target_window e) (option e) (title e) (body e) (rect e) (editing_title e)
     (editing_body e) (input_text e) v (cursor_counter e).
Definition set_cursor_counter v e :=
  mk (target_window e) (option e) (title e) (body e) (rect e) (editing_title e)
     (editing_body e) (input_text e) (cursor_visible e) v.
End EditablePopupWindowObj.

Module RGBPropertiesWindowObj.
(** The dictionaries [sliders] and [dragging] have the three fixed keys
    R, G, B, visited in that order. *)
Record t := mk {
  target_window : wid;
  r : Z; g : Z; b : Z;
  rect : Rect.t;
  slider_R : Rect.t; slider_G : Rect.t; slider_B : Rect.t;
  dragging_r : bool; dragging_g : bool; dragging_b : bool
}.
Definition set_r v p :=
  mk (target_window p) v (g p) (b p) (rect p) (slider_R p) (slider_G p)
     (slider_B p) (dragging_r p) (dragging_g p) (dragging_b p).
Definition set_g v p :=
  mk (target_window p) (r p) v (b p) (rect p) (slider_R p) (slider_G p)
     (slider_B p) (dragging_r p) (dragging_g p) (dragging_b p).
Definition set_b v p :=
  mk (target_window p) (r p) (g p) v (rect p) (slider_R p) (slider_G p)
     (slider_B p) (dragging_r p) (dragging_g p) (dragging_b p).
Definition set_dragging (vr vg vb : bool) p :=
  mk (target_window p) (r p) (g p) (b p) (rect p) (slider_R p) (slider_G p)
     (slider_B p) vr vg vb.
End RGBPropertiesWindowObj.

(** The popups of the menu stack.  A popup object is referenced from the
    menu stack only, so it is held there by value. *)
Inductive Popup :=
| MainMenu (m : MainMenuWindowObj.t)
| EditablePopup (e : EditablePopupWindowObj.t)
| RGBProperties (p : RGBPropertiesWindowObj.t)
| Submenu (rect : Rect.t)
| Help (rect : Rect.t).

Definition popup_rect (p : Popup) : Rect.t :=
  match p with
  | MainMenu m => MainMenuWindowObj.rect m
  | EditablePopup e => EditablePopupWindowObj.rect e
  | RGBProperties p => RGBPropertiesWindowObj.rect p
  | Submenu r => r
  | Help r => r
  end.

Module TaskbarObj.
Record t := mk { minimized_windows : list wid; rect : Rect.t }.
Definition set_minimized_windows v tb := mk v (rect tb).
Definition set_rect v tb := mk (minimized_windows tb) v.
End TaskbarObj.

Module WindowManagerObj.
Record t := mk { windows : list wid }.
End WindowManagerObj.

(** The application object together with the two object stores. *)
Module ApplicationObj.
Record t := mk {
  screen_width : Z;
  screen_height : Z;
  is_fullscreen : bool;
  taskbar : TaskbarObj.t;
  window_manager : WindowManagerObj.t;
  running : bool;
  selected_window : option wid;
  menu_stack : list Popup;
  prev_screen_width : Z;
  prev_screen_height : Z;
  window_store : list DraggableWindowObj.t;
  option_store : list OptionRecord.t
}.

Definition set_screen_size (w h : Z) a :=
  mk w h (is_fullscreen a) (taskbar a) (window_manager a) (running a)
     (selected_window a) (menu_stack a) (prev_screen_width a)
     (prev_screen_height a) (window_store a) (option_store a).
Definition set_is_fullscreen v a :=
  mk (screen_width a) (screen_height a) v (taskbar a) (window_manager a)
     (running a) (selected_window a) (menu_stack a) (prev_screen_width a)
     (prev_screen_height a) (window_store a) (option_store a).
Definition set_taskbar v a :=
  mk (screen_width a) (screen_height a) (is_fullscreen a) v (window_manager a)
     (running a) (selected_window a) (menu_stack a) (prev_screen_width a)
     (prev_screen_height a) (window_store a) (option_store a).
Definition set_window_manager v a :=
  mk (screen_width a) (screen_height a) (is_fullscreen a) (taskbar a) v
     (running a) (selected_window a) (menu_stack a) (prev_screen_width a)
     (prev_screen_height a) (window_store a) (option_store a).
Definition set_running v a :=
  mk (screen_width a) (screen_height a) (is_fullscreen a) (taskbar a)
     (window_manager a) v (selected_window a) (menu_stack a)
     (prev_screen_width a) (prev_screen_height a) (window_store a)
     (option_store a).
Definition set_selected_window v a :=
  mk (screen_width a) (screen_height a) (is_fullscreen a) (taskbar a)
     (window_manager a) (running a) v (menu_stack a)
     (prev_screen_width a) (prev_screen_height a) (window_store a)
     (option_store a).
Definition set_menu_stack v a :=
  mk (screen_width a) (screen_height a) (is_fullscreen a) (taskbar a)
     (window_manager a) (running a) (selected_window a) v
     (prev_screen_width a) (prev_screen_height a) (window_store a)
     (option_store a).
Definition set_prev_screen_size (w h : Z) a :=
  mk (screen_width a) (screen_height a) (is_fullscreen a) (taskbar a)
     (window_manager a) (running a) (selected_window a) (menu_stack a)
     w h (window_store a) (option_store a).
Definition set_window_store v a :=
  mk (screen_width a) (screen_height a) (is_fullscreen a) (taskbar a)
     (window_manager a) (running a) (selected_window a) (menu_stack a)
     (prev_screen_width a) (prev_screen_height a) v (option_store a).
Definition set_option_store v a :=
  mk (screen_width a) (screen_height a) (is_fullscreen a) (taskbar a)
     (window_manager a) (running a) (selected_window a) (menu_stack a)
     (prev_screen_width a) (prev_screen_height a) (window_store a) v.

(** In-place mutation of the window object [w]; a reference always
    names a live object, so the store has an entry for it. *)
Definition update_window (w : wid) (f : DraggableWindowObj.t -> DraggableWindowObj.t) a :=
  set_window_store (alter f w (window_store a)) a.
Definition update_option (o : oid) (f : OptionRecord.t -> OptionRecord.t) a :=
  set_option_store (alter f o (option_store a)) a.

(** [Application.__init__], after the taskbar and the window manager
    have been created. *)
Definition init : t :=
  mk 800 600 false
     (TaskbarObj.mk [] (Rect.mk 0 (600 - TASKBAR_HEIGHT) 800 TASKBAR_HEIGHT))
     (WindowManagerObj.mk []) true None [] 800 600 [] [].
End ApplicationObj.

Module DW := DraggableWindowObj.
Module App := ApplicationObj.
Abbreviation APP := ApplicationObj.t.

(** ** Python lists of references *)

(** [list.remove(x)] / [list.pop(list.index(x))]: drop the first occurrence. *)
Fixpoint remove_first (x : nat) (l : list nat) : list nat :=
  match l with
  | [] => []
  | y :: l' => if decide (x = y) then l' else y :: remove_first x l'
  end.

(** ** class Taskbar *)
Module Taskbar.

Definition add_window (window : wid) (app : APP) : APP :=
  let tb := App.taskbar app in
  if decide (window ∈ TaskbarObj.minimized_windows tb) then app
  else App.set_taskbar
         (TaskbarObj.set_minimized_windows
            (TaskbarObj.minimized_windows tb ++ [window]) tb) app.

Definition remove_window (window : wid) (app : APP) : APP :=
  let tb := App.taskbar app in
  if decide (window ∈ TaskbarObj.minimized_windows tb) then
    App.set_taskbar
      (TaskbarObj.set_minimized_windows
         (remove_first window (TaskbarObj.minimized_windows tb)) tb) app
  else app.

(** The button of the [idx]-th minimized window. *)
Definition button_rect (idx : nat) (app : APP) : Rect.t :=
  let button_width := 100 in
  let button_height := TASKBAR_HEIGHT - 10 in
  let spacing := 10 in
  let x := spacing + Z.of_nat idx * (button_width + spacing) in
  let y := App.screen_height app - TASKBAR_HEIGHT + 5 in
  Rect.mk x y button_width button_height.

End Taskbar.

(** ** class DraggableWindow *)
Module DraggableWindow.

Definition minimize (self : wid) (app : APP) : APP :=
  Taskbar.add_window self (App.update_window self (DW.set_minimized true) app).

Definition maximize (self : wid) (app : APP) : APP :=
  let full :=
    Rect.mk 0 0 (App.screen_width app) (App.screen_height app - TASKBAR_HEIGHT) in
  App.update_window self
    (fun w =>
       DW.set_maximized true
         (DW.set_rect full (DW.set_prev_rect (Rect.copy (DW.rect w)) w)))
    app.

Definition restore (self : wid) (app : APP) : APP :=
  Taskbar.remove_window self
    (App.update_window self
       (fun w =>
          DW.set_maximized false
            (DW.set_minimized false
               (DW.set_rect (Rect.copy (DW.prev_rect w)) w)))
       app).

Definition toggle_maximize (self : wid) (app : APP) : APP :=
  match App.window_store app !! self with
  | Some w => if DW.maximized w then restore self app else maximize self app
  | None => app
  end.

(** The motion branch of [handle_event] while a resize-drag is on. *)
Definition resize_drag (pos : Z * Z) (app : APP) (w : DW.t) : DW.t :=
  let r := DW.rect w in
  let new_width := Z.max 200 (fst pos - Rect.x r - DW.offset_x w) in
  let new_height := Z.max 150 (snd pos - Rect.y r - DW.offset_y w) in
  if (Rect.x r + new_width <=? App.screen_width app)
     && (Rect.y r + new_height <=? App.screen_height app - TASKBAR_HEIGHT)
  then DW.set_rect (Rect.set_height new_height (Rect.set_width new_width r)) w
  else w.

(** The motion branch of [handle_event] while a move-drag is on. *)
Definition move_drag (pos : Z * Z) (app : APP) (w : DW.t) : DW.t :=
  let r := DW.rect w in
  let new_x :=
    Z.min (Z.max 0 (fst pos - DW.offset_x w))
          (App.screen_width app - Rect.width r) in
  let new_y :=
    Z.min (Z.max 0 (snd pos - DW.offset_y w))
          (App.screen_height app - Rect.height r - TASKBAR_HEIGHT) in
  DW.set_rect (Rect.set_y new_y (Rect.set_x new_x r)) w.

(** [handle_event]: the new state and the returned value ([None], or the
    string ['minimized'] or ['maximized']). *)
Definition handle_event (self : wid) (event : Event) (app : APP)
  : APP * option string :=
  match App.window_store app !! self with
  | None => (app, None)
  | Some w =>
    if DW.minimized w then (app, None)
    else
      match event with
      | MOUSEBUTTONDOWN button pos =>
        if button =? 1 then
          if Rect.collidepoint (DW.minimize_button w) pos then
            (minimize self app, Some "minimized"%string)
          else if Rect.collidepoint (DW.maximize_button w) pos then
            (toggle_maximize self app, Some "maximized"%string)
          else
            let r := DW.rect w in
            let resize_handle :=
              Rect.mk (Rect.right r - 10) (Rect.bottom r - 10) 10 10 in
            if Rect.collidepoint resize_handle pos then
              (App.update_window self
                 (fun w =>
                    DW.set_offset_y (snd pos - Rect.bottom (DW.rect w))
                      (DW.set_offset_x (fst pos - Rect.right (DW.rect w))
                         (DW.set_resize true (DW.set_selected true w))))
                 app, None)
            else if Rect.collidepoint r pos then
              (App.update_window self
                 (fun w =>
                    DW.set_offset_y (snd pos - Rect.y (DW.rect w))
                      (DW.set_offset_x (fst pos - Rect.x (DW.rect w))
                         (DW.set_resize false (DW.set_selected true w))))
                 app, None)
            else (app, None)
        else (app, None)
      | MOUSEBUTTONUP button _ =>
        if button =? 1 then
          (App.update_window self
             (fun w => DW.set_resize false (DW.set_selected false w)) app,
           None)
        else (app, None)
      | MOUSEMOTION pos =>
        if DW.selected w then
          if DW.resize w then
            (App.update_window self (resize_drag pos app) app, None)
          else
            (App.update_window self (move_drag pos app) app, None)
        else (app, None)
      | _ => (app, None)
      end
  end.

(** The state written by [draw]: the two title-bar buttons follow the
    rectangle. *)
Definition place_buttons (w : DW.t) : DW.t :=
  let r := DW.rect w in
  DW.set_maximize_button
    (Rect.set_topleft
       (Rect.right r - (DW.button_width + 5), Rect.y r + 5)
       (DW.maximize_button w))
    (DW.set_minimize_button
       (Rect.set_topleft
          (Rect.right r - 2 * (DW.button_width + 5), Rect.y r + 5)
          (DW.minimize_button w))
       w).

(** [draw]: nothing for a minimized window.  Otherwise the shadow surface
    is created first, [pygame.Surface((width, height), SRCALPHA)], which
    raises [pygame.error] for a negative width or height; the buttons are
    moved after it.  [None] stands for the exception. *)
Definition draw (self : wid) (app : APP) : option APP :=
  match App.window_store app !! self with
  | Some w =>
    if DW.minimized w then Some app
    else if (Rect.width (DW.rect w) <? 0) || (Rect.height (DW.rect w) <? 0)
    then None
    else Some (App.update_window self place_buttons app)
  | None => Some app
  end.

End DraggableWindow.

(** ** class WindowManager *)
Module WindowManager.

Definition windows (app : APP) : list wid :=
  WindowManagerObj.windows (App.window_manager app).

Definition set_windows (ws : list wid) (app : APP) : APP :=
  App.set_window_manager (WindowManagerObj.mk ws) app.

Definition add_window (window : wid) (app : APP) : APP :=
  set_windows (windows app ++ [window]) app.

Definition remove_window (window : wid) (app : APP) : APP :=
  if decide (window ∈ windows app)
  then set_windows (remove_first window (windows app)) app
  else app.

Definition bring_to_front (window : wid) (app : APP) : APP :=
  if decide (window ∈ windows app)
  then set_windows (remove_first window (windows app) ++ [window]) app
  else app.

Definition is_selected (window : wid) (app : APP) : bool :=
  match App.window_store app !! window with
  | Some w => DW.selected w
  | None => false
  end.

(** The loop of [handle_event] over the windows still to visit, topmost
    first.  Besides the state it returns the windows whose
    [handle_event] was called, in call order. *)
Fixpoint dispatch (event : Event) (todo : list wid) (app : APP)
  : APP * list wid :=
  match todo with
  | [] => (app, [])
  | window :: rest =>
    let app1 := fst (DraggableWindow.handle_event window event app) in
    if is_selected window app1 then
      (App.set_selected_window (Some window) (bring_to_front window app1),
       [window])
    else
      let '(app2, called) := dispatch event rest app1 in
      (app2, window :: called)
  end.

Definition handle_event_trace (event : Event) (app : APP) : APP * list wid :=
  dispatch event (rev (windows app)) app.

Definition handle_event (event : Event) (app : APP) : APP :=
  fst (handle_event_trace event app).

Definition draw (app : APP) : option APP :=
  foldl (fun st w => a ← st; DraggableWindow.draw w a) (Some app) (windows app).

End WindowManager.

(** ** Python sequences and strings *)

(** [l[start:stop]] with Python's clamping of both bounds (a negative
    bound counts from the end). *)
Definition py_slice {A : Type} (l : list A) (start stop : Z) : list A :=
  let len := Z.of_nat (length l) in
  let norm i := if i <? 0 then Z.max (len + i) 0 else Z.min i len in
  let s := norm start in
  let e := norm stop in
  take (Z.to_nat (e - s)) (drop (Z.to_nat s) l).

(** [s[:-1]]: all but the last character; the empty string stays empty. *)
Fixpoint drop_last (s : string) : string :=
  match s with
  | EmptyString => EmptyString
  | String c EmptyString => EmptyString
  | String c s' => String c (drop_last s')
  end.

Definition newline : string := String (ascii_of_nat 10) EmptyString.

(** [str(n)] for a non-negative integer. *)
Definition str_of_nat (n : nat) : string := NilZero.string_of_uint (Nat.to_uint n).

(** [calculate_popup_size(text_lines, font, padding)], the same method in
    the three popup classes that size themselves from their text. *)
Definition calculate_popup_size (host : Host) (text_lines : list string)
    (padding : Z) : Z * Z :=
  let '(max_width, total_height) :=
    fold_left
      (fun '(max_width, total_height) line =>
         let '(w, h) := font_size host line in
         (if max_width <? w then w else max_width, total_height + (h + 5)))
      text_lines (0, padding * 2) in
  (max_width + padding * 2, total_height).

(** ** class RGBPropertiesWindow *)
Module RGBPropertiesWindow.
Module P := RGBPropertiesWindowObj.

Definition text_lines : list string :=
  ["RGB Properties"; "Adjust the color sliders below."]%string.

Definition init (host : Host) (x y : Z) (target_window : wid) : P.t :=
  let '(width, height) := calculate_popup_size host text_lines 20 in
  let width := Z.max width 200 in
  let height := height + 80 in
  P.mk target_window 100 100 250 (Rect.mk x y width height)
       (Rect.mk (x + 20) (y + 60) 150 20)
       (Rect.mk (x + 20) (y + 90) 150 20)
       (Rect.mk (x + 20) (y + 120) 150 20)
       false false false.

Definition update_color (self : P.t) (app : APP) : APP :=
  App.update_window (P.target_window self)
    (DW.set_color (P.r self, P.g self, P.b self)) app.

(** [int(min(max(0, x - slider.x), slider.width) / slider.width * 255)] *)
Definition slider_value (slider : Rect.t) (pos : Z * Z) : option Z :=
  q ← PyFloat.truediv
        (Z.min (Z.max 0 (fst pos - Rect.x slider)) (Rect.width slider))
        (Rect.width slider);
  v ← PyFloat.mul_int q 255;
  PyFloat.to_int v.

(** One turn of the motion loop, for the slider [slider] whose drag flag
    is [dragging] and whose channel is written by [set]. *)
Definition drag_channel (dragging : bool) (slider : Rect.t)
    (set : Z -> P.t -> P.t) (pos : Z * Z) (st : P.t * APP)
  : option (P.t * APP) :=
  if dragging then
    v ← slider_value slider pos;
    let self := set v (fst st) in
    Some (self, update_color self (snd st))
  else Some st.

Definition handle_event (self : P.t) (event : Event) (app : APP)
  : option (P.t * APP) :=
  match event with
  | MOUSEBUTTONDOWN button pos =>
    if button =? 1 then
      let hit s old := if Rect.collidepoint s pos then true else old in
      Some (P.set_dragging (hit (P.slider_R self) (P.dragging_r self))
                           (hit (P.slider_G self) (P.dragging_g self))
                           (hit (P.slider_B self) (P.dragging_b self)) self,
            app)
    else Some (self, app)
  | MOUSEBUTTONUP button _ =>
    if button =? 1 then Some (P.set_dragging false false false self, app)
    else Some (self, app)
  | MOUSEMOTION pos =>
    st ← drag_channel (P.dragging_r self) (P.slider_R self) P.set_r pos (self, app);
    st ← drag_channel (P.dragging_g self) (P.slider_G self) P.set_g pos st;
    drag_channel (P.dragging_b self) (P.slider_B self) P.set_b pos st
  | _ => Some (self, app)
  end.

End RGBPropertiesWindow.

(** ** class HelpWindow and class SubmenuWindow *)
Module HelpWindow.
Definition text_lines : list string :=
  ["Help Menu:";
   "1. Right-click on a window to open the context menu.";
   "2. Use the 'RGB' option to adjust the window's color dynamically.";
   "3. Use 'New Option' to create dynamic menu items.";
   "4. Use the taskbar to restore minimized windows.";
   "5. Drag a window by clicking and holding the title bar.";
   "6. Resize a window using the handle at the bottom-right corner.";
   "7. Use the 'Help' option to open this help menu.";
   "8. Keyboard Shortcuts:";
   "   - Ctrl+N: Open a new window.";
   "   - Ctrl+W: Minimize the selected window.";
   "   - Ctrl+F: Toggle fullscreen mode.";
   "9. Taskbar interaction: Minimized windows appear in the taskbar.";
   "   Click their buttons to restore them.";
   "10. Use the main menu for window-specific actions."]%string.

Definition init (host : Host) (x y : Z) : Rect.t :=
  let '(width, height) := calculate_popup_size host text_lines 20 in
  Rect.mk x y width height.
End HelpWindow.

Module SubmenuWindow.
Definition text_lines (title : string) : list string :=
  [("Submenu: " +:+ title)%string;
   "Placeholder text for the submenu."%string;
   "More information can be added here."%string].

Definition init (host : Host) (x y : Z) (title : string) : Rect.t :=
  let '(width, height) := calculate_popup_size host (text_lines title) 20 in
  Rect.mk x y width height.
End SubmenuWindow.

(** ** class EditablePopupWindow *)
Module EditablePopupWindow.
Module E := EditablePopupWindowObj.

Definition init (x y : Z) (target_window : wid) (option : oid) (app : APP)
  : E.t :=
  let '(name, body) :=
    match App.option_store app !! option with
    | Some o => (OptionRecord.name o, OptionRecord.body o)
    | None => (EmptyString, EmptyString)
    end in
  E.mk target_window option name body (Rect.mk x y 300 200)
       false false EmptyString true 0.

Definition handle_event (host : Host) (self : E.t) (event : Event) (app : APP)
  : E.t * APP :=
  match event with
  | MOUSEBUTTONDOWN button pos =>
    if button =? 1 then
      let r := E.rect self in
      let title_rect := Rect.mk (Rect.x r) (Rect.y r) (Rect.width r) 30 in
      let body_rect :=
        Rect.mk (Rect.x r) (Rect.y r + 30) (Rect.width r) (Rect.height r - 30) in
      if Rect.collidepoint title_rect pos then
        (E.set_input_text (E.title self)
           (E.set_editing_body false (E.set_editing_title true self)), app)
      else if Rect.collidepoint body_rect pos then
        (E.set_input_text (E.body self)
           (E.set_editing_title false (E.set_editing_body true self)), app)
      else
        (E.set_editing_body false (E.set_editing_title false self), app)
    else (self, app)
  | KEYDOWN key unicode =>
    if E.editing_title self || E.editing_body self then
      if key =? K_RETURN then
        if negb (Z.land (get_mods host) KMOD_SHIFT =? 0) then
          if E.editing_body self then
            (E.set_input_text (E.input_text self +:+ newline)
               (E.set_body (E.body self +:+ newline) self), app)
          else (self, app)
        else
          if E.editing_title self then
            let new_title := E.input_text self in
            (E.set_editing_title false (E.set_title new_title self),
             App.update_option (E.option self)
               (OptionRecord.set_name new_title) app)
          else if E.editing_body self then
            let self := E.set_editing_body false
                          (E.set_body (E.input_text self) self) in
            (self,
             App.update_option (E.option self)
               (OptionRecord.set_body (E.body self)) app)
          else (self, app)
      else if key =? K_BACKSPACE then
        (E.set_input_text (drop_last (E.input_text self)) self, app)
      else
        (E.set_input_text (E.input_text self +:+ unicode) self, app)
    else (self, app)
  | _ => (self, app)
  end.

(** The state written by [draw]: the caret blinks every 60 frames while
    a field is being edited. *)
Definition blink (self : E.t) : E.t :=
  let self := E.set_cursor_counter (E.cursor_counter self + 1) self in
  if 60 <=? E.cursor_counter self then
    E.set_cursor_counter 0
      (E.set_cursor_visible (negb (E.cursor_visible self)) self)
  else self.

Definition draw (self : E.t) : E.t :=
  let self := if E.editing_title self then blink self else self in
  if E.editing_body self then blink self else self.

End EditablePopupWindow.

(** ** class MainMenuWindow *)

(** An entry of the visible option list: one of the three static
    dictionaries, or a reference to a dynamic option dictionary. *)
Inductive MenuOption :=
| Static (name : string)
| Dynamic (o : oid).

Module MainMenuWindow.
Module M := MainMenuWindowObj.

(** [self.target_window.dynamic_options] *)
Definition dynamic_options (self : M.t) (app : APP) : list oid :=
  match App.window_store app !! M.target_window self with
  | Some w => DW.dynamic_options w
  | None => []
  end.

Definition get_visible_options (self : M.t) (app : APP) : list MenuOption :=
  let start_index := M.current_page self * OPTIONS_PER_PAGE in
  let end_index := start_index + OPTIONS_PER_PAGE in
  let dynamic_page := py_slice (dynamic_options self app) start_index end_index in
  map Static M.static_options ++ map Dynamic dynamic_page.

Definition has_multiple_pages (self : M.t) (app : APP) : bool :=
  OPTIONS_PER_PAGE <? Z.of_nat (length (dynamic_options self app)).

Definition get_total_pages (self : M.t) (app : APP) : Z :=
  (Z.of_nat (length (dynamic_options self app)) + OPTIONS_PER_PAGE - 1)
    / OPTIONS_PER_PAGE.

(** The new dictionary is allocated at the end of the option store and
    its reference appended to the target's list. *)
Definition create_new_option (self : M.t) (app : APP) : M.t * APP :=
  let new_option_number := S (length (dynamic_options self app)) in
  let new_option :=
    OptionRecord.mk ("Option " +:+ str_of_nat new_option_number)
                    "Editable body text." in
  let o : oid := length (App.option_store app) in
  let app := App.set_option_store (App.option_store app ++ [new_option]) app in
  let app :=
    App.update_window (M.target_window self)
      (fun w => DW.set_dynamic_options (DW.dynamic_options w ++ [o]) w) app in
  (M.set_current_page (get_total_pages self app - 1) self, app).

Definition option_name (option : MenuOption) (app : APP) : string :=
  match option with
  | Static name => name
  | Dynamic o =>
    match App.option_store app !! o with
    | Some r => OptionRecord.name r
    | None => EmptyString
    end
  end.

Definition option_rect (self : M.t) (i : nat) : Rect.t :=
  let r := M.rect self in
  Rect.mk (Rect.x r + 10) (Rect.y r + 10 + Z.of_nat i * 30)
          (Rect.width r - 20) 25.

(** The first visible option, from row [i] on, under the click. *)
Fixpoint clicked_option (self : M.t) (pos : Z * Z) (i : nat)
    (options : list MenuOption) : option MenuOption :=
  match options with
  | [] => None
  | option :: rest =>
    if Rect.collidepoint (option_rect self i) pos then Some option
    else clicked_option self pos (S i) rest
  end.

Definition prev_button_rect (self : M.t) : Rect.t :=
  let r := M.rect self in
  Rect.mk (Rect.x r + 10) (Rect.y r + Rect.height r - 40) 60 30.

Definition next_button_rect (self : M.t) : Rect.t :=
  let r := M.rect self in
  Rect.mk (Rect.x r + Rect.width r - 70) (Rect.y r + Rect.height r - 40) 60 30.

(** [handle_event]: the menu, the state, and the popup it returns. *)
Definition handle_event (host : Host) (self : M.t) (event : Event) (app : APP)
  : M.t * APP * option Popup :=
  match event with
  | MOUSEBUTTONDOWN button pos =>
    if button =? 1 then
      match clicked_option self pos 0 (get_visible_options self app) with
      | Some option =>
        let name := option_name option app in
        if String.eqb name "RGB" then
          (self, app,
           Some (RGBProperties
                   (RGBPropertiesWindow.init host (fst pos) (snd pos)
                      (M.target_window self))))
        else if String.eqb name "Help" then
          (self, app, Some (Help (HelpWindow.init host (fst pos) (snd pos))))
        else if String.eqb name "New Option" then
          let '(self, app) := create_new_option self app in
          (self, app, None)
        else
          match option with
          | Dynamic o =>
            (self, app,
             Some (EditablePopup
                     (EditablePopupWindow.init (fst pos) (snd pos)
                        (M.target_window self) o app)))
          | Static _ => (self, app, None)
          end
      | None =>
        if has_multiple_pages self app then
          if Rect.collidepoint (prev_button_rect self) pos then
            (M.set_current_page
               ((M.current_page self - 1) mod get_total_pages self app) self,
             app, None)
          else if Rect.collidepoint (next_button_rect self) pos then
            (M.set_current_page
               ((M.current_page self + 1) mod get_total_pages self app) self,
             app, None)
          else (self, app, None)
        else (self, app, None)
      end
    else (self, app, None)
  | _ => (self, app, None)
  end.

(** The state written by [draw]: the height follows the option count. *)
Definition draw (self : M.t) (app : APP) : M.t :=
  let actual_option_count := Z.of_nat (length (get_visible_options self app)) in
  let max_option_height :=
    (Z.of_nat (length M.static_options) + OPTIONS_PER_PAGE) * 30 in
  M.set_rect
    (Rect.set_height
       (if has_multiple_pages self app then max_option_height + 50
        else actual_option_count * 30 + 10)
       (M.rect self))
    self.

End MainMenuWindow.

(** ** Dispatch over the popup classes *)

(** [popup.handle_event(event)]: the popup, the state and the returned
    popup, or [None] when an exception is raised. *)
Definition Popup_handle_event (host : Host) (p : Popup) (event : Event)
    (app : APP) : option (Popup * APP * option Popup) :=
  match p with
  | MainMenu m =>
    let '(m, app, new_popup) := MainMenuWindow.handle_event host m event app in
    Some (MainMenu m, app, new_popup)
  | EditablePopup e =>
    let '(e, app) := EditablePopupWindow.handle_event host e event app in
    Some (EditablePopup e, app, None)
  | RGBProperties p =>
    '(p, app) ← RGBPropertiesWindow.handle_event p event app;
    Some (RGBProperties p, app, None)
  | Submenu r => Some (Submenu r, app, None)
  | Help r => Some (Help r, app, None)
  end.

Definition Popup_draw (p : Popup) (app : APP) : Popup :=
  match p with
  | MainMenu m => MainMenu (MainMenuWindow.draw m app)
  | EditablePopup e => EditablePopup (EditablePopupWindow.draw e)
  | _ => p
  end.

(** [Taskbar.handle_event]: the first button under a left click restores
    its window and brings it to the front. *)
Fixpoint Taskbar_click (pos : Z * Z) (idx : nat) (ws : list wid) (app : APP)
  : APP :=
  match ws with
  | [] => app
  | window :: rest =>
    if Rect.collidepoint (Taskbar.button_rect idx app) pos then
      WindowManager.bring_to_front window
        (Taskbar.remove_window window (DraggableWindow.restore window app))
    else Taskbar_click pos (S idx) rest app
  end.

Definition Taskbar_handle_event (event : Event) (app : APP) : APP :=
  match event with
  | MOUSEBUTTONDOWN button pos =>
    if button =? 1 then
      Taskbar_click pos 0 (TaskbarObj.minimized_windows (App.taskbar app)) app
    else app
  | _ => app
  end.

(** ** class Application *)
Module Application.

Definition constrain_window_within_screen (app : APP) (w : DW.t) : DW.t :=
  let sw := App.screen_width app in
  let sh := App.screen_height app in
  let r := DW.rect w in
  let r := if sw <? Rect.x r + Rect.width r
           then Rect.set_x (Z.max (sw - Rect.width r) 0) r else r in
  let r := if sh - TASKBAR_HEIGHT <? Rect.y r + Rect.height r
           then Rect.set_y (Z.max (sh - TASKBAR_HEIGHT - Rect.height r) 0) r
           else r in
  let r := if sw <? Rect.width r then Rect.set_width sw r else r in
  let r := if sh - TASKBAR_HEIGHT <? Rect.height r
           then Rect.set_height (sh - TASKBAR_HEIGHT) r else r in
  DW.set_rect r w.

(** [int(n * scale)] *)
Definition scaled (n : Z) (scale : spec_float) : option Z :=
  f ← PyFloat.int_mul n scale;
  PyFloat.to_int f.

(** The body of the loop over the windows on a resize of the screen. *)
Definition rescale_window (scale_x scale_y : spec_float) (app : APP)
    (w : DW.t) : option DW.t :=
  let r := DW.rect w in
  new_x ← scaled (Rect.x r) scale_x;
  new_y ← scaled (Rect.y r) scale_y;
  new_width ← scaled (Rect.width r) scale_x;
  new_height ← scaled (Rect.height r) scale_y;
  Some (constrain_window_within_screen app
          (DW.set_rect
             (Rect.mk new_x new_y (Z.max new_width 150) (Z.max new_height 100))
             w)).

Fixpoint rescale_windows (scale_x scale_y : spec_float) (ws : list wid)
    (app : APP) : option APP :=
  match ws with
  | [] => Some app
  | window :: rest =>
    match App.window_store app !! window with
    | Some w =>
      w' ← rescale_window scale_x scale_y app w;
      rescale_windows scale_x scale_y rest
        (App.set_window_store (<[window := w']> (App.window_store app)) app)
    | None => rescale_windows scale_x scale_y rest app
    end
  end.

Definition update_taskbar_rect (app : APP) : APP :=
  App.set_taskbar
    (TaskbarObj.set_rect
       (Rect.set_size (App.screen_width app, TASKBAR_HEIGHT)
          (Rect.set_topleft (0, App.screen_height app - TASKBAR_HEIGHT)
             (TaskbarObj.rect (App.taskbar app))))
       (App.taskbar app))
    app.

Definition on_videoresize (w h : Z) (app : APP) : option APP :=
  let app := update_taskbar_rect (App.set_screen_size w h app) in
  scale_x ← PyFloat.truediv (App.screen_width app) (App.prev_screen_width app);
  scale_y ← PyFloat.truediv (App.screen_height app) (App.prev_screen_height app);
  app ← rescale_windows scale_x scale_y (WindowManager.windows app) app;
  Some (App.set_prev_screen_size (App.screen_width app) (App.screen_height app) app).

Definition on_ctrl_key (host : Host) (key : Z) (app : APP) : option APP :=
  if key =? K_n then
    new_x ← randint (entropy_x host) 50 (App.screen_width app - 350);
    new_y ← randint (entropy_y host) 50
              (App.screen_height app - TASKBAR_HEIGHT - 250);
    let title :=
      "Window " +:+ str_of_nat (S (length (WindowManager.windows app))) in
    let new_window : wid := length (App.window_store app) in
    Some (WindowManager.add_window new_window
            (App.set_window_store
               (App.window_store app ++ [DW.init new_x new_y 300 200 title])
               app))
  else if key =? K_w then
    match App.selected_window app with
    | Some window =>
      Some (App.set_selected_window None (DraggableWindow.minimize window app))
    | None => Some app
    end
  else if key =? K_f then
    let app :=
      if App.is_fullscreen app then
        App.set_screen_size (fst (windowed_size host))
          (snd (windowed_size host)) (App.set_is_fullscreen false app)
      else
        App.set_screen_size (fst (fullscreen_size host))
          (snd (fullscreen_size host)) (App.set_is_fullscreen true app) in
    Some (update_taskbar_rect app)
  else Some app.

(** The first [if ... elif] chain of [handle_event]. *)
Definition handle_global (host : Host) (event : Event) (app : APP)
  : option APP :=
  match event with
  | QUIT => Some (App.set_running false app)
  | KEYDOWN key _ =>
    if negb (Z.land (get_mods host) KMOD_CTRL =? 0)
    then on_ctrl_key host key app
    else Some app
  | VIDEORESIZE w h => on_videoresize w h app
  | _ => Some app
  end.

(** [current_menu.handle_event(event)] on the last popup of the stack,
    which is mutated in place, followed by the push of the popup it
    returns. *)
Definition menu_handle_event (host : Host) (current_menu : Popup)
    (event : Event) (app : APP) : option APP :=
  '(menu, app, new_popup) ← Popup_handle_event host current_menu event app;
  let stack := removelast (App.menu_stack app) ++ [menu] in
  Some (App.set_menu_stack
          (match new_popup with
           | Some p => stack ++ [p]
           | None => stack
           end) app).

(** The first window, topmost first, whose rectangle is under [pos]. *)
Fixpoint window_under (pos : Z * Z) (ws : list wid) (app : APP) : option wid :=
  match ws with
  | [] => None
  | window :: rest =>
    match App.window_store app !! window with
    | Some w =>
      if Rect.collidepoint (DW.rect w) pos then Some window
      else window_under pos rest app
    | None => window_under pos rest app
    end
  end.

(** The second [if ... else] of [handle_event]. *)
Definition handle_mouse (host : Host) (event : Event) (app : APP)
  : option APP :=
  match event with
  | MOUSEBUTTONDOWN button pos =>
    if button =? 1 then
      if Rect.collidepoint (TaskbarObj.rect (App.taskbar app)) pos then
        Some (Taskbar_handle_event event app)
      else
        match last (App.menu_stack app) with
        | Some current_menu =>
          if Rect.collidepoint (popup_rect current_menu) pos then
            menu_handle_event host current_menu event app
          else Some (App.set_menu_stack [] app)
        | None => Some (WindowManager.handle_event event app)
        end
    else if button =? 3 then
      match last (App.menu_stack app) with
      | Some current_menu =>
        if Rect.collidepoint (popup_rect current_menu) pos then
          Some (App.set_menu_stack (removelast (App.menu_stack app)) app)
        else Some (App.set_menu_stack [] app)
      | None =>
        match window_under pos (rev (WindowManager.windows app)) app with
        | Some window =>
          Some (App.set_menu_stack
                  (App.menu_stack app
                   ++ [MainMenu (MainMenuWindowObj.init (fst pos) (snd pos) window)])
                  app)
        | None => Some app
        end
      end
    else Some app
  | _ =>
    app ← match last (App.menu_stack app) with
          | Some current_menu => menu_handle_event host current_menu event app
          | None => Some app
          end;
    Some (WindowManager.handle_event event app)
  end.

(** [handle_event]; [None] stands for an uncaught exception. *)
Definition handle_event (host : Host) (event : Event) (app : APP)
  : option APP :=
  app ← handle_global host event app;
  handle_mouse host event app.

(** The state written by [draw].  It raises when the [draw] of a window
    does; the fills, the lines and the rendering of text are taken to
    succeed. *)
Definition draw (app : APP) : option APP :=
  app ← WindowManager.draw app;
  Some (App.set_menu_stack
          (map (fun menu => Popup_draw menu app) (App.menu_stack app)) app).

(** One turn of the loop of [run]: the events of the frame, then [draw]. *)
Definition frame (events : list (Host * Event)) (app : APP) : option APP :=
  app ← foldl (fun st '(host, event) => app ← st; handle_event host event app)
              (Some app) events;
  draw app.

(** [run] over the given frames, while [running] holds. *)
Fixpoint run (frames : list (list (Host * Event))) (app : APP) : option APP :=
  match frames with
  | [] => Some app
  | events :: rest =>
    if App.running app then app ← frame events app; run rest app
    else Some app
  end.

End Application.

(** The program's entry point: the application with its main window. *)
Definition main : APP :=
  WindowManager.add_window 0%nat
    (App.set_window_store [DW.init 100 100 300 200 "Main Window"] App.init).

(** ** Vocabulary of the properties *)

(** The event delivered to the windows [ws], in that order, with no test
    of [selected] in between. *)
Definition deliver (event : Event) (ws : list wid) (app : APP) : APP :=
  fold_left (fun a w => fst (DraggableWindow.handle_event w event a)) ws app.

(** The four state-changing methods of a window, as a call sequence. *)
Inductive WindowOp := Minimize | Maximize | Restore | ToggleMaximize.

Definition apply_op (self : wid) (op : WindowOp) (app : APP) : APP :=
  match op with
  | Minimize => DraggableWindow.minimize self app
  | Maximize => DraggableWindow.maximize self app
  | Restore => DraggableWindow.restore self app
  | ToggleMaximize => DraggableWindow.toggle_maximize self app
  end.

Definition apply_ops (self : wid) (ops : list WindowOp) (app : APP) : APP :=
  fold_left (fun a op => apply_op self op a) ops app.

(** The pair [(minimized, maximized)] of the window [self]. *)
Definition flags (self : wid) (app : APP) : bool * bool :=
  match App.window_store app !! self with
  | Some w => (DW.minimized w, DW.maximized w)
  | None => (false, false)
  end.

(** What one method call does to the pair of flags. *)
Definition flag_step (op : WindowOp) (f : bool * bool) : bool * bool :=
  match op with
  | Minimize => (true, snd f)
  | Maximize => (fst f, true)
  | Restore => (false, false)
  | ToggleMaximize => if snd f then (false, false) else (fst f, true)
  end.

(** [r] lies in [[0, screen_width] x [0, screen_height - TASKBAR_HEIGHT]]. *)
Definition within_screen (app : APP) (r : Rect.t) : Prop :=
  0 <= Rect.x r /\ 0 <= Rect.y r /\ 0 <= Rect.width r /\ 0 <= Rect.height r
  /\ Rect.x r + Rect.width r <= App.screen_width app
  /\ Rect.y r + Rect.height r <= App.screen_height app - TASKBAR_HEIGHT.

(** The float is not a negative number: its sign bit is clear, or it is a
    zero, an infinity or a NaN. *)
Definition float_nonneg (f : spec_float) : bool :=
  match f with
  | S754_finite s _ _ => negb s
  | _ => true
  end.

(** The rectangle of the window [self], when it is live. *)
Definition rect_of (self : wid) (app : APP) : option Rect.t :=
  DW.rect <$> App.window_store app !! self.

Definition minimized_windows (app : APP) : list wid :=
  TaskbarObj.minimized_windows (App.taskbar app).

(** The events of a list handled one after the other. *)
Definition handle_events (inputs : list (Host * Event)) (app : APP)
  : option APP :=
  foldl (fun st '(host, event) => app ← st; Application.handle_event host event app)
        (Some app) inputs.

(** A host with a fixed-pitch font, no entropy, a 1920x1080 display and
    a window manager that grants the 800x600 window asked for, for the
    concrete runs. *)
Definition example_host (mods : Z) : Host :=
  {| get_mods := mods;
     entropy_x := 0;
     entropy_y := 0;
     fullscreen_size := (1920, 1080);
     windowed_size := (800, 600);
     font_size := fun line => (10 * Z.of_nat (String.length line), 17) |}.

(** A frame made of one event, with no modifier key held. *)
Definition one (event : Event) : list (Host * Event) :=
  [(example_host 0, event)].

(** A session that ends in a move-drag of a window wider than the screen:
    the screen is enlarged, the main window is resized to 1200x700 and
    maximized, the screen is shrunk back, the window is restored to its
    snapshot and grabbed by its title bar. *)
Definition oversize_session : list (list (Host * Event)) :=
  [ one (VIDEORESIZE 1600 1200);
    one (MOUSEBUTTONDOWN 1 (795, 595));
    one (MOUSEMOTION (1395, 895));
    one (MOUSEBUTTONUP 1 (1395, 895));
    one (MOUSEBUTTONDOWN 1 (1380, 210));
    one (MOUSEBUTTONUP 1 (1380, 210));
    one (VIDEORESIZE 800 600);
    one (MOUSEBUTTONDOWN 1 (780, 10));
    one (MOUSEBUTTONUP 1 (780, 10));
    one (MOUSEBUTTONDOWN 1 (300, 210)) ].

(** The same session continued: the move-drag takes the window to
    (-400, -140), the button is released, and the window is grabbed by
    its resize handle, which is still on the screen. *)
Definition oversize_resize_session : list (list (Host * Event)) :=
  oversize_session
  ++ [ one (MOUSEMOTION (301, 210));
       one (MOUSEBUTTONUP 1 (301, 210));
       one (MOUSEBUTTONDOWN 1 (795, 555)) ].

(** A session that opens the context menu of the main window and then the
    help popup from it, so that the menu stack holds two popups. *)
Definition two_menus_session : list (list (Host * Event)) :=
  [ one (MOUSEBUTTONDOWN 3 (150, 150));
    one (MOUSEBUTTONDOWN 1 (170, 195)) ].

(** A session that opens the context menu of the main window and selects
    "New Option" [n] times. *)
Definition new_option_session (n : nat) : list (list (Host * Event)) :=
  one (MOUSEBUTTONDOWN 3 (150, 150))
  :: repeat (one (MOUSEBUTTONDOWN 1 (170, 225))) n.

(** A session that selects the main window, minimizes it with its
    title-bar button and then asks, with Ctrl+W, to minimize the (still
    recorded) selected window a second time. *)
Definition minimize_twice_session : list (list (Host * Event)) :=
  [ one (MOUSEBUTTONDOWN 1 (200, 200));
    one (MOUSEBUTTONUP 1 (200, 200));
    one (MOUSEBUTTONDOWN 1 (355, 110));
    [(example_host 64, KEYDOWN K_w "w")] ].

(** An editing popup bound to the option [o], with the given mode flags
    and edit buffer. *)
Definition editing_popup (o : oid) (title body : string)
    (editing_title editing_body : bool) (input_text : string)
  : EditablePopupWindowObj.t :=
  EditablePopupWindowObj.mk 0%nat o title body (Rect.mk 0 0 300 200)
    editing_title editing_body input_text true 0.

(** The main application with one dynamic option on its window. *)
Definition main_with_option : APP :=
  snd (MainMenuWindow.create_new_option (MainMenuWindowObj.init 150 150 0%nat) main).

(** The events [events] delivered to the single window [self]. *)
Definition window_events (self : wid) (events : list Event) (app : APP) : APP :=
  fold_left (fun a event => fst (DraggableWindow.handle_event self event a))
            events app.

(** [current_page] names a page of the menu: page 0 of a menu without
    dynamic options, or one of the [get_total_pages] pages. *)
Definition valid_page (self : MainMenuWindowObj.t) (app : APP) : Prop :=
  0 <= MainMenuWindowObj.current_page self
  /\ (MainMenuWindowObj.current_page self < MainMenuWindow.get_total_pages self app
      \/ MainMenuWindowObj.current_page self = 0).

(** At most one of the two edit modes of the popup is on. *)
Definition one_edit_mode (self : EditablePopupWindowObj.t) : Prop :=
  EditablePopupWindowObj.editing_title self
  && EditablePopupWindowObj.editing_body self = false.

(** The taskbar rectangle is the bottom strip of the screen. *)
Definition taskbar_pinned (app : APP) : Prop :=
  TaskbarObj.rect (App.taskbar app)
  = Rect.mk 0 (App.screen_height app - TASKBAR_HEIGHT)
            (App.screen_width app) TASKBAR_HEIGHT.

(** The three sliders are 150 wide and the three channels are bytes, as
    in a popup made by [RGBPropertiesWindow.init]. *)
Definition rgb_ok (self : RGBPropertiesWindowObj.t) : Prop :=
  Rect.width (RGBPropertiesWindowObj.slider_R self) = 150
  /\ Rect.width (RGBPropertiesWindowObj.slider_G self) = 150
  /\ Rect.width (RGBPropertiesWindowObj.slider_B self) = 150
  /\ 0 <= RGBPropertiesWindowObj.r self <= 255
  /\ 0 <= RGBPropertiesWindowObj.g self <= 255
  /\ 0 <= RGBPropertiesWindowObj.b self <= 255.

(** The display state of the application: the attributes that only the
    global branch of [handle_event] writes. *)
Definition display_of (app : APP) : Z * Z * bool * bool * Z * Z * Rect.t :=
  (App.screen_width app, App.screen_height app, App.is_fullscreen app,
   App.running app, App.prev_screen_width app, App.prev_screen_height app,
   TaskbarObj.rect (App.taskbar app)).

(** * Properties *)

(** ** The object stores *)

Lemma window_store_update_eq (self : wid) f (app : APP) (w : DW.t) :
  App.window_store app !! self = Some w ->
  App.window_store (App.update_window self f app) !! self = Some (f w).
Proof.
  intros Hw. unfold App.update_window, App.set_window_store.
  cbn [App.window_store]. rewrite list_lookup_alter_eq, Hw. reflexivity.
Qed.

Lemma window_store_update_ne (self other : wid) f (app : APP) :
  self <> other ->
  App.window_store (App.update_window self f app) !! other
  = App.window_store app !! other.
Proof.
  intros Hne. unfold App.update_window, App.set_window_store.
  cbn [App.window_store]. apply list_lookup_alter_ne. exact Hne.
Qed.

Lemma window_store_add_window (window : wid) (app : APP) :
  App.window_store (Taskbar.add_window window app) = App.window_store app.
Proof. unfold Taskbar.add_window. case_decide; reflexivity. Qed.

Lemma window_store_remove_window (window : wid) (app : APP) :
  App.window_store (Taskbar.remove_window window app) = App.window_store app.
Proof. unfold Taskbar.remove_window. case_decide; reflexivity. Qed.

(** What the four methods do to the object they are called on. *)
Lemma minimize_self (self : wid) (app : APP) (w : DW.t) :
  App.window_store app !! self = Some w ->
  App.window_store (DraggableWindow.minimize self app) !! self
  = Some (DW.set_minimized true w).
Proof.
  intros Hw. unfold DraggableWindow.minimize.
  rewrite window_store_add_window. apply window_store_update_eq, Hw.
Qed.

Lemma maximize_self (self : wid) (app : APP) (w : DW.t) :
  App.window_store app !! self = Some w ->
  App.window_store (DraggableWindow.maximize self app) !! self
  = Some (DW.set_maximized true
            (DW.set_rect
               (Rect.mk 0 0 (App.screen_width app)
                        (App.screen_height app - TASKBAR_HEIGHT))
               (DW.set_prev_rect (DW.rect w) w))).
Proof.
  intros Hw. unfold DraggableWindow.maximize.
  rewrite (window_store_update_eq _ _ _ _ Hw). reflexivity.
Qed.

Lemma restore_self (self : wid) (app : APP) (w : DW.t) :
  App.window_store app !! self = Some w ->
  App.window_store (DraggableWindow.restore self app) !! self
  = Some (DW.set_maximized false
            (DW.set_minimized false (DW.set_rect (DW.prev_rect w) w))).
Proof.
  intros Hw. unfold DraggableWindow.restore.
  rewrite window_store_remove_window.
  rewrite (window_store_update_eq _ _ _ _ Hw). reflexivity.
Qed.

Lemma toggle_maximize_self (self : wid) (app : APP) (w : DW.t) :
  App.window_store app !! self = Some w ->
  DraggableWindow.toggle_maximize self app
  = if DW.maximized w then DraggableWindow.restore self app
    else DraggableWindow.maximize self app.
Proof. intros Hw. unfold DraggableWindow.toggle_maximize. rewrite Hw. reflexivity. Qed.

(** A call refines [flag_step], and the object stays live. *)
Lemma apply_op_flags (self : wid) (op : WindowOp) (app : APP) (w : DW.t) :
  App.window_store app !! self = Some w ->
  is_Some (App.window_store (apply_op self op app) !! self)
  /\ flags self (apply_op self op app) = flag_step op (flags self app).
Proof.
  intros Hw. unfold flags. rewrite Hw.
  destruct op; unfold apply_op, flag_step; cbn [fst snd].
  - rewrite (minimize_self _ _ _ Hw). eauto.
  - rewrite (maximize_self _ _ _ Hw). eauto.
  - rewrite (restore_self _ _ _ Hw). eauto.
  - rewrite (toggle_maximize_self _ _ _ Hw).
    destruct (DW.maximized w).
    + rewrite (restore_self _ _ _ Hw). eauto.
    + rewrite (maximize_self _ _ _ Hw). eauto.
Qed.

Lemma apply_ops_snoc (self : wid) (ops : list WindowOp) (op : WindowOp) (app : APP) :
  apply_ops self (ops ++ [op]) app = apply_op self op (apply_ops self ops app).
Proof. unfold apply_ops. rewrite fold_left_app. reflexivity. Qed.

Lemma apply_ops_live (self : wid) (ops : list WindowOp) (app : APP) :
  is_Some (App.window_store app !! self) ->
  is_Some (App.window_store (apply_ops self ops app) !! self).
Proof.
  intros Hlive. induction ops as [|op ops IH] using rev_ind; [exact Hlive|].
  rewrite apply_ops_snoc. destruct IH as [w Hw].
  apply (apply_op_flags self op _ w Hw).
Qed.

(** C3, as stated, fails: after [maximize] then [minimize] on the freshly
    constructed main window both flags are true. *)
Lemma C3_flags_both_true_after_maximize_minimize :
  App.window_store main !! 0%nat = Some (DW.init 100 100 300 200 "Main Window")
  /\ flags 0%nat (apply_ops 0%nat [Maximize; Minimize] main) = (true, true).
Proof. split; reflexivity. Qed.

(** C3, amended: along any sequence of [minimize], [maximize], [restore]
    and [toggle_maximize] calls on a window that starts with both flags
    clear (as a freshly constructed one does), the flags evolve by
    [flag_step]; [minimized] is set only if the sequence has a [minimize],
    [maximized] only if it has a [maximize] or a [toggle_maximize], so the
    two are never both set in a sequence that lacks either kind of call;
    and a sequence that ends in [restore] leaves both clear. *)
Theorem C3_flags_of_call_sequence
    (self : wid) (app : APP) (w : DW.t) (ops : list WindowOp) :
  App.window_store app !! self = Some w ->
  DW.minimized w = false ->
  DW.maximized w = false ->
  let f := flags self (apply_ops self ops app) in
  f = fold_left (fun f op => flag_step op f) ops (false, false)
  /\ (fst f = true -> Minimize ∈ ops)
  /\ (snd f = true -> Maximize ∈ ops \/ ToggleMaximize ∈ ops)
  /\ (forall ops', ops = ops' ++ [Restore] -> f = (false, false)).
Proof.
  intros Hw Hmin Hmax. simpl.
  assert (Hrun : flags self (apply_ops self ops app)
                 = fold_left (fun f op => flag_step op f) ops (false, false)).
  { induction ops as [|op ops IH] using rev_ind.
    - unfold flags. simpl. rewrite Hw, Hmin, Hmax. reflexivity.
    - rewrite apply_ops_snoc, fold_left_app. simpl. rewrite <- IH.
      destruct (apply_ops_live self ops app) as [w' Hw']; [eauto|].
      apply (apply_op_flags self op _ w' Hw'). }
  rewrite Hrun. split; [reflexivity|]. clear Hrun.
  induction ops as [|op ops IH] using rev_ind.
  - simpl. split; [discriminate|]. split; [discriminate|]. reflexivity.
  - rewrite fold_left_app. simpl.
    destruct IH as (IHmin & IHmax & _).
    set (f := fold_left (fun f op => flag_step op f) ops (false, false)) in *.
    destruct f as [mi ma]. simpl in *.
    split; [|split].
    + intros H. apply elem_of_app. destruct op; simpl in H.
      * right. apply list_elem_of_singleton. reflexivity.
      * left. auto.
      * discriminate.
      * destruct ma; simpl in H; [discriminate|]. left. auto.
    + intros H. destruct op; simpl in H.
      * destruct (IHmax H); [left|right]; apply elem_of_app; auto.
      * left. apply elem_of_app. right. apply list_elem_of_singleton. reflexivity.
      * discriminate.
      * right. apply elem_of_app. right. apply list_elem_of_singleton. reflexivity.
    + intros ops' Heq. apply app_inj_tail in Heq. destruct Heq as [_ ->].
      reflexivity.
Qed.

Lemma C3_flags_of_call_sequence_witness :
  let f := flags 0%nat (apply_ops 0%nat [Maximize; Minimize; Restore] main) in
  f = fold_left (fun f op => flag_step op f) [Maximize; Minimize; Restore] (false, false)
  /\ (fst f = true -> Minimize ∈ [Maximize; Minimize; Restore])
  /\ (snd f = true -> Maximize ∈ [Maximize; Minimize; Restore]
                      \/ ToggleMaximize ∈ [Maximize; Minimize; Restore])
  /\ (forall ops', [Maximize; Minimize; Restore] = ops' ++ [Restore] -> f = (false, false)).
Proof.
  apply (C3_flags_of_call_sequence 0%nat main
           (DW.init 100 100 300 200 "Main Window")
           [Maximize; Minimize; Restore]); reflexivity.
Defined.

(** ** Minimize and restore *)

(** C7, as stated, fails: the window is maximized, so its rectangle before
    [minimize] is the full screen; [minimize] then [restore] gives back the
    rectangle snapshotted by [maximize], not the one [minimize] found. *)
Lemma C7_restore_after_maximize_is_not_pre_minimize :
  rect_of 0%nat (DraggableWindow.maximize 0%nat main) = Some (Rect.mk 0 0 800 560)
  /\ rect_of 0%nat
       (DraggableWindow.restore 0%nat
          (DraggableWindow.minimize 0%nat (DraggableWindow.maximize 0%nat main)))
     = Some (Rect.mk 100 100 300 200)
  /\ rect_of 0%nat
       (DraggableWindow.restore 0%nat
          (DraggableWindow.minimize 0%nat (DraggableWindow.maximize 0%nat main)))
     <> rect_of 0%nat (DraggableWindow.maximize 0%nat main).
Proof. split; [reflexivity|]. split; [reflexivity|]. discriminate. Qed.

(** C7, amended: [minimize] changes nothing but the [minimized] flag of the
    window and the membership of the window in the taskbar list; in
    particular the rectangle stays.  A following [restore] sets the
    rectangle to [prev_rect]; when a [maximize] came before the
    [minimize], that is the rectangle the window had before [maximize]. *)
Theorem C7_minimize_then_restore (self : wid) (app : APP) (w : DW.t) :
  App.window_store app !! self = Some w ->
  let app1 := DraggableWindow.minimize self app in
  App.window_store app1 !! self = Some (DW.set_minimized true w)
  /\ rect_of self app1 = Some (DW.rect w)
  /\ (forall other, other <> self ->
        App.window_store app1 !! other = App.window_store app !! other)
  /\ minimized_windows app1
     = (if decide (self ∈ minimized_windows app) then minimized_windows app
        else minimized_windows app ++ [self])
  /\ App.set_taskbar (App.taskbar app)
       (App.set_window_store (App.window_store app) app1) = app
  /\ TaskbarObj.rect (App.taskbar app1) = TaskbarObj.rect (App.taskbar app)
  /\ rect_of self (DraggableWindow.restore self app1) = Some (DW.prev_rect w)
  /\ rect_of self
       (DraggableWindow.restore self
          (DraggableWindow.minimize self (DraggableWindow.maximize self app)))
     = Some (DW.rect w).
Proof.
  intros Hw app1.
  assert (H1 : App.window_store app1 !! self = Some (DW.set_minimized true w))
    by (apply minimize_self, Hw).
  split; [exact H1|].
  split; [unfold rect_of; rewrite H1; reflexivity|].
  split.
  { intros other Hne. unfold app1, DraggableWindow.minimize.
    rewrite window_store_add_window. apply window_store_update_ne. congruence. }
  split.
  { unfold app1, DraggableWindow.minimize, Taskbar.add_window, minimized_windows.
    cbn [App.update_window App.set_window_store App.taskbar].
    case_decide; reflexivity. }
  split.
  { unfold app1, DraggableWindow.minimize, Taskbar.add_window.
    case_decide; destruct app; reflexivity. }
  split.
  { unfold app1, DraggableWindow.minimize, Taskbar.add_window.
    case_decide; reflexivity. }
  split.
  { unfold rect_of. rewrite (restore_self _ _ _ H1). reflexivity. }
  unfold rect_of.
  rewrite (restore_self _ _ _ (minimize_self _ _ _ (maximize_self _ _ _ Hw))).
  reflexivity.
Qed.

Lemma C7_minimize_then_restore_witness :
  rect_of 0%nat (DraggableWindow.minimize 0%nat main) = Some (Rect.mk 100 100 300 200).
Proof.
  apply (C7_minimize_then_restore 0%nat main
           (DW.init 100 100 300 200 "Main Window")).
  reflexivity.
Defined.

(** ** Drags *)

Lemma motion_selected (self : wid) (app : APP) (w : DW.t) (pos : Z * Z) :
  App.window_store app !! self = Some w ->
  DW.selected w = true ->
  DW.minimized w = false ->
  fst (DraggableWindow.handle_event self (MOUSEMOTION pos) app)
  = App.update_window self
      (if DW.resize w then DraggableWindow.resize_drag pos app
       else DraggableWindow.move_drag pos app) app.
Proof.
  intros Hw Hsel Hmin. unfold DraggableWindow.handle_event.
  rewrite Hw, Hmin, Hsel. destruct (DW.resize w); reflexivity.
Qed.

(** C5, as stated, fails.  The session below is one the program can run:
    it ends with the main window at (-400, -140), 1200x700 on a screen of
    800x600, in a resize-drag; the next motion event is accepted, because
    the right and bottom edges stay inside, and leaves a rectangle that
    is not within the screen area. *)
Lemma C5_resize_drag_leaves_screen :
  match Application.run oversize_resize_session main with
  | Some app =>
    (App.screen_width app, App.screen_height app) = (800, 600)
    /\ DW.selected <$> App.window_store app !! 0%nat = Some true
    /\ DW.resize <$> App.window_store app !! 0%nat = Some true
    /\ DW.minimized <$> App.window_store app !! 0%nat = Some false
    /\ rect_of 0%nat app = Some (Rect.mk (-400) (-140) 1200 700)
    /\ rect_of 0%nat
         (fst (DraggableWindow.handle_event 0%nat (MOUSEMOTION (794, 554)) app))
       = Some (Rect.mk (-400) (-140) 1199 699)
    /\ ~ within_screen app (Rect.mk (-400) (-140) 1199 699)
  | None => False
  end.
Proof.
  set (st := Application.run oversize_resize_session main).
  vm_compute in st. subst st. cbv beta iota.
  repeat (split; [reflexivity|]).
  unfold within_screen. simpl. lia.
Qed.

(** C5: on a motion event while the window is in a resize-drag the
    candidate size is the cursor minus the origin minus the offset,
    floored at 200 and 150; a window that is not minimized takes the
    candidate when its right and bottom edges stay within the screen
    width and the screen height minus the taskbar height (for an origin
    inside the screen this is containment in the screen area); in every
    other case the window object is left as it was. *)
Theorem C5_resize_drag_motion (self : wid) (app : APP) (w : DW.t) (pos : Z * Z) :
  App.window_store app !! self = Some w ->
  DW.selected w = true ->
  DW.resize w = true ->
  let r := DW.rect w in
  let new_width := Z.max 200 (fst pos - Rect.x r - DW.offset_x w) in
  let new_height := Z.max 150 (snd pos - Rect.y r - DW.offset_y w) in
  let candidate := Rect.mk (Rect.x r) (Rect.y r) new_width new_height in
  let fits := Rect.x r + new_width <= App.screen_width app
              /\ Rect.y r + new_height <= App.screen_height app - TASKBAR_HEIGHT in
  let app' := fst (DraggableWindow.handle_event self (MOUSEMOTION pos) app) in
  200 <= new_width /\ 150 <= new_height
  /\ (DW.minimized w = false -> fits ->
      App.window_store app' !! self = Some (DW.set_rect candidate w))
  /\ (~ fits -> App.window_store app' !! self = Some w)
  /\ (rect_of self app' <> Some r -> fits /\ rect_of self app' = Some candidate)
  /\ (0 <= Rect.x r -> 0 <= Rect.y r -> (fits <-> within_screen app candidate)).
Proof.
  intros Hw Hsel Hres r new_width new_height candidate fits app'.
  assert (Hstep : App.window_store app' !! self
                  = Some (if DW.minimized w then w
                          else DraggableWindow.resize_drag pos app w)).
  { unfold app'. destruct (DW.minimized w) eqn:Hmin.
    - unfold DraggableWindow.handle_event. rewrite Hw, Hmin. exact Hw.
    - rewrite (motion_selected _ _ _ _ Hw Hsel Hmin), Hres.
      apply window_store_update_eq, Hw. }
  assert (Hdrag : DraggableWindow.resize_drag pos app w
                  = if (Rect.x r + new_width <=? App.screen_width app)
                       && (Rect.y r + new_height
                           <=? App.screen_height app - TASKBAR_HEIGHT)
                    then DW.set_rect candidate w else w) by reflexivity.
  assert (Hfits : fits <->
                  (Rect.x r + new_width <=? App.screen_width app)
                  && (Rect.y r + new_height
                      <=? App.screen_height app - TASKBAR_HEIGHT) = true).
  { unfold fits. rewrite andb_true_iff, !Z.leb_le. reflexivity. }
  split; [apply Z.le_max_l|]. split; [apply Z.le_max_l|].
  split.
  { intros Hmin Hf. rewrite Hstep, Hmin, Hdrag.
    apply Hfits in Hf. rewrite Hf. reflexivity. }
  split.
  { intros Hnf. rewrite Hstep, Hdrag.
    destruct (_ && _); [exfalso; apply Hnf, Hfits; reflexivity|].
    destruct (DW.minimized w); reflexivity. }
  split.
  { unfold rect_of. rewrite Hstep, Hdrag. intros Hne.
    destruct (DW.minimized w); [exfalso; apply Hne; reflexivity|].
    destruct (_ && _); [|exfalso; apply Hne; reflexivity].
    split; [apply Hfits; reflexivity | reflexivity]. }
  intros Hx Hy. unfold fits, within_screen, candidate. simpl.
  pose proof (Z.le_max_l 200 (fst pos - Rect.x r - DW.offset_x w)).
  pose proof (Z.le_max_l 150 (snd pos - Rect.y r - DW.offset_y w)).
  fold new_width new_height. lia.
Qed.

Lemma C5_resize_drag_motion_witness :
  let app := App.update_window 0%nat
               (fun w => DW.set_offset_y (-5)
                           (DW.set_offset_x (-5)
                              (DW.set_resize true (DW.set_selected true w))))
               main in
  rect_of 0%nat (fst (DraggableWindow.handle_event 0%nat (MOUSEMOTION (495, 345)) app))
  = Some (Rect.mk 100 100 400 250).
Proof.
  intros app.
  pose proof (C5_resize_drag_motion 0%nat app
                (DW.set_offset_y (-5)
                   (DW.set_offset_x (-5)
                      (DW.set_resize true
                         (DW.set_selected true
                            (DW.init 100 100 300 200 "Main Window")))))
                (495, 345) eq_refl eq_refl eq_refl) as H.
  cbv zeta in H. destruct H as (_ & _ & Happly & _).
  unfold rect_of. rewrite Happly; [reflexivity | reflexivity |].
  split; vm_compute; discriminate.
Defined.

(** C6, as stated, fails.  The session below is one the program can run:
    it ends with the main window, 1200 wide on a screen 800 wide, grabbed
    for a move-drag; the next motion event puts its origin at
    (-400, -140), outside the screen. *)
Lemma C6_move_drag_leaves_screen :
  match Application.run oversize_session main with
  | Some app =>
    (App.screen_width app, App.screen_height app) = (800, 600)
    /\ DW.selected <$> App.window_store app !! 0%nat = Some true
    /\ DW.resize <$> App.window_store app !! 0%nat = Some false
    /\ DW.minimized <$> App.window_store app !! 0%nat = Some false
    /\ rect_of 0%nat
         (fst (DraggableWindow.handle_event 0%nat (MOUSEMOTION (301, 210)) app))
       = Some (Rect.mk (-400) (-140) 1200 700)
    /\ ~ within_screen app (Rect.mk (-400) (-140) 1200 700)
  | None => False
  end.
Proof.
  set (st := Application.run oversize_session main).
  vm_compute in st. subst st. cbv beta iota.
  repeat (split; [reflexivity|]).
  unfold within_screen. simpl. lia.
Qed.

(** C6, amended: a motion event on a selected, non-minimized window leaves
    the screen size alone and, in a resize-drag, keeps a rectangle that
    was within the screen area within it; in a move-drag of a window that
    fits the screen area ([0 <= width <= screen_width] and
    [0 <= height <= screen_height - TASKBAR_HEIGHT]) it keeps the size and
    puts the origin at the cursor minus the offset clamped into
    [[0, screen_width - width] x [0, screen_height - TASKBAR_HEIGHT - height]],
    so the rectangle is within the screen area. *)
Theorem C6_drag_motion_within_screen
    (self : wid) (app : APP) (w : DW.t) (pos : Z * Z) :
  App.window_store app !! self = Some w ->
  DW.selected w = true ->
  DW.minimized w = false ->
  let app' := fst (DraggableWindow.handle_event self (MOUSEMOTION pos) app) in
  let r := DW.rect w in
  let max_x := App.screen_width app - Rect.width r in
  let max_y := App.screen_height app - TASKBAR_HEIGHT - Rect.height r in
  let target_x := fst pos - DW.offset_x w in
  let target_y := snd pos - DW.offset_y w in
  exists r',
    rect_of self app' = Some r'
    /\ App.screen_width app' = App.screen_width app
    /\ App.screen_height app' = App.screen_height app
    /\ (DW.resize w = true -> within_screen app r -> within_screen app' r')
    /\ (DW.resize w = false -> 0 <= Rect.width r -> 0 <= max_x ->
        0 <= Rect.height r -> 0 <= max_y ->
        within_screen app' r'
        /\ Rect.width r' = Rect.width r /\ Rect.height r' = Rect.height r
        /\ 0 <= Rect.x r' <= max_x /\ 0 <= Rect.y r' <= max_y
        /\ (0 <= target_x <= max_x -> Rect.x r' = target_x)
        /\ (target_x < 0 -> Rect.x r' = 0)
        /\ (max_x < target_x -> Rect.x r' = max_x)
        /\ (0 <= target_y <= max_y -> Rect.y r' = target_y)
        /\ (target_y < 0 -> Rect.y r' = 0)
        /\ (max_y < target_y -> Rect.y r' = max_y)).
Proof.
  intros Hw Hsel Hmin app' r max_x max_y target_x target_y.
  assert (Happ : app' = App.update_window self
                          (if DW.resize w then DraggableWindow.resize_drag pos app
                           else DraggableWindow.move_drag pos app) app)
    by (apply motion_selected; assumption).
  assert (Hlook := window_store_update_eq self
                     (if DW.resize w then DraggableWindow.resize_drag pos app
                      else DraggableWindow.move_drag pos app) app w Hw).
  rewrite <- Happ in Hlook.
  exists (DW.rect ((if DW.resize w then DraggableWindow.resize_drag pos app
                    else DraggableWindow.move_drag pos app) w)).
  split; [unfold rect_of; rewrite Hlook; reflexivity|].
  split; [rewrite Happ; reflexivity|].
  split; [rewrite Happ; reflexivity|].
  unfold within_screen. rewrite Happ.
  cbn [App.update_window App.set_window_store App.screen_width App.screen_height].
  split.
  - intros Hres. rewrite Hres. unfold DraggableWindow.resize_drag.
    fold r. destruct (_ && _) eqn:Hb; [|tauto].
    apply andb_true_iff in Hb. destruct Hb as [Hb1 Hb2].
    apply Z.leb_le in Hb1, Hb2. simpl. lia.
  - intros Hres. rewrite Hres. unfold DraggableWindow.move_drag.
    fold r target_x target_y max_x. simpl.
    replace (App.screen_height app - Rect.height r - TASKBAR_HEIGHT) with max_y
      by (unfold max_y; lia).
    unfold max_x, max_y in *. lia.
Qed.

Lemma C6_drag_motion_within_screen_witness :
  let app := App.update_window 0%nat
               (fun w => DW.set_offset_y 10
                           (DW.set_offset_x 100 (DW.set_selected true w)))
               main in
  exists r',
    rect_of 0%nat (fst (DraggableWindow.handle_event 0%nat (MOUSEMOTION (900, 5)) app))
    = Some r'
    /\ within_screen app r'.
Proof.
  intros app.
  destruct (C6_drag_motion_within_screen 0%nat app
              (DW.set_offset_y 10
                 (DW.set_offset_x 100
                    (DW.set_selected true (DW.init 100 100 300 200 "Main Window"))))
              (900, 5) eq_refl eq_refl eq_refl)
    as (r' & Hr & _ & _ & _ & Hmove).
  exists r'. split; [exact Hr|].
  destruct Hmove as (Hin & _); [reflexivity | vm_compute; discriminate ..|].
  exact Hin.
Defined.

(** ** Event dispatch of the window manager *)

(** A window's [handle_event] writes to the window store and the taskbar
    list only. *)
Lemma window_op_frame (self : wid) (op : WindowOp) (app : APP) :
  App.set_taskbar (App.taskbar app)
    (App.set_window_store (App.window_store app) (apply_op self op app)) = app.
Proof.
  destruct app. destruct op; simpl.
  - unfold DraggableWindow.minimize, Taskbar.add_window. simpl.
    case_decide; reflexivity.
  - reflexivity.
  - unfold DraggableWindow.restore, Taskbar.remove_window. simpl.
    case_decide; reflexivity.
  - unfold DraggableWindow.toggle_maximize. simpl.
    destruct (_ !! _) as [w|]; [|reflexivity].
    destruct (DW.maximized w); [|reflexivity].
    unfold DraggableWindow.restore, Taskbar.remove_window. simpl.
    case_decide; reflexivity.
Qed.

Lemma handle_event_frame (self : wid) (event : Event) (app : APP) :
  App.set_taskbar (App.taskbar app)
    (App.set_window_store (App.window_store app)
       (fst (DraggableWindow.handle_event self event app))) = app.
Proof.
  assert (Hid : App.set_taskbar (App.taskbar app)
                  (App.set_window_store (App.window_store app) app) = app)
    by (destruct app; reflexivity).
  assert (Hup : forall f,
             App.set_taskbar (App.taskbar app)
               (App.set_window_store (App.window_store app)
                  (App.update_window self f app)) = app)
    by (intros f; destruct app; reflexivity).
  unfold DraggableWindow.handle_event.
  destruct (App.window_store app !! self) as [w|]; [|exact Hid].
  destruct (DW.minimized w); [exact Hid|].
  destruct event as [| | |button pos|button pos|pos|]; cbn [fst]; try exact Hid.
  - destruct (button =? 1); [|exact Hid].
    destruct (Rect.collidepoint (DW.minimize_button w) pos);
      [exact (window_op_frame self Minimize app)|].
    destruct (Rect.collidepoint (DW.maximize_button w) pos);
      [exact (window_op_frame self ToggleMaximize app)|].
    destruct (Rect.collidepoint _ pos); [apply Hup|].
    destruct (Rect.collidepoint _ pos); [apply Hup|exact Hid].
  - destruct (button =? 1); [apply Hup|exact Hid].
  - destruct (DW.selected w); [|exact Hid].
    destruct (DW.resize w); apply Hup.
Qed.

Lemma handle_event_windows (self : wid) (event : Event) (app : APP) :
  WindowManager.windows (fst (DraggableWindow.handle_event self event app))
  = WindowManager.windows app.
Proof.
  rewrite <- (handle_event_frame self event app) at 2. reflexivity.
Qed.

Lemma handle_event_selected_window (self : wid) (event : Event) (app : APP) :
  App.selected_window (fst (DraggableWindow.handle_event self event app))
  = App.selected_window app.
Proof.
  rewrite <- (handle_event_frame self event app) at 2. reflexivity.
Qed.

Lemma deliver_snoc (event : Event) (ws : list wid) (w : wid) (app : APP) :
  deliver event (ws ++ [w]) app
  = fst (DraggableWindow.handle_event w event (deliver event ws app)).
Proof. unfold deliver. rewrite fold_left_app. reflexivity. Qed.

Lemma deliver_windows (event : Event) (ws : list wid) (app : APP) :
  WindowManager.windows (deliver event ws app) = WindowManager.windows app.
Proof.
  induction ws as [|w ws IH] using rev_ind; [reflexivity|].
  rewrite deliver_snoc, handle_event_windows. exact IH.
Qed.

Lemma deliver_selected_window (event : Event) (ws : list wid) (app : APP) :
  App.selected_window (deliver event ws app) = App.selected_window app.
Proof.
  induction ws as [|w ws IH] using rev_ind; [reflexivity|].
  rewrite deliver_snoc, handle_event_selected_window. exact IH.
Qed.

(** The loop of [dispatch] on any list of windows still to visit. *)
Lemma dispatch_probe (event : Event) (todo : list wid) (app : APP) :
  let '(app', called) := WindowManager.dispatch event todo app in
  (exists before w after,
      todo = before ++ w :: after
      /\ called = before ++ [w]
      /\ (forall k w', before !! k = Some w' ->
            WindowManager.is_selected w' (deliver event (take (S k) before) app) = false)
      /\ WindowManager.is_selected w (deliver event (before ++ [w]) app) = true
      /\ app' = App.set_selected_window (Some w)
                  (WindowManager.bring_to_front w (deliver event (before ++ [w]) app)))
  \/ (called = todo
      /\ (forall k w', todo !! k = Some w' ->
            WindowManager.is_selected w' (deliver event (take (S k) todo) app) = false)
      /\ app' = deliver event todo app).
Proof.
  revert app. induction todo as [|window rest IH]; intros app.
  - right. simpl. split; [reflexivity|]. split; [|reflexivity].
    intros k w' Hk. discriminate.
  - cbn [WindowManager.dispatch].
    set (app1 := fst (DraggableWindow.handle_event window event app)).
    destruct (WindowManager.is_selected window app1) eqn:Hsel.
    + left. exists [], window, rest. simpl. fold app1.
      split; [reflexivity|]. split; [reflexivity|].
      split; [intros k w' Hk; discriminate|]. split; [exact Hsel|reflexivity].
    + specialize (IH app1).
      destruct (WindowManager.dispatch event rest app1) as [app2 called].
      destruct IH as [(before & w & after & Htodo & Hcalled & Hdecl & Hclaim & Happ)
                     |(Hcalled & Hdecl & Happ)].
      * left. exists (window :: before), w, after.
        split; [rewrite Htodo; reflexivity|].
        split; [rewrite Hcalled; reflexivity|].
        split.
        { intros [|k] w' Hk; simpl in Hk.
          - injection Hk as <-. exact Hsel.
          - exact (Hdecl k w' Hk). }
        split; [exact Hclaim|exact Happ].
      * right. split; [rewrite Hcalled; reflexivity|].
        split; [|exact Happ].
        intros [|k] w' Hk; simpl in Hk.
        -- injection Hk as <-. exact Hsel.
        -- exact (Hdecl k w' Hk).
Qed.

(** C1: [WindowManager.handle_event] calls [handle_event] on the windows
    from the topmost (last of the list) down.  Either some window is the
    first one found selected after its own call: then it and the windows
    above it are exactly the ones called, each window above it was found
    not selected after its call, the claimant is moved to the end of the
    window list and recorded as the selected window, and no window below
    it receives the event.  Or no window is found selected: then every
    window is called and the selected window of the application is left
    as it was. *)
Theorem C1_probe_until_selected (event : Event) (app : APP) :
  let top_down := rev (WindowManager.windows app) in
  let '(app', called) := WindowManager.handle_event_trace event app in
  WindowManager.handle_event event app = app'
  /\ ((exists above w below,
          top_down = above ++ w :: below
          /\ called = above ++ [w]
          /\ (forall k w', above !! k = Some w' ->
                WindowManager.is_selected w'
                  (deliver event (take (S k) above) app) = false)
          /\ WindowManager.is_selected w (deliver event (above ++ [w]) app) = true
          /\ app' = App.set_selected_window (Some w)
                      (WindowManager.bring_to_front w
                         (deliver event (above ++ [w]) app))
          /\ App.selected_window app' = Some w
          /\ WindowManager.windows app'
             = remove_first w (WindowManager.windows app) ++ [w]
          /\ App.window_store app'
             = App.window_store (deliver event (above ++ [w]) app))
      \/ (called = top_down
          /\ (forall k w', top_down !! k = Some w' ->
                WindowManager.is_selected w'
                  (deliver event (take (S k) top_down) app) = false)
          /\ app' = deliver event top_down app
          /\ App.selected_window app' = App.selected_window app
          /\ WindowManager.windows app' = WindowManager.windows app)).
Proof.
  intros top_down. unfold WindowManager.handle_event, WindowManager.handle_event_trace.
  fold top_down.
  pose proof (dispatch_probe event top_down app) as H.
  destruct (WindowManager.dispatch event top_down app) as [app' called].
  split; [reflexivity|].
  destruct H as [(above & w & below & Htop & Hcalled & Hdecl & Hclaim & Happ)
                |(Hcalled & Hdecl & Happ)].
  - left. exists above, w, below.
    repeat (split; [assumption|]).
    assert (Hin : w ∈ WindowManager.windows (deliver event (above ++ [w]) app)).
    { rewrite deliver_windows. apply list_elem_of_In, in_rev.
      fold top_down. rewrite Htop. apply in_elt. }
    rewrite Happ. unfold WindowManager.bring_to_front.
    rewrite decide_True by exact Hin.
    rewrite deliver_windows. repeat split; reflexivity.
  - right. repeat (split; [assumption|]).
    rewrite Happ, deliver_selected_window, deliver_windows. split; reflexivity.
Qed.

(** ** The menu stack under mouse clicks *)

Lemma menu_stack_restore (window : wid) (app : APP) :
  App.menu_stack (DraggableWindow.restore window app) = App.menu_stack app.
Proof.
  unfold DraggableWindow.restore, Taskbar.remove_window.
  case_decide; reflexivity.
Qed.

Lemma menu_stack_taskbar_remove (window : wid) (app : APP) :
  App.menu_stack (Taskbar.remove_window window app) = App.menu_stack app.
Proof. unfold Taskbar.remove_window. case_decide; reflexivity. Qed.

Lemma menu_stack_bring_to_front (window : wid) (app : APP) :
  App.menu_stack (WindowManager.bring_to_front window app) = App.menu_stack app.
Proof. unfold WindowManager.bring_to_front. case_decide; reflexivity. Qed.

Lemma menu_stack_taskbar_click (pos : Z * Z) (ws : list wid) (idx : nat) (app : APP) :
  App.menu_stack (Taskbar_click pos idx ws app) = App.menu_stack app.
Proof.
  revert idx. induction ws as [|window rest IH]; intros idx; [reflexivity|].
  simpl. destruct (Rect.collidepoint _ pos); [|apply IH].
  rewrite menu_stack_bring_to_front, menu_stack_taskbar_remove.
  apply menu_stack_restore.
Qed.

Lemma menu_stack_taskbar_handle_event (event : Event) (app : APP) :
  App.menu_stack (Taskbar_handle_event event app) = App.menu_stack app.
Proof.
  destruct event; try reflexivity. simpl.
  destruct (button =? 1); [apply menu_stack_taskbar_click|reflexivity].
Qed.

(** C2, as stated, fails on the state reached by opening the context menu
    of the main window and the help popup from it (a stack of two): a
    right click outside the help popup removes both popups, not one; and
    a left click outside the help popup that lands on the taskbar removes
    none. *)
Lemma C2_outside_clicks_on_two_menus :
  match Application.run two_menus_session main with
  | Some app =>
    length (App.menu_stack app) = 2%nat
    /\ (popup_rect <$> last (App.menu_stack app)) = Some (Rect.mk 170 195 690 370)
    /\ (length ∘ App.menu_stack
          <$> Application.handle_event (example_host 0) (MOUSEBUTTONDOWN 3 (10, 10)) app)
       = Some 0%nat
    /\ (length ∘ App.menu_stack
          <$> Application.handle_event (example_host 0) (MOUSEBUTTONDOWN 1 (500, 580)) app)
       = Some 2%nat
  | None => False
  end.
Proof.
  set (st := Application.run two_menus_session main).
  vm_compute in st. subst st. cbv beta iota.
  repeat split; vm_compute; reflexivity.
Qed.

(** C2, amended: with a non-empty menu stack whose last popup is
    [current], a left button-down outside the rectangle of [current]
    empties the stack when it is also outside the taskbar, and leaves the
    stack as it is when it is on the taskbar (the taskbar takes the
    click); a right button-down outside the rectangle of [current]
    empties the stack; a right button-down inside it removes [current]
    alone.  Nothing else of the state changes in the three cases that
    change the stack. *)
Theorem C2_menu_stack_on_button_down
    (host : Host) (app : APP) (pos : Z * Z) (rest : list Popup) (current : Popup) :
  App.menu_stack app = rest ++ [current] ->
  let outside := Rect.collidepoint (popup_rect current) pos = false in
  let inside := Rect.collidepoint (popup_rect current) pos = true in
  let on_taskbar := Rect.collidepoint (TaskbarObj.rect (App.taskbar app)) pos in
  let left := Application.handle_event host (MOUSEBUTTONDOWN 1 pos) app in
  let right := Application.handle_event host (MOUSEBUTTONDOWN 3 pos) app in
  (outside -> on_taskbar = false -> left = Some (App.set_menu_stack [] app))
  /\ (on_taskbar = true -> App.menu_stack <$> left = Some (rest ++ [current]))
  /\ (outside -> right = Some (App.set_menu_stack [] app))
  /\ (inside -> right = Some (App.set_menu_stack rest app)).
Proof.
  intros Hstack outside inside on_taskbar left right.
  assert (Hlast : last (App.menu_stack app) = Some current)
    by (rewrite Hstack; apply last_snoc).
  unfold left, right, Application.handle_event, Application.handle_global.
  cbn [mbind option_bind]. unfold Application.handle_mouse.
  change (1 =? 1) with true. change (3 =? 1) with false. change (3 =? 3) with true.
  cbv iota. rewrite Hlast. fold on_taskbar.
  split; [|split; [|split]].
  - intros Hout Htb. rewrite Htb, Hout. reflexivity.
  - intros Htb. rewrite Htb. cbn [fmap option_fmap option_map].
    rewrite menu_stack_taskbar_handle_event, Hstack. reflexivity.
  - intros Hout. rewrite Hout. reflexivity.
  - intros Hin. rewrite Hin, Hstack, removelast_last. reflexivity.
Qed.

Lemma C2_menu_stack_on_button_down_witness :
  let app := App.set_menu_stack
               [MainMenu (MainMenuWindowObj.mk 0%nat (Rect.mk 150 150 200 100) 0);
                Help (Rect.mk 170 195 690 370)] main in
  Application.handle_event (example_host 0) (MOUSEBUTTONDOWN 3 (10, 10)) app
  = Some (App.set_menu_stack [] app)
  /\ Application.handle_event (example_host 0) (MOUSEBUTTONDOWN 3 (200, 200)) app
     = Some (App.set_menu_stack
               [MainMenu (MainMenuWindowObj.mk 0%nat (Rect.mk 150 150 200 100) 0)] app).
Proof.
  intros app. split.
  - apply (C2_menu_stack_on_button_down (example_host 0) app (10, 10)
             [MainMenu (MainMenuWindowObj.mk 0%nat (Rect.mk 150 150 200 100) 0)]
             (Help (Rect.mk 170 195 690 370))); reflexivity.
  - apply (C2_menu_stack_on_button_down (example_host 0) app (200, 200)
             [MainMenu (MainMenuWindowObj.mk 0%nat (Rect.mk 150 150 200 100) 0)]
             (Help (Rect.mk 170 195 690 370))); reflexivity.
Defined.

(** ** Pagination of the main menu *)

Lemma py_slice_last_page {A : Type} (l : list A) (x : A) (page : Z) :
  0 <= page ->
  page * 5 <= Z.of_nat (length l) < page * 5 + 5 ->
  py_slice (l ++ [x]) (page * 5) (page * 5 + 5)
  = drop (Z.to_nat (page * 5)) l ++ [x].
Proof.
  intros Hpage Hrange. unfold py_slice.
  rewrite length_app. simpl length.
  replace (page * 5 <? 0) with false by (symmetry; apply Z.ltb_ge; lia).
  replace (page * 5 + 5 <? 0) with false by (symmetry; apply Z.ltb_ge; lia).
  rewrite (Z.min_l (page * 5)) by lia. rewrite (Z.min_r (page * 5 + 5)) by lia.
  rewrite drop_app_le by lia.
  apply take_ge. rewrite length_app, length_drop. simpl. lia.
Qed.

Lemma create_new_option_dynamic_options
    (self : MainMenuWindowObj.t) (app : APP) (w : DW.t) :
  App.window_store app !! MainMenuWindowObj.target_window self = Some w ->
  MainMenuWindow.dynamic_options
    (fst (MainMenuWindow.create_new_option self app))
    (snd (MainMenuWindow.create_new_option self app))
  = DW.dynamic_options w ++ [length (App.option_store app)].
Proof.
  intros Hw. unfold MainMenuWindow.create_new_option, MainMenuWindow.dynamic_options.
  cbn [fst snd MainMenuWindowObj.set_current_page MainMenuWindowObj.target_window].
  erewrite window_store_update_eq by exact Hw. reflexivity.
Qed.

(** C8: the number of pages is the ceiling of a fifth of the number of
    dynamic options; [create_new_option] appends the new option to the
    target's list and leaves [current_page] on the last page, which is the
    page that shows it; and six selections of "New Option" in the context
    menu of the main window give six options on two pages, with the menu
    on page 1. *)
Theorem C8_pagination :
  (forall (self : MainMenuWindowObj.t) (app : APP),
      let n := Z.of_nat (length (MainMenuWindow.dynamic_options self app)) in
      let pages := MainMenuWindow.get_total_pages self app in
      5 * (pages - 1) < n <= 5 * pages)
  /\ (forall (self : MainMenuWindowObj.t) (app : APP) (w : DW.t),
         App.window_store app !! MainMenuWindowObj.target_window self = Some w ->
         let self' := fst (MainMenuWindow.create_new_option self app) in
         let app' := snd (MainMenuWindow.create_new_option self app) in
         let index := Z.of_nat (length (DW.dynamic_options w)) in
         let o := length (App.option_store app) in
         let page := MainMenuWindowObj.current_page self' in
         MainMenuWindow.dynamic_options self' app' = DW.dynamic_options w ++ [o]
         /\ App.option_store app' !! o
            = Some (OptionRecord.mk
                      ("Option " +:+ str_of_nat (S (length (DW.dynamic_options w))))
                      "Editable body text.")
         /\ page = MainMenuWindow.get_total_pages self' app' - 1
         /\ 5 * page <= index < 5 * page + 5
         /\ last (MainMenuWindow.get_visible_options self' app') = Some (Dynamic o))
  /\ match Application.run (new_option_session 6) main with
     | Some app =>
       match last (App.menu_stack app) with
       | Some (MainMenu menu) =>
         length (MainMenuWindow.dynamic_options menu app) = 6%nat
         /\ MainMenuWindow.has_multiple_pages menu app = true
         /\ MainMenuWindow.get_total_pages menu app = 2
         /\ MainMenuWindowObj.current_page menu = 1
       | _ => False
       end
     | None => False
     end.
Proof.
  split; [|split].
  - intros self app n pages. unfold pages, MainMenuWindow.get_total_pages.
    fold n. unfold OPTIONS_PER_PAGE. Z.div_mod_to_equations. lia.
  - intros self app w Hw self' app' index o page.
    assert (Hdyn : MainMenuWindow.dynamic_options self' app'
                   = DW.dynamic_options w ++ [o])
      by (apply create_new_option_dynamic_options, Hw).
    assert (Hpage : page = MainMenuWindow.get_total_pages self' app' - 1).
    { unfold page, self', app', MainMenuWindow.create_new_option,
        MainMenuWindow.get_total_pages, MainMenuWindow.dynamic_options.
      reflexivity. }
    assert (Hrange : 5 * page <= index < 5 * page + 5).
    { rewrite Hpage. unfold MainMenuWindow.get_total_pages. rewrite Hdyn.
      rewrite length_app. simpl length. fold index. unfold OPTIONS_PER_PAGE.
      replace (Z.of_nat (length (DW.dynamic_options w) + 1)) with (index + 1)
        by (unfold index; lia).
      Z.div_mod_to_equations. lia. }
    split; [exact Hdyn|]. split.
    { unfold app', MainMenuWindow.create_new_option.
      cbn [snd App.update_window App.set_option_store App.set_window_store
           App.option_store].
      unfold MainMenuWindow.dynamic_options. rewrite Hw.
      apply list_lookup_middle. reflexivity. }
    split; [exact Hpage|]. split; [exact Hrange|].
    unfold MainMenuWindow.get_visible_options. rewrite Hdyn.
    fold page. unfold OPTIONS_PER_PAGE.
    rewrite py_slice_last_page by (fold index; unfold index in *; lia).
    rewrite map_app, app_assoc. apply last_snoc.
  - set (st := Application.run (new_option_session 6) main).
    vm_compute in st. subst st. cbv beta iota.
    repeat split; vm_compute; reflexivity.
Qed.

Lemma C8_pagination_witness :
  let menu := MainMenuWindowObj.init 150 150 0%nat in
  let self' := fst (MainMenuWindow.create_new_option menu main) in
  let app' := snd (MainMenuWindow.create_new_option menu main) in
  last (MainMenuWindow.get_visible_options self' app')
  = Some (Dynamic (length (App.option_store main))).
Proof.
  intros menu self' app'.
  destruct C8_pagination as (_ & Hcreate & _).
  destruct (Hcreate menu main (DW.init 100 100 300 200 "Main Window") eq_refl)
    as (_ & _ & _ & _ & Hlast).
  exact Hlast.
Defined.

(** ** Editing a dynamic option *)

Lemma option_store_update_eq (o : oid) f (app : APP) (r : OptionRecord.t) :
  App.option_store app !! o = Some r ->
  App.option_store (App.update_option o f app) !! o = Some (f r).
Proof.
  intros Hr. unfold App.update_option, App.set_option_store.
  cbn [App.option_store]. rewrite list_lookup_alter_eq, Hr. reflexivity.
Qed.

(** C9: in an edit mode, backspace on an empty buffer changes nothing;
    Enter without shift writes the buffer, whatever it holds, to the title
    (title mode) or the body (body mode) of the popup and to the same key
    of the option dictionary the popup is bound to, whose other key keeps
    its value, and leaves no edit mode on; Shift+Enter changes nothing in
    title mode, and in body mode appends a newline to the buffer and to
    the body and stays in body mode. *)
Theorem C9_edit_keys
    (host : Host) (self : EditablePopupWindowObj.t) (app : APP)
    (record : OptionRecord.t) (unicode : string) :
  let E_title := EditablePopupWindowObj.editing_title in
  let E_body := EditablePopupWindowObj.editing_body in
  let buffer := EditablePopupWindowObj.input_text self in
  let shift := negb (Z.land (get_mods host) KMOD_SHIFT =? 0) in
  let on_key key := EditablePopupWindow.handle_event host self (KEYDOWN key unicode) app in
  App.option_store app !! EditablePopupWindowObj.option self = Some record ->
  xorb (E_title self) (E_body self) = true ->
  (buffer = EmptyString -> on_key K_BACKSPACE = (self, app))
  /\ (shift = false -> E_title self = true ->
      let '(self', app') := on_key K_RETURN in
      self' = EditablePopupWindowObj.set_editing_title false
                (EditablePopupWindowObj.set_title buffer self)
      /\ EditablePopupWindowObj.title self' = buffer
      /\ E_title self' = false /\ E_body self' = false
      /\ App.option_store app' !! EditablePopupWindowObj.option self
         = Some (OptionRecord.set_name buffer record)
      /\ app' = App.update_option (EditablePopupWindowObj.option self)
                  (OptionRecord.set_name buffer) app
      /\ OptionRecord.name
           <$> App.option_store app' !! EditablePopupWindowObj.option self
         = Some buffer
      /\ OptionRecord.body
           <$> App.option_store app' !! EditablePopupWindowObj.option self
         = Some (OptionRecord.body record)
      /\ EditablePopupWindowObj.body self' = EditablePopupWindowObj.body self)
  /\ (shift = false -> E_body self = true ->
      let '(self', app') := on_key K_RETURN in
      self' = EditablePopupWindowObj.set_editing_body false
                (EditablePopupWindowObj.set_body buffer self)
      /\ EditablePopupWindowObj.body self' = buffer
      /\ E_title self' = false /\ E_body self' = false
      /\ App.option_store app' !! EditablePopupWindowObj.option self
         = Some (OptionRecord.set_body buffer record)
      /\ app' = App.update_option (EditablePopupWindowObj.option self)
                  (OptionRecord.set_body buffer) app
      /\ OptionRecord.body
           <$> App.option_store app' !! EditablePopupWindowObj.option self
         = Some buffer
      /\ OptionRecord.name
           <$> App.option_store app' !! EditablePopupWindowObj.option self
         = Some (OptionRecord.name record)
      /\ EditablePopupWindowObj.title self' = EditablePopupWindowObj.title self)
  /\ (shift = true -> E_title self = true -> on_key K_RETURN = (self, app))
  /\ (shift = true -> E_body self = true ->
      let '(self', app') := on_key K_RETURN in
      EditablePopupWindowObj.input_text self' = buffer +:+ newline
      /\ EditablePopupWindowObj.body self'
         = EditablePopupWindowObj.body self +:+ newline
      /\ EditablePopupWindowObj.title self' = EditablePopupWindowObj.title self
      /\ E_title self' = false /\ E_body self' = true
      /\ app' = app).
Proof.
  intros E_title E_body buffer shift on_key Hrecord Hmode.
  unfold on_key, EditablePopupWindow.handle_event.
  change (K_RETURN =? K_RETURN) with true.
  change (K_BACKSPACE =? K_RETURN) with false.
  change (K_BACKSPACE =? K_BACKSPACE) with true.
  fold shift. cbv iota.
  destruct self as [target o title body rect et eb input cv cc].
  unfold E_title, E_body, buffer in *.
  cbn [EditablePopupWindowObj.editing_title EditablePopupWindowObj.editing_body
       EditablePopupWindowObj.input_text EditablePopupWindowObj.option] in *.
  destruct et, eb; try discriminate Hmode; cbn [orb].
  - (* title mode *)
    split; [intros ->; reflexivity|].
    split.
    { intros ->. intros _. cbv iota. cbn.
      pose proof (option_store_update_eq o (OptionRecord.set_name input) app
                    record Hrecord) as Hup.
      repeat split; try reflexivity; try exact Hup.
      - exact (f_equal (fmap OptionRecord.name) Hup).
      - exact (f_equal (fmap OptionRecord.body) Hup). }
    split; [intros _ H; discriminate H|].
    split; [intros ->; reflexivity|].
    intros _ H; discriminate H.
  - (* body mode *)
    split; [intros ->; reflexivity|].
    split; [intros _ H; discriminate H|].
    split.
    { intros ->. intros _. cbv iota. cbn.
      pose proof (option_store_update_eq o (OptionRecord.set_body input) app
                    record Hrecord) as Hup.
      repeat split; try reflexivity; try exact Hup.
      - exact (f_equal (fmap OptionRecord.body) Hup).
      - exact (f_equal (fmap OptionRecord.name) Hup). }
    split; [intros _ H; discriminate H|].
    intros ->. intros _. cbn. repeat split; reflexivity.
Qed.

Lemma C9_edit_keys_witness :
  let in_title := editing_popup 0%nat "Option 1" "Editable body text." true false "" in
  let in_body :=
    editing_popup 0%nat "Option 1" "Editable body text." false true "new body" in
  let enter self :=
    EditablePopupWindow.handle_event (example_host 0) self (KEYDOWN K_RETURN "")
      main_with_option in
  (EditablePopupWindowObj.title (fst (enter in_title)) = EmptyString
   /\ App.option_store (snd (enter in_title)) !! 0%nat
      = Some (OptionRecord.mk "" "Editable body text."))
  /\ (EditablePopupWindowObj.body (fst (enter in_body)) = "new body"%string
      /\ OptionRecord.body <$> App.option_store (snd (enter in_body)) !! 0%nat
         = Some "new body"%string
      /\ OptionRecord.name <$> App.option_store (snd (enter in_body)) !! 0%nat
         = Some "Option 1"%string).
Proof.
  intros in_title in_body enter. split.
  - pose proof (C9_edit_keys (example_host 0) in_title main_with_option
                  (OptionRecord.mk "Option 1" "Editable body text.") ""
                  eq_refl eq_refl) as H.
    cbv zeta in H. destruct H as (_ & Hcommit & _).
    specialize (Hcommit eq_refl eq_refl).
    change (EditablePopupWindow.handle_event (example_host 0) in_title
              (KEYDOWN K_RETURN "") main_with_option)
      with (enter in_title) in Hcommit.
    destruct (enter in_title) as [self' app'].
    destruct Hcommit as (_ & Htitle & _ & _ & Hstore & _).
    split; [exact Htitle|exact Hstore].
  - pose proof (C9_edit_keys (example_host 0) in_body main_with_option
                  (OptionRecord.mk "Option 1" "Editable body text.") ""
                  eq_refl eq_refl) as H.
    cbv zeta in H. destruct H as (_ & _ & Hcommit & _).
    specialize (Hcommit eq_refl eq_refl).
    change (EditablePopupWindow.handle_event (example_host 0) in_body
              (KEYDOWN K_RETURN "") main_with_option)
      with (enter in_body) in Hcommit.
    destruct (enter in_body) as [self' app'].
    destruct Hcommit as (_ & Hbody & _ & _ & _ & _ & Hrecord & Hname & _).
    split; [exact Hbody|]. split; [exact Hrecord|exact Hname].
Defined.

(** ** The taskbar list *)

Lemma remove_first_subset (x y : nat) (l : list nat) :
  y ∈ remove_first x l -> y ∈ l.
Proof.
  induction l as [|z l IH]; simpl; [auto|].
  case_decide as Hdec.
  - intros Hin. apply list_elem_of_further, Hin.
  - intros Hin. apply elem_of_cons in Hin. destruct Hin as [->|Hin].
    + apply list_elem_of_here.
    + apply list_elem_of_further, IH, Hin.
Qed.

Lemma NoDup_remove_first (x : nat) (l : list nat) :
  NoDup l -> NoDup (remove_first x l).
Proof.
  induction 1 as [|z l Hz Hl IH]; simpl; [constructor|].
  case_decide; [exact Hl|].
  constructor; [|exact IH].
  intros Hin. apply Hz. eapply remove_first_subset, Hin.
Qed.

Lemma add_window_present (window : wid) (app : APP) :
  window ∈ minimized_windows app -> Taskbar.add_window window app = app.
Proof.
  intros Hin. unfold Taskbar.add_window.
  rewrite decide_True by exact Hin. reflexivity.
Qed.

Lemma add_window_NoDup (window : wid) (app : APP) :
  NoDup (minimized_windows app) ->
  NoDup (minimized_windows (Taskbar.add_window window app)).
Proof.
  intros Hnd. unfold Taskbar.add_window. case_decide as Hin; [exact Hnd|].
  unfold minimized_windows. simpl. apply NoDup_app.
  split; [exact Hnd|]. split; [|apply NoDup_singleton].
  intros x Hx Hx'. apply list_elem_of_singleton in Hx'. subst x. exact (Hin Hx).
Qed.

Lemma remove_window_NoDup (window : wid) (app : APP) :
  NoDup (minimized_windows app) ->
  NoDup (minimized_windows (Taskbar.remove_window window app)).
Proof.
  intros Hnd. unfold Taskbar.remove_window. case_decide; [|exact Hnd].
  unfold minimized_windows. simpl. apply NoDup_remove_first, Hnd.
Qed.

Lemma apply_op_NoDup (self : wid) (op : WindowOp) (app : APP) :
  NoDup (minimized_windows app) ->
  NoDup (minimized_windows (apply_op self op app)).
Proof.
  intros Hnd.
  assert (Hmin : NoDup (minimized_windows (DraggableWindow.minimize self app)))
    by (apply add_window_NoDup, Hnd).
  assert (Hres : NoDup (minimized_windows (DraggableWindow.restore self app)))
    by (apply remove_window_NoDup, Hnd).
  destruct op; simpl; [exact Hmin|exact Hnd|exact Hres|].
  unfold DraggableWindow.toggle_maximize.
  destruct (_ !! _) as [w|]; [|exact Hnd].
  destruct (DW.maximized w); [exact Hres|exact Hnd].
Qed.

(** The four shapes of the state after a window's [handle_event]. *)
Lemma handle_event_shape (self : wid) (event : Event) (app : APP) :
  let app' := fst (DraggableWindow.handle_event self event app) in
  app' = app
  \/ (exists f, app' = App.update_window self f app)
  \/ app' = apply_op self Minimize app
  \/ app' = apply_op self ToggleMaximize app.
Proof.
  unfold DraggableWindow.handle_event.
  destruct (App.window_store app !! self) as [w|]; [|left; reflexivity].
  destruct (DW.minimized w); [left; reflexivity|].
  destruct event as [| | |button pos|button pos|pos|]; cbn [fst];
    try (left; reflexivity).
  - destruct (button =? 1); [|left; reflexivity].
    destruct (Rect.collidepoint (DW.minimize_button w) pos);
      [right; right; left; reflexivity|].
    destruct (Rect.collidepoint (DW.maximize_button w) pos);
      [right; right; right; reflexivity|].
    destruct (Rect.collidepoint _ pos); [right; left; eexists; reflexivity|].
    destruct (Rect.collidepoint _ pos);
      [right; left; eexists; reflexivity|left; reflexivity].
  - destruct (button =? 1); [right; left; eexists; reflexivity|left; reflexivity].
  - destruct (DW.selected w); [|left; reflexivity].
    destruct (DW.resize w); right; left; eexists; reflexivity.
Qed.

Lemma window_handle_event_NoDup (self : wid) (event : Event) (app : APP) :
  NoDup (minimized_windows app) ->
  NoDup (minimized_windows (fst (DraggableWindow.handle_event self event app))).
Proof.
  intros Hnd.
  destruct (handle_event_shape self event app) as [->|[[f ->]|[->| ->]]].
  - exact Hnd.
  - exact Hnd.
  - apply apply_op_NoDup, Hnd.
  - apply apply_op_NoDup, Hnd.
Qed.

Lemma minimized_windows_bring_to_front (window : wid) (app : APP) :
  minimized_windows (WindowManager.bring_to_front window app)
  = minimized_windows app.
Proof. unfold WindowManager.bring_to_front. case_decide; reflexivity. Qed.

Lemma dispatch_NoDup (event : Event) (todo : list wid) (app : APP) :
  NoDup (minimized_windows app) ->
  NoDup (minimized_windows (fst (WindowManager.dispatch event todo app))).
Proof.
  revert app. induction todo as [|window rest IH]; intros app Hnd; [exact Hnd|].
  cbn [WindowManager.dispatch].
  pose proof (window_handle_event_NoDup window event app Hnd) as Hnd1.
  destruct (WindowManager.is_selected window _).
  - cbn [fst]. change (NoDup (minimized_windows
                                 (WindowManager.bring_to_front window
                                    (fst (DraggableWindow.handle_event window event app))))).
    rewrite minimized_windows_bring_to_front. exact Hnd1.
  - specialize (IH _ Hnd1).
    destruct (WindowManager.dispatch event rest _) as [app2 called]. exact IH.
Qed.

Lemma window_manager_handle_event_NoDup (event : Event) (app : APP) :
  NoDup (minimized_windows app) ->
  NoDup (minimized_windows (WindowManager.handle_event event app)).
Proof. apply dispatch_NoDup. Qed.

Lemma taskbar_click_NoDup (pos : Z * Z) (ws : list wid) (idx : nat) (app : APP) :
  NoDup (minimized_windows app) ->
  NoDup (minimized_windows (Taskbar_click pos idx ws app)).
Proof.
  intros Hnd. revert idx. induction ws as [|window rest IH]; intros idx; [exact Hnd|].
  simpl. destruct (Rect.collidepoint _ pos); [|apply IH].
  rewrite minimized_windows_bring_to_front.
  apply remove_window_NoDup, (apply_op_NoDup window Restore), Hnd.
Qed.

Lemma taskbar_handle_event_NoDup (event : Event) (app : APP) :
  NoDup (minimized_windows app) ->
  NoDup (minimized_windows (Taskbar_handle_event event app)).
Proof.
  intros Hnd. destruct event; try exact Hnd. simpl.
  destruct (button =? 1); [apply taskbar_click_NoDup, Hnd|exact Hnd].
Qed.

(** The popups never touch the taskbar. *)
Lemma main_menu_handle_event_taskbar
    (host : Host) (m : MainMenuWindowObj.t) (event : Event) (app : APP) :
  App.taskbar (snd (fst (MainMenuWindow.handle_event host m event app)))
  = App.taskbar app.
Proof.
  unfold MainMenuWindow.handle_event.
  destruct event; try reflexivity.
  destruct (button =? 1); [|reflexivity].
  destruct (MainMenuWindow.clicked_option _ _ _ _) as [option|].
  - destruct (String.eqb _ "RGB"); [reflexivity|].
    destruct (String.eqb _ "Help"); [reflexivity|].
    destruct (String.eqb _ "New Option"); [reflexivity|].
    destruct option; reflexivity.
  - destruct (MainMenuWindow.has_multiple_pages m app); [|reflexivity].
    destruct (Rect.collidepoint _ pos); [reflexivity|].
    destruct (Rect.collidepoint _ pos); reflexivity.
Qed.

Lemma editable_handle_event_taskbar
    (host : Host) (e : EditablePopupWindowObj.t) (event : Event) (app : APP) :
  App.taskbar (snd (EditablePopupWindow.handle_event host e event app))
  = App.taskbar app.
Proof.
  unfold EditablePopupWindow.handle_event.
  destruct event; try reflexivity.
  - destruct (_ || _); [|reflexivity].
    destruct (key =? K_RETURN).
    + destruct (negb _).
      * destruct (EditablePopupWindowObj.editing_body e); reflexivity.
      * destruct (EditablePopupWindowObj.editing_title e); [reflexivity|].
        destruct (EditablePopupWindowObj.editing_body e); reflexivity.
    + destruct (key =? K_BACKSPACE); reflexivity.
  - destruct (button =? 1); [|reflexivity].
    destruct (Rect.collidepoint _ pos); [reflexivity|].
    destruct (Rect.collidepoint _ pos); reflexivity.
Qed.

Lemma drag_channel_taskbar (dragging : bool) (slider : Rect.t) set (pos : Z * Z)
    (st st' : RGBPropertiesWindowObj.t * APP) :
  RGBPropertiesWindow.drag_channel dragging slider set pos st = Some st' ->
  App.taskbar (snd st') = App.taskbar (snd st).
Proof.
  unfold RGBPropertiesWindow.drag_channel. destruct dragging.
  - destruct (RGBPropertiesWindow.slider_value slider pos) as [v|]; simpl;
      [|discriminate].
    intros [= <-]. reflexivity.
  - intros [= <-]. reflexivity.
Qed.

Lemma rgb_handle_event_taskbar
    (p p' : RGBPropertiesWindowObj.t) (event : Event) (app app' : APP) :
  RGBPropertiesWindow.handle_event p event app = Some (p', app') ->
  App.taskbar app' = App.taskbar app.
Proof.
  unfold RGBPropertiesWindow.handle_event.
  destruct event; try (intros [= _ <-]; reflexivity).
  - destruct (button =? 1); intros [= _ <-]; reflexivity.
  - destruct (button =? 1); intros [= _ <-]; reflexivity.
  - destruct (RGBPropertiesWindow.drag_channel _ _ _ _ _) as [st1|] eqn:H1;
      simpl; [|discriminate].
    destruct (RGBPropertiesWindow.drag_channel _ _ _ _ st1) as [st2|] eqn:H2;
      simpl; [|discriminate].
    intros H3.
    apply drag_channel_taskbar in H1, H2, H3. simpl in *. congruence.
Qed.

Lemma popup_handle_event_taskbar
    (host : Host) (p p' : Popup) (event : Event) (app app' : APP)
    (new_popup : option Popup) :
  Popup_handle_event host p event app = Some (p', app', new_popup) ->
  App.taskbar app' = App.taskbar app.
Proof.
  destruct p as [m|e|r| |]; simpl.
  - pose proof (main_menu_handle_event_taskbar host m event app) as H.
    destruct (MainMenuWindow.handle_event host m event app) as [[m' a'] n'].
    intros [= _ <- _]. exact H.
  - pose proof (editable_handle_event_taskbar host e event app) as H.
    destruct (EditablePopupWindow.handle_event host e event app) as [e' a'].
    intros [= _ <- _]. exact H.
  - destruct (RGBPropertiesWindow.handle_event r event app) as [[r' a']|] eqn:H;
      simpl; [|discriminate].
    intros [= _ <- _]. eapply rgb_handle_event_taskbar, H.
  - intros [= _ <- _]. reflexivity.
  - intros [= _ <- _]. reflexivity.
Qed.

Lemma menu_handle_event_taskbar
    (host : Host) (current_menu : Popup) (event : Event) (app app' : APP) :
  Application.menu_handle_event host current_menu event app = Some app' ->
  App.taskbar app' = App.taskbar app.
Proof.
  unfold Application.menu_handle_event.
  destruct (Popup_handle_event host current_menu event app)
    as [[[menu a'] new_popup]|] eqn:H; simpl; [|discriminate].
  intros [= <-]. simpl. eapply popup_handle_event_taskbar, H.
Qed.

Lemma rescale_windows_taskbar (scale_x scale_y : spec_float) (ws : list wid)
    (app app' : APP) :
  Application.rescale_windows scale_x scale_y ws app = Some app' ->
  App.taskbar app' = App.taskbar app.
Proof.
  revert app. induction ws as [|window rest IH]; intros app; simpl.
  - intros [= <-]. reflexivity.
  - destruct (App.window_store app !! window) as [w|]; [|apply IH].
    destruct (Application.rescale_window scale_x scale_y app w) as [w'|];
      simpl; [|discriminate].
    intros H. apply IH in H. exact H.
Qed.

Lemma handle_global_NoDup (host : Host) (event : Event) (app app' : APP) :
  NoDup (minimized_windows app) ->
  Application.handle_global host event app = Some app' ->
  NoDup (minimized_windows app').
Proof.
  intros Hnd. unfold Application.handle_global.
  destruct event; try (intros [= <-]; exact Hnd).
  - destruct (negb _); [|intros [= <-]; exact Hnd].
    unfold Application.on_ctrl_key.
    destruct (key =? K_n).
    { destruct (randint (entropy_x host) _ _) as [new_x|];
        cbn [mbind option_bind]; [|discriminate].
      destruct (randint (entropy_y host) _ _) as [new_y|];
        cbn [mbind option_bind]; [|discriminate].
      intros [= <-]. exact Hnd. }
    destruct (key =? K_w).
    { destruct (App.selected_window app) as [window|]; intros [= <-]; [|exact Hnd].
      exact (apply_op_NoDup window Minimize app Hnd). }
    destruct (key =? K_f); intros [= <-]; [|exact Hnd].
    destruct (App.is_fullscreen app); exact Hnd.
  - unfold Application.on_videoresize. cbv zeta.
    destruct (PyFloat.truediv _ (App.prev_screen_width _)) as [scale_x|];
      cbn [mbind option_bind]; [|discriminate].
    destruct (PyFloat.truediv _ (App.prev_screen_height _)) as [scale_y|];
      cbn [mbind option_bind]; [|discriminate].
    destruct (Application.rescale_windows _ _ _ _) as [a|] eqn:H;
      cbn [mbind option_bind]; [|discriminate].
    intros [= <-]. apply rescale_windows_taskbar in H.
    unfold minimized_windows in *. simpl. rewrite H. exact Hnd.
Qed.

Lemma handle_mouse_NoDup (host : Host) (event : Event) (app app' : APP) :
  NoDup (minimized_windows app) ->
  Application.handle_mouse host event app = Some app' ->
  NoDup (minimized_windows app').
Proof.
  intros Hnd.
  assert (Hmenu : forall current_menu a,
             Application.menu_handle_event host current_menu event app = Some a ->
             NoDup (minimized_windows a)).
  { intros current_menu a H. apply menu_handle_event_taskbar in H.
    unfold minimized_windows. rewrite H. exact Hnd. }
  assert (Hrest :
            (match last (App.menu_stack app) with
             | Some current_menu =>
               Application.menu_handle_event host current_menu event app
             | None => Some app
             end ≫= (fun a => Some (WindowManager.handle_event event a)))
            = Some app' ->
            NoDup (minimized_windows app')).
  { destruct (last (App.menu_stack app)) as [current_menu|].
    - destruct (Application.menu_handle_event _ _ _ _) as [a|] eqn:H; simpl;
        [|discriminate].
      intros [= <-]. apply window_manager_handle_event_NoDup, (Hmenu _ _ H).
    - simpl. intros [= <-]. apply window_manager_handle_event_NoDup, Hnd. }
  destruct event; try exact Hrest.
  unfold Application.handle_mouse.
  destruct (button =? 1).
  - destruct (Rect.collidepoint _ pos).
    { intros H. injection H as <-.
      exact (taskbar_handle_event_NoDup (MOUSEBUTTONDOWN button pos) app Hnd). }
    destruct (last (App.menu_stack app)) as [current_menu|].
    + destruct (Rect.collidepoint _ pos); [apply Hmenu|].
      intros [= <-]. exact Hnd.
    + intros [= <-]. apply window_manager_handle_event_NoDup, Hnd.
  - destruct (button =? 3); [|intros [= <-]; exact Hnd].
    destruct (last (App.menu_stack app)) as [current_menu|].
    + destruct (Rect.collidepoint _ pos); intros [= <-]; exact Hnd.
    + destruct (Application.window_under _ _ _); intros [= <-]; exact Hnd.
Qed.

Lemma handle_event_NoDup (host : Host) (event : Event) (app app' : APP) :
  NoDup (minimized_windows app) ->
  Application.handle_event host event app = Some app' ->
  NoDup (minimized_windows app').
Proof.
  intros Hnd. unfold Application.handle_event.
  destruct (Application.handle_global host event app) as [a|] eqn:H; simpl;
    [|discriminate].
  apply handle_mouse_NoDup. eapply handle_global_NoDup; eassumption.
Qed.

Lemma handle_events_NoDup (inputs : list (Host * Event)) (app app' : APP) :
  NoDup (minimized_windows app) ->
  handle_events inputs app = Some app' ->
  NoDup (minimized_windows app').
Proof.
  unfold handle_events. revert app'.
  induction inputs as [|[host event] inputs IH] using rev_ind; intros app' Hnd.
  - intros [= <-]. exact Hnd.
  - rewrite foldl_app. simpl.
    destruct (foldl _ (Some app) inputs) as [a|]; simpl; [|discriminate].
    apply handle_event_NoDup. apply IH; [exact Hnd|reflexivity].
Qed.

(** [draw] writes window objects and popups only. *)
Lemma window_draw_frame (self : wid) (app app' : APP) :
  DraggableWindow.draw self app = Some app' ->
  App.set_window_store (App.window_store app) app' = app.
Proof.
  assert (Hid : App.set_window_store (App.window_store app) app = app)
    by (destruct app; reflexivity).
  unfold DraggableWindow.draw.
  destruct (App.window_store app !! self) as [w|]; [|intros [= <-]; exact Hid].
  destruct (DW.minimized w); [intros [= <-]; exact Hid|].
  destruct (_ || _); [discriminate|].
  intros [= <-]. destruct app; reflexivity.
Qed.

Lemma foldl_draw_None (ws : list wid) :
  foldl (fun st w => a ← st; DraggableWindow.draw w a) None ws = None.
Proof. induction ws as [|w ws IH]; [reflexivity|exact IH]. Qed.

Lemma foldl_draw_frame (ws : list wid) (app app' : APP) :
  foldl (fun st w => a ← st; DraggableWindow.draw w a) (Some app) ws = Some app' ->
  App.set_window_store (App.window_store app) app' = app.
Proof.
  revert app. induction ws as [|w ws IH]; intros app.
  - intros [= <-]. destruct app; reflexivity.
  - cbn [foldl mbind option_bind].
    destruct (DraggableWindow.draw w app) as [a|] eqn:Hw;
      [|rewrite foldl_draw_None; discriminate].
    intros H. apply IH in H. apply window_draw_frame in Hw.
    rewrite <- Hw at 2. rewrite <- H. destruct app'; reflexivity.
Qed.

Lemma draw_frame (app app' : APP) :
  Application.draw app = Some app' ->
  App.set_menu_stack (App.menu_stack app)
    (App.set_window_store (App.window_store app) app') = app.
Proof.
  unfold Application.draw, WindowManager.draw.
  destruct (foldl _ (Some app) (WindowManager.windows app)) as [a|] eqn:H;
    cbn [mbind option_bind]; [|discriminate].
  intros [= <-]. apply foldl_draw_frame in H.
  rewrite <- H. destruct a; reflexivity.
Qed.

Lemma draw_taskbar (app app' : APP) :
  Application.draw app = Some app' -> App.taskbar app' = App.taskbar app.
Proof. intros H. apply draw_frame in H. rewrite <- H. reflexivity. Qed.

Lemma run_NoDup (frames : list (list (Host * Event))) (app app' : APP) :
  NoDup (minimized_windows app) ->
  Application.run frames app = Some app' ->
  NoDup (minimized_windows app').
Proof.
  revert app. induction frames as [|events frames IH]; intros app Hnd; simpl.
  - intros [= <-]. exact Hnd.
  - destruct (App.running app); [|intros [= <-]; exact Hnd].
    unfold Application.frame.
    destruct (foldl _ (Some app) events) as [a|] eqn:H;
      cbn [mbind option_bind]; [|discriminate].
    destruct (Application.draw a) as [drawn|] eqn:Hdraw; [|discriminate].
    apply IH. unfold minimized_windows. rewrite (draw_taskbar a drawn Hdraw).
    exact (handle_events_NoDup events app a Hnd H).
Qed.

(** C10: [Taskbar.add_window] does nothing when the window is already in
    the list, so minimizing again a minimized window leaves the list as it
    is; and no window occurs twice in the list, in any state the
    application reaches from its initial state, event by event or frame
    by frame, and generally after any event handled in a state whose list
    has no duplicates. *)
Theorem C10_taskbar_no_duplicates :
  (forall (window : wid) (app : APP),
      window ∈ minimized_windows app -> Taskbar.add_window window app = app)
  /\ (forall (window : wid) (app : APP),
         NoDup (minimized_windows app) ->
         NoDup (minimized_windows (DraggableWindow.minimize window app))
         /\ minimized_windows
              (DraggableWindow.minimize window (DraggableWindow.minimize window app))
            = minimized_windows (DraggableWindow.minimize window app))
  /\ (forall (host : Host) (event : Event) (app app' : APP),
         NoDup (minimized_windows app) ->
         Application.handle_event host event app = Some app' ->
         NoDup (minimized_windows app'))
  /\ (forall (inputs : list (Host * Event)) (app' : APP),
         handle_events inputs main = Some app' ->
         NoDup (minimized_windows app'))
  /\ (forall (frames : list (list (Host * Event))) (app' : APP),
         Application.run frames main = Some app' ->
         NoDup (minimized_windows app')).
Proof.
  split; [exact add_window_present|].
  split.
  { intros window app Hnd.
    split; [exact (apply_op_NoDup window Minimize app Hnd)|].
    assert (Hin : window ∈ minimized_windows (DraggableWindow.minimize window app)).
    { unfold DraggableWindow.minimize, Taskbar.add_window.
      case_decide as Hdec; [exact Hdec|].
      unfold minimized_windows. simpl. apply elem_of_app. right.
      apply list_elem_of_singleton. reflexivity. }
    unfold DraggableWindow.minimize at 1.
    rewrite add_window_present; [reflexivity|exact Hin]. }
  split; [exact handle_event_NoDup|].
  split.
  - intros inputs app'. apply handle_events_NoDup. constructor.
  - intros frames app'. apply run_NoDup. constructor.
Qed.

Lemma C10_taskbar_no_duplicates_witness :
  exists app',
    Application.run minimize_twice_session main = Some app'
    /\ App.selected_window app' = None
    /\ minimized_windows app' = [0%nat]
    /\ NoDup (minimized_windows app').
Proof.
  destruct C10_taskbar_no_duplicates as (_ & _ & _ & _ & Hrun).
  eexists. split; [vm_compute; reflexivity|].
  split; [reflexivity|]. split; [reflexivity|].
  apply (Hrun minimize_twice_session). vm_compute. reflexivity.
Defined.

(** ** Rescaling on a resize of the screen *)

Lemma binary_round_aux_sign (s : bool) (m e : Z) (l : location) :
  match binary_round_aux PyFloat.prec PyFloat.emax s m e l with
  | S754_finite s' _ _ => s' = s
  | _ => True
  end.
Proof.
  unfold binary_round_aux.
  destruct (shr_fexp _ _ m e l) as [mrs' e'].
  destruct (shr_fexp _ _ _ e' loc_Exact) as [mrs'' e''].
  destruct (shr_m mrs''); [exact I| |exact I].
  destruct (Z.leb _ _); [reflexivity|exact I].
Qed.

Lemma of_int_nonneg (n : Z) (f : spec_float) :
  0 <= n -> PyFloat.of_int n = Some f -> float_nonneg f = true.
Proof.
  intros Hn. unfold PyFloat.of_int, binary_normalize.
  destruct n as [|p|p]; [intros [= <-]; reflexivity| |lia].
  unfold binary_round.
  destruct (shl_align _ _ _) as [mz ez].
  pose proof (binary_round_aux_sign false (Zpos mz) ez loc_Exact) as Hs.
  destruct (binary_round_aux _ _ _ _ _ _); intros [= <-]; try reflexivity.
  simpl. rewrite Hs. reflexivity.
Qed.

Lemma truediv_nonneg (a b : Z) (q : spec_float) :
  0 <= a -> 0 < b -> PyFloat.truediv a b = Some q -> float_nonneg q = true.
Proof.
  intros Ha Hb. unfold PyFloat.truediv.
  destruct (b =? 0); [discriminate|].
  destruct (PyFloat.of_int a) as [fa|] eqn:Hfa; [|discriminate].
  destruct (PyFloat.of_int b) as [fb|] eqn:Hfb; [|discriminate].
  apply of_int_nonneg in Hfa; [|exact Ha].
  apply of_int_nonneg in Hfb; [|lia].
  destruct fa as [sa|sa| |sa ma ea], fb as [sb|sb| |sb mb eb];
    simpl in Hfa, Hfb; simpl SFdiv;
    try (intros [= <-]; reflexivity); try discriminate.
  apply negb_true_iff in Hfa, Hfb. subst sa sb.
  destruct (SFdiv_core_binary _ _ _ _ _ _) as [[mz ez] lz].
  pose proof (binary_round_aux_sign (xorb false false) mz ez lz) as Hs.
  destruct (binary_round_aux _ _ _ _ _ _); intros [= <-]; try reflexivity.
  simpl. rewrite Hs. reflexivity.
Qed.

Lemma to_int_nonneg (f : spec_float) (v : Z) :
  float_nonneg f = true -> PyFloat.to_int f = Some v -> 0 <= v.
Proof.
  destruct f as [s|s| |s m e]; simpl; try discriminate.
  - intros _ [= <-]. lia.
  - intros Hs. apply negb_true_iff in Hs. subst s. intros [= <-].
    destruct (0 <=? e).
    + apply Z.shiftl_nonneg. lia.
    + apply Z.shiftr_nonneg. lia.
Qed.

Lemma scaled_nonneg (n : Z) (scale : spec_float) (v : Z) :
  0 <= n -> float_nonneg scale = true ->
  Application.scaled n scale = Some v -> 0 <= v.
Proof.
  intros Hn Hscale. unfold Application.scaled, PyFloat.int_mul.
  destruct (PyFloat.of_int n) as [fn|] eqn:Hfn; [|discriminate].
  apply of_int_nonneg in Hfn; [|exact Hn].
  cbn [mbind option_bind]. apply to_int_nonneg.
  destruct fn as [sa|sa| |sa ma ea], scale as [sb|sb| |sb mb eb];
    simpl in Hfn, Hscale; try reflexivity.
  apply negb_true_iff in Hfn, Hscale. subst sa sb. unfold SFmul.
  pose proof (binary_round_aux_sign (xorb false false)
                (Zpos (Pos.mul ma mb)) (ea + eb) loc_Exact) as Hs.
  destruct (binary_round_aux _ _ _ _ _ _); try reflexivity.
  simpl. rewrite Hs. reflexivity.
Qed.

(** What [constrain_window_within_screen] guarantees of a rectangle. *)
Lemma constrain_bounds (app : APP) (w : DW.t) :
  let r := DW.rect w in
  let r' := DW.rect (Application.constrain_window_within_screen app w) in
  let sw := App.screen_width app in
  let bottom := App.screen_height app - TASKBAR_HEIGHT in
  Rect.x r' + Rect.width r' <= sw
  /\ Rect.y r' + Rect.height r' <= bottom
  /\ Rect.width r' = Z.min (Rect.width r) sw
  /\ Rect.height r' = Z.min (Rect.height r) bottom
  /\ (0 <= Rect.x r -> 0 <= Rect.x r')
  /\ (0 <= Rect.y r -> 0 <= Rect.y r')
  /\ (Rect.x r + Rect.width r <= sw -> Rect.width r <= sw -> Rect.x r' = Rect.x r)
  /\ (Rect.y r + Rect.height r <= bottom -> Rect.height r <= bottom ->
      Rect.y r' = Rect.y r).
Proof.
  cbv zeta. unfold Application.constrain_window_within_screen.
  destruct (DW.rect w) as [x y width height]. cbn [DW.rect DW.set_rect].
  cbn [Rect.x Rect.y Rect.width Rect.height].
  destruct (App.screen_width app <? x + width) eqn:H1;
    cbn [Rect.set_x Rect.set_y Rect.set_width Rect.set_height
         Rect.x Rect.y Rect.width Rect.height];
    (destruct (App.screen_height app - TASKBAR_HEIGHT <? y + height) eqn:H2;
     cbn [Rect.set_x Rect.set_y Rect.set_width Rect.set_height
          Rect.x Rect.y Rect.width Rect.height];
     (destruct (App.screen_width app <? width) eqn:H3;
      cbn [Rect.set_x Rect.set_y Rect.set_width Rect.set_height
           Rect.x Rect.y Rect.width Rect.height];
      (destruct (App.screen_height app - TASKBAR_HEIGHT <? height) eqn:H4;
       cbn [Rect.set_x Rect.set_y Rect.set_width Rect.set_height
            Rect.x Rect.y Rect.width Rect.height];
       rewrite ?Z.ltb_lt, ?Z.ltb_ge in *; lia))).
Qed.

Lemma rescale_window_screen (scale_x scale_y : spec_float) (a b : APP) (w : DW.t) :
  App.screen_width a = App.screen_width b ->
  App.screen_height a = App.screen_height b ->
  Application.rescale_window scale_x scale_y a w
  = Application.rescale_window scale_x scale_y b w.
Proof.
  intros Hw Hh.
  unfold Application.rescale_window, Application.constrain_window_within_screen.
  rewrite Hw, Hh. reflexivity.
Qed.

(** The loop over the windows: it writes to the window store only; a
    window out of the list is left alone; and when the list has no
    duplicates each of its windows is rescaled once, from the rectangle
    it had before the loop. *)
Lemma rescale_windows_spec (scale_x scale_y : spec_float) (ws : list wid)
    (app app' : APP) :
  Application.rescale_windows scale_x scale_y ws app = Some app' ->
  app' = App.set_window_store (App.window_store app') app
  /\ (forall window, window ∉ ws ->
        App.window_store app' !! window = App.window_store app !! window)
  /\ (NoDup ws ->
      forall window w, window ∈ ws ->
        App.window_store app !! window = Some w ->
        exists w', Application.rescale_window scale_x scale_y app w = Some w'
                   /\ App.window_store app' !! window = Some w').
Proof.
  revert app. induction ws as [|window0 rest IH]; intros app; simpl.
  - intros [= <-]. split; [destruct app; reflexivity|].
    split; [reflexivity|]. intros _ window w Hin. inversion Hin.
  - destruct (App.window_store app !! window0) as [w0|] eqn:Hw0.
    + destruct (Application.rescale_window scale_x scale_y app w0) as [w0'|] eqn:Hr;
        cbn [mbind option_bind]; [|discriminate].
      intros Hrest. apply IH in Hrest. clear IH.
      destruct Hrest as (Hframe & Hout & Hin).
      cbn [App.set_window_store App.window_store] in Hout, Hin.
      split; [rewrite Hframe; destruct app; reflexivity|].
      split.
      * intros window Hnotin. apply not_elem_of_cons in Hnotin.
        destruct Hnotin as [Hne Hnotin].
        rewrite (Hout window Hnotin). apply list_lookup_insert_ne. congruence.
      * intros Hnd window w Hwin Hw. apply NoDup_cons in Hnd.
        destruct Hnd as [Hnotin Hnd]. apply elem_of_cons in Hwin.
        destruct Hwin as [->|Hwin].
        -- exists w0'. rewrite Hw in Hw0. injection Hw0 as <-.
           split; [exact Hr|]. rewrite (Hout window0 Hnotin).
           apply list_lookup_insert_eq. eapply lookup_lt_Some, Hw.
        -- assert (Hne : window0 <> window) by (intros ->; exact (Hnotin Hwin)).
           destruct (Hin Hnd window w Hwin) as (w' & Hw' & Hlook).
           { rewrite list_lookup_insert_ne by exact Hne. exact Hw. }
           exists w'. split; [|exact Hlook].
           rewrite <- Hw'. apply rescale_window_screen; reflexivity.
    + intros Hrest. apply IH in Hrest. clear IH.
      destruct Hrest as (Hframe & Hout & Hin).
      split; [exact Hframe|]. split.
      * intros window Hnotin. apply not_elem_of_cons in Hnotin.
        apply Hout, Hnotin.
      * intros Hnd window w Hwin Hw. apply NoDup_cons in Hnd.
        destruct Hnd as [Hnotin Hnd]. apply elem_of_cons in Hwin.
        destruct Hwin as [->|Hwin]; [congruence|].
        exact (Hin Hnd window w Hwin Hw).
Qed.

(** An event that is neither a mouse nor a key event goes through the
    popups and the windows without a change of the window store. *)
Lemma window_handle_event_videoresize (self : wid) (w h : Z) (app : APP) :
  fst (DraggableWindow.handle_event self (VIDEORESIZE w h) app) = app.
Proof.
  unfold DraggableWindow.handle_event.
  destruct (App.window_store app !! self) as [win|]; [|reflexivity].
  destruct (DW.minimized win); reflexivity.
Qed.

Lemma dispatch_videoresize (w h : Z) (todo : list wid) (app : APP) :
  let app' := fst (WindowManager.dispatch (VIDEORESIZE w h) todo app) in
  App.window_store app' = App.window_store app
  /\ App.screen_width app' = App.screen_width app
  /\ App.screen_height app' = App.screen_height app
  /\ App.prev_screen_width app' = App.prev_screen_width app
  /\ App.prev_screen_height app' = App.prev_screen_height app.
Proof.
  cbv zeta. induction todo as [|window rest IH]; [repeat split|].
  cbn [WindowManager.dispatch]. rewrite window_handle_event_videoresize.
  destruct (WindowManager.is_selected window app).
  - cbn [fst]. unfold WindowManager.bring_to_front.
    case_decide; repeat split.
  - destruct (WindowManager.dispatch (VIDEORESIZE w h) rest app) as [a called].
    exact IH.
Qed.

Lemma popup_handle_event_videoresize (host : Host) (p : Popup) (w h : Z) (app : APP) :
  Popup_handle_event host p (VIDEORESIZE w h) app = Some (p, app, None).
Proof. destruct p; reflexivity. Qed.

Lemma handle_mouse_videoresize (host : Host) (w h : Z) (app app' : APP) :
  Application.handle_mouse host (VIDEORESIZE w h) app = Some app' ->
  App.window_store app' = App.window_store app
  /\ App.screen_width app' = App.screen_width app
  /\ App.screen_height app' = App.screen_height app
  /\ App.prev_screen_width app' = App.prev_screen_width app
  /\ App.prev_screen_height app' = App.prev_screen_height app.
Proof.
  unfold Application.handle_mouse, Application.menu_handle_event.
  destruct (last (App.menu_stack app)) as [current_menu|].
  - rewrite popup_handle_event_videoresize. cbn [mbind option_bind].
    intros [= <-].
    exact (dispatch_videoresize w h (rev (WindowManager.windows app))
             (App.set_menu_stack
                (removelast (App.menu_stack app) ++ [current_menu]) app)).
  - cbn [mbind option_bind]. intros [= <-].
    exact (dispatch_videoresize w h (rev (WindowManager.windows app)) app).
Qed.

Lemma constrain_screen (a b : APP) (w : DW.t) :
  App.screen_width a = App.screen_width b ->
  App.screen_height a = App.screen_height b ->
  Application.constrain_window_within_screen a w
  = Application.constrain_window_within_screen b w.
Proof.
  intros Hw Hh. unfold Application.constrain_window_within_screen.
  rewrite Hw, Hh. reflexivity.
Qed.

(** C4, as stated, fails: shrinking the 800x600 screen to 400x300 leaves
    the main window 150 wide and 100 high, below 200 and 150, although
    the new screen has room for more. *)
Lemma C4_resize_floor_is_150_by_100 :
  rect_of 0%nat
    <$> Application.handle_event (example_host 0) (VIDEORESIZE 400 300) main
  = Some (Some (Rect.mk 50 50 150 100)).
Proof. vm_compute. reflexivity. Qed.

(** C4, amended: on a resize of the screen to [(nw, nh)], every window of
    a duplicate-free window list gets the rectangle obtained from its own
    by scaling x and width by the float [nw / prev_screen_width] and y and
    height by [nh / prev_screen_height] (float product, truncated), then
    raising the width to at least 150 and the height to at least 100, then
    [constrain_window_within_screen] on the new screen: the width is cut
    to [nw] and the height to [nh - TASKBAR_HEIGHT], the right and bottom
    edges end within them, and with positive previous sizes, a screen at
    least as high as the taskbar and a non-negative origin the rectangle
    lies within the screen area.  Resizing from (800, 600) to (1600, 600)
    maps (100, 100, 300, 200) to (200, 100, 600, 200). *)
Theorem C4_screen_resize
    (host : Host) (nw nh : Z) (app app' : APP) (window : wid) (w : DW.t) :
  Application.handle_event host (VIDEORESIZE nw nh) app = Some app' ->
  NoDup (WindowManager.windows app) ->
  window ∈ WindowManager.windows app ->
  App.window_store app !! window = Some w ->
  let r := DW.rect w in
  let pw := App.prev_screen_width app in
  let ph := App.prev_screen_height app in
  exists scale_x scale_y new_x new_y new_width new_height r',
    PyFloat.truediv nw pw = Some scale_x
    /\ PyFloat.truediv nh ph = Some scale_y
    /\ Application.scaled (Rect.x r) scale_x = Some new_x
    /\ Application.scaled (Rect.y r) scale_y = Some new_y
    /\ Application.scaled (Rect.width r) scale_x = Some new_width
    /\ Application.scaled (Rect.height r) scale_y = Some new_height
    /\ rect_of window app' = Some r'
    /\ r' = DW.rect
              (Application.constrain_window_within_screen app'
                 (DW.set_rect
                    (Rect.mk new_x new_y (Z.max new_width 150) (Z.max new_height 100))
                    w))
    /\ (App.screen_width app', App.screen_height app') = (nw, nh)
    /\ (App.prev_screen_width app', App.prev_screen_height app') = (nw, nh)
    /\ Rect.width r' = Z.min (Z.max new_width 150) nw
    /\ Rect.height r' = Z.min (Z.max new_height 100) (nh - TASKBAR_HEIGHT)
    /\ Rect.x r' + Rect.width r' <= nw
    /\ Rect.y r' + Rect.height r' <= nh - TASKBAR_HEIGHT
    /\ (0 < pw -> 0 < ph -> 0 <= nw -> TASKBAR_HEIGHT <= nh ->
        0 <= Rect.x r -> 0 <= Rect.y r -> within_screen app' r')
    /\ ((pw, ph) = (800, 600) -> (nw, nh) = (1600, 600) ->
        r = Rect.mk 100 100 300 200 -> r' = Rect.mk 200 100 600 200).
Proof.
  intros Hev Hnd Hin Hw r pw ph.
  unfold Application.handle_event in Hev.
  cbn [Application.handle_global] in Hev.
  destruct (Application.on_videoresize nw nh app) as [a|] eqn:Hres;
    cbn [mbind option_bind] in Hev; [|discriminate].
  apply handle_mouse_videoresize in Hev.
  destruct Hev as (Hstore & Hsw & Hsh & Hpw & Hph).
  unfold Application.on_videoresize in Hres. cbv zeta in Hres.
  set (app0 := Application.update_taskbar_rect (App.set_screen_size nw nh app)) in Hres.
  change (App.screen_width app0) with nw in Hres.
  change (App.screen_height app0) with nh in Hres.
  change (App.prev_screen_width app0) with pw in Hres.
  change (App.prev_screen_height app0) with ph in Hres.
  change (WindowManager.windows app0) with (WindowManager.windows app) in Hres.
  destruct (PyFloat.truediv nw pw) as [scale_x|] eqn:Hsx;
    cbn [mbind option_bind] in Hres; [|discriminate].
  destruct (PyFloat.truediv nh ph) as [scale_y|] eqn:Hsy;
    cbn [mbind option_bind] in Hres; [|discriminate].
  destruct (Application.rescale_windows scale_x scale_y _ app0) as [a1|] eqn:Hloop;
    cbn [mbind option_bind] in Hres; [|discriminate].
  injection Hres as <-.
  apply rescale_windows_spec in Hloop. destruct Hloop as (Hframe & _ & Heach).
  destruct (Heach Hnd window w Hin Hw) as (w' & Hw' & Hlook). clear Heach.
  assert (Ha1w : App.screen_width a1 = nw) by (rewrite Hframe; reflexivity).
  assert (Ha1h : App.screen_height a1 = nh) by (rewrite Hframe; reflexivity).
  cbn [App.set_prev_screen_size App.window_store App.screen_width
       App.screen_height App.prev_screen_width App.prev_screen_height]
    in Hstore, Hsw, Hsh, Hpw, Hph.
  rewrite Ha1w in Hsw, Hpw. rewrite Ha1h in Hsh, Hph.
  unfold Application.rescale_window in Hw'. fold r in Hw'.
  destruct (Application.scaled (Rect.x r) scale_x) as [new_x|] eqn:Hx;
    cbn [mbind option_bind] in Hw'; [|discriminate].
  destruct (Application.scaled (Rect.y r) scale_y) as [new_y|] eqn:Hy;
    cbn [mbind option_bind] in Hw'; [|discriminate].
  destruct (Application.scaled (Rect.width r) scale_x) as [new_width|] eqn:Hwd;
    cbn [mbind option_bind] in Hw'; [|discriminate].
  destruct (Application.scaled (Rect.height r) scale_y) as [new_height|] eqn:Hht;
    cbn [mbind option_bind] in Hw'; [|discriminate].
  injection Hw' as <-.
  rewrite (constrain_screen app0 app') in Hlook by (symmetry; assumption).
  set (scaled_w := DW.set_rect
                     (Rect.mk new_x new_y (Z.max new_width 150) (Z.max new_height 100))
                     w) in *.
  pose proof (constrain_bounds app' scaled_w) as Hb. cbv zeta in Hb.
  rewrite Hsw, Hsh in Hb.
  change (DW.rect scaled_w)
    with (Rect.mk new_x new_y (Z.max new_width 150) (Z.max new_height 100)) in Hb.
  cbn [Rect.x Rect.y Rect.width Rect.height] in Hb.
  destruct Hb as (Hright & Hbottom & Hwidth & Hheight & Hx0 & Hy0 & Hxsame & Hysame).
  exists scale_x, scale_y, new_x, new_y, new_width, new_height,
    (DW.rect (Application.constrain_window_within_screen app' scaled_w)).
  do 6 (split; [first [assumption | reflexivity]|]).
  split; [unfold rect_of; rewrite Hstore, Hlook; reflexivity|].
  split; [reflexivity|].
  split; [rewrite Hsw, Hsh; reflexivity|].
  split; [rewrite Hpw, Hph; reflexivity|].
  split; [exact Hwidth|]. split; [exact Hheight|].
  split; [exact Hright|]. split; [exact Hbottom|].
  split.
  - intros Hpw0 Hph0 Hnw Hnh Hrx Hry.
    assert (0 <= new_x).
    { eapply scaled_nonneg; [exact Hrx| |exact Hx].
      eapply truediv_nonneg; [exact Hnw|exact Hpw0|exact Hsx]. }
    assert (0 <= new_y).
    { eapply scaled_nonneg; [exact Hry| |exact Hy].
      eapply truediv_nonneg; [|exact Hph0|exact Hsy]. unfold TASKBAR_HEIGHT in Hnh. lia. }
    unfold within_screen. rewrite Hsw, Hsh. unfold TASKBAR_HEIGHT in *. lia.
  - intros [= Epw Eph] [= Enw Enh] Er.
    rewrite Epw, Enw in Hsx. rewrite Eph, Enh in Hsy.
    vm_compute in Hsx, Hsy. injection Hsx as <-. injection Hsy as <-.
    rewrite Er in Hx, Hy, Hwd, Hht.
    vm_compute in Hx, Hy, Hwd, Hht.
    injection Hx as <-. injection Hy as <-.
    injection Hwd as <-. injection Hht as <-.
    subst nw nh. unfold TASKBAR_HEIGHT in *.
    destruct (DW.rect (Application.constrain_window_within_screen app' scaled_w))
      as [x' y' width' height'].
    cbn [Rect.x Rect.y Rect.width Rect.height] in *.
    f_equal; lia.
Qed.

Lemma C4_screen_resize_witness :
  exists app',
    Application.handle_event (example_host 0) (VIDEORESIZE 1600 600) main = Some app'
    /\ rect_of 0%nat app' = Some (Rect.mk 200 100 600 200).
Proof.
  destruct (Application.handle_event (example_host 0) (VIDEORESIZE 1600 600) main)
    as [app'|] eqn:Hev; [|vm_compute in Hev; discriminate].
  exists app'. split; [reflexivity|].
  destruct (C4_screen_resize (example_host 0) 1600 600 main app' 0%nat
              (DW.init 100 100 300 200 "Main Window") Hev)
    as (sx & sy & nx & ny & nwd & nht & r' & _ & _ & _ & _ & _ & _ & Hrect
        & _ & _ & _ & _ & _ & _ & _ & _ & Hexample).
  - apply NoDup_singleton.
  - apply list_elem_of_here.
  - reflexivity.
  - rewrite (Hexample eq_refl eq_refl eq_refl) in Hrect. exact Hrect.
Defined.

(** * Further properties of the code *)

(** ** Lists of window references *)

(** Closes [x ∉ [a; b; ...]] on distinct literals. *)
Ltac list_not_in :=
  let H := fresh in
  intros H;
  repeat (apply elem_of_cons in H; destruct H as [H|H]; [discriminate H|]);
  apply elem_of_nil in H; exact H.

Lemma remove_first_absent (x : nat) (l : list nat) :
  x ∉ l -> remove_first x l = l.
Proof.
  induction l as [|y l IH]; simpl; [reflexivity|].
  intros Hnotin. apply not_elem_of_cons in Hnotin. destruct Hnotin as [Hne Hnotin].
  rewrite decide_False by exact Hne. rewrite IH by exact Hnotin. reflexivity.
Qed.

Lemma remove_first_snoc_absent (x : nat) (l : list nat) :
  x ∉ l -> remove_first x (l ++ [x]) = l.
Proof.
  induction l as [|y l IH]; simpl.
  - intros _. rewrite decide_True by reflexivity. reflexivity.
  - intros Hnotin. apply not_elem_of_cons in Hnotin. destruct Hnotin as [Hne Hnotin].
    rewrite decide_False by exact Hne. rewrite IH by exact Hnotin. reflexivity.
Qed.

Lemma remove_first_Permutation (x : nat) (l : list nat) :
  x ∈ l -> x :: remove_first x l ≡ₚ l.
Proof.
  induction l as [|y l IH]; simpl; [intros Hin; inversion Hin|].
  intros Hin. case_decide as Hdec; [subst; reflexivity|].
  apply elem_of_cons in Hin. destruct Hin as [->|Hin]; [congruence|].
  rewrite Permutation_swap. rewrite IH by exact Hin. reflexivity.
Qed.

Lemma remove_first_NoDup_absent (x : nat) (l : list nat) :
  NoDup l -> x ∉ remove_first x l.
Proof.
  induction 1 as [|y l Hy Hl IH]; simpl; [apply not_elem_of_nil|].
  case_decide as Hdec; [subst; exact Hy|].
  apply not_elem_of_cons. split; [exact Hdec|exact IH].
Qed.

Lemma taskbar_remove_window_absent (window : wid) (app : APP) :
  NoDup (minimized_windows app) ->
  window ∉ minimized_windows (Taskbar.remove_window window app).
Proof.
  intros Hnd. unfold Taskbar.remove_window.
  case_decide as Hin; [|exact Hin].
  apply remove_first_NoDup_absent, Hnd.
Qed.

Lemma bring_to_front_present (window : wid) (app : APP) :
  window ∈ WindowManager.windows app ->
  WindowManager.bring_to_front window app
  = WindowManager.set_windows
      (remove_first window (WindowManager.windows app) ++ [window]) app.
Proof.
  intros Hin. unfold WindowManager.bring_to_front.
  rewrite decide_True by exact Hin. reflexivity.
Qed.

Lemma bring_to_front_absent (window : wid) (app : APP) :
  window ∉ WindowManager.windows app ->
  WindowManager.bring_to_front window app = app.
Proof.
  intros Hnotin. unfold WindowManager.bring_to_front.
  rewrite decide_False by exact Hnotin. reflexivity.
Qed.

(** X1: [bring_to_front] does nothing for a window that is not in the
    list; otherwise it makes the window the last (topmost) one and only
    permutes the list; on a list without duplicates it keeps the list
    duplicate-free and calling it a second time changes nothing. *)
Theorem X1_bring_to_front (window : wid) (app : APP) :
  let app' := WindowManager.bring_to_front window app in
  (window ∉ WindowManager.windows app -> app' = app)
  /\ (window ∈ WindowManager.windows app ->
      last (WindowManager.windows app') = Some window)
  /\ WindowManager.windows app' ≡ₚ WindowManager.windows app
  /\ (NoDup (WindowManager.windows app) ->
      NoDup (WindowManager.windows app')
      /\ WindowManager.bring_to_front window app' = app').
Proof.
  cbv zeta.
  destruct (decide (window ∈ WindowManager.windows app)) as [Hin|Hnotin].
  - rewrite (bring_to_front_present window app Hin).
    change (WindowManager.windows
              (WindowManager.set_windows
                 (remove_first window (WindowManager.windows app) ++ [window]) app))
      with (remove_first window (WindowManager.windows app) ++ [window]).
    assert (Hperm : remove_first window (WindowManager.windows app) ++ [window]
                    ≡ₚ WindowManager.windows app).
    { rewrite <- (remove_first_Permutation window _ Hin) at 2.
      rewrite Permutation_app_comm. reflexivity. }
    split; [intros Hnotin; contradiction|].
    split; [intros _; apply last_snoc|].
    split; [exact Hperm|].
    intros Hnd. split; [rewrite Hperm; exact Hnd|].
    rewrite bring_to_front_present
      by (apply elem_of_app; right; apply list_elem_of_singleton; reflexivity).
    change (WindowManager.windows
              (WindowManager.set_windows
                 (remove_first window (WindowManager.windows app) ++ [window]) app))
      with (remove_first window (WindowManager.windows app) ++ [window]).
    rewrite remove_first_snoc_absent by (apply remove_first_NoDup_absent, Hnd).
    reflexivity.
  - rewrite (bring_to_front_absent window app Hnotin).
    split; [reflexivity|]. split; [intros Hin; contradiction|].
    split; [reflexivity|]. intros Hnd. split; [exact Hnd|].
    apply bring_to_front_absent, Hnotin.
Qed.

Lemma X1_bring_to_front_witness :
  let app := WindowManager.add_window 2%nat
               (WindowManager.add_window 1%nat main) in
  WindowManager.windows (WindowManager.bring_to_front 0%nat app) = [1; 2; 0]%nat
  /\ WindowManager.bring_to_front 0%nat (WindowManager.bring_to_front 0%nat app)
     = WindowManager.bring_to_front 0%nat app.
Proof.
  intros app. split; [reflexivity|].
  apply (X1_bring_to_front 0%nat app).
  vm_compute. repeat (constructor; [list_not_in|]). constructor.
Defined.

(** X2: in the window manager and in the taskbar alike, removing a window
    that is not in the list changes nothing, removing a window right after
    adding it to a list that did not hold it gives the list back, and a
    window removed from a duplicate-free list is no longer in it. *)
Theorem X2_add_then_remove (window : wid) (app : APP) :
  (window ∉ WindowManager.windows app ->
   WindowManager.remove_window window app = app
   /\ WindowManager.remove_window window (WindowManager.add_window window app) = app)
  /\ (NoDup (WindowManager.windows app) ->
      window ∉ WindowManager.windows (WindowManager.remove_window window app))
  /\ (window ∉ minimized_windows app ->
      Taskbar.remove_window window app = app
      /\ Taskbar.remove_window window (Taskbar.add_window window app) = app)
  /\ (NoDup (minimized_windows app) ->
      window ∉ minimized_windows (Taskbar.remove_window window app)).
Proof.
  split; [|split; [|split]].
  - intros Hnotin. split.
    + unfold WindowManager.remove_window. rewrite decide_False by exact Hnotin.
      reflexivity.
    + unfold WindowManager.remove_window, WindowManager.add_window.
      change (WindowManager.windows
                (WindowManager.set_windows (WindowManager.windows app ++ [window]) app))
        with (WindowManager.windows app ++ [window]).
      rewrite decide_True
        by (apply elem_of_app; right; apply list_elem_of_singleton; reflexivity).
      rewrite remove_first_snoc_absent by exact Hnotin.
      destruct app as [? ? ? ? [ws] ? ? ? ? ? ? ?]. reflexivity.
  - intros Hnd. unfold WindowManager.remove_window.
    case_decide as Hin; [|exact Hin].
    apply remove_first_NoDup_absent, Hnd.
  - intros Hnotin. split.
    + unfold Taskbar.remove_window.
      rewrite decide_False by exact Hnotin. reflexivity.
    + unfold Taskbar.add_window. rewrite decide_False by exact Hnotin.
      unfold Taskbar.remove_window.
      cbn [App.set_taskbar App.taskbar TaskbarObj.set_minimized_windows
           TaskbarObj.minimized_windows TaskbarObj.rect].
      rewrite decide_True
        by (apply elem_of_app; right; apply list_elem_of_singleton; reflexivity).
      rewrite remove_first_snoc_absent by exact Hnotin.
      destruct app as [? ? ? [mw r] ? ? ? ? ? ? ? ?]. reflexivity.
  - apply taskbar_remove_window_absent.
Qed.

Lemma X2_add_then_remove_witness :
  WindowManager.remove_window 7%nat (WindowManager.add_window 7%nat main) = main
  /\ Taskbar.remove_window 0%nat (Taskbar.add_window 0%nat main) = main.
Proof.
  split.
  - apply (X2_add_then_remove 7%nat main).
    vm_compute. list_not_in.
  - apply (X2_add_then_remove 0%nat main).
    vm_compute. list_not_in.
Defined.

(** X3: on a live window that is not maximized, [toggle_maximize] twice
    gives back the rectangle the window had, whatever the screen size;
    both flags are then clear and the window is out of the taskbar list
    (of a duplicate-free list), even if it was minimized before. *)
Theorem X3_toggle_maximize_twice (self : wid) (app : APP) (w : DW.t) :
  App.window_store app !! self = Some w ->
  DW.maximized w = false ->
  let app1 := DraggableWindow.toggle_maximize self app in
  let app2 := DraggableWindow.toggle_maximize self app1 in
  rect_of self app1
  = Some (Rect.mk 0 0 (App.screen_width app) (App.screen_height app - TASKBAR_HEIGHT))
  /\ flags self app1 = (DW.minimized w, true)
  /\ App.window_store app2 !! self
     = Some (DW.set_minimized false (DW.set_prev_rect (DW.rect w) w))
  /\ rect_of self app2 = Some (DW.rect w)
  /\ flags self app2 = (false, false)
  /\ (NoDup (minimized_windows app) -> self ∉ minimized_windows app2).
Proof.
  intros Hw Hmax app1 app2.
  assert (H1 : app1 = DraggableWindow.maximize self app).
  { unfold app1. rewrite (toggle_maximize_self _ _ _ Hw), Hmax. reflexivity. }
  pose proof (maximize_self _ _ _ Hw) as Hw1. rewrite <- H1 in Hw1.
  assert (H2 : app2 = DraggableWindow.restore self app1).
  { unfold app2. rewrite (toggle_maximize_self _ _ _ Hw1). reflexivity. }
  pose proof (restore_self _ _ _ Hw1) as Hw2. rewrite <- H2 in Hw2.
  split; [unfold rect_of; rewrite Hw1; reflexivity|].
  split; [unfold flags; rewrite Hw1; reflexivity|].
  split; [rewrite Hw2; destruct w; simpl in *; subst; reflexivity|].
  split; [unfold rect_of; rewrite Hw2; reflexivity|].
  split; [unfold flags; rewrite Hw2; reflexivity|].
  intros Hnd. rewrite H2, H1. unfold DraggableWindow.restore.
  apply taskbar_remove_window_absent. exact Hnd.
Qed.

Lemma X3_toggle_maximize_twice_witness :
  rect_of 0%nat
    (DraggableWindow.toggle_maximize 0%nat
       (DraggableWindow.toggle_maximize 0%nat main))
  = Some (Rect.mk 100 100 300 200).
Proof.
  apply (X3_toggle_maximize_twice 0%nat main
           (DW.init 100 100 300 200 "Main Window")); reflexivity.
Defined.

(** ** The taskbar buttons *)

Lemma button_rects_disjoint (i j : nat) (app : APP) (pos : Z * Z) :
  i <> j ->
  Rect.collidepoint (Taskbar.button_rect i app) pos = true ->
  Rect.collidepoint (Taskbar.button_rect j app) pos = false.
Proof.
  intros Hne. unfold Rect.collidepoint, Taskbar.button_rect.
  cbn [Rect.x Rect.y Rect.width Rect.height].
  rewrite !andb_true_iff, !Z.leb_le, !Z.ltb_lt. intros [[[H1 H2] _] _].
  apply andb_false_iff. left. apply andb_false_iff. left.
  apply andb_false_iff.
  destruct (Z.leb_spec (10 + Z.of_nat j * (100 + 10)) (fst pos)); [|left; reflexivity].
  right. apply Z.ltb_ge. lia.
Qed.

Lemma taskbar_click_hit (pos : Z * Z) (ws : list wid) (idx k : nat) (window : wid)
    (app : APP) :
  ws !! k = Some window ->
  Rect.collidepoint (Taskbar.button_rect (idx + k) app) pos = true ->
  Taskbar_click pos idx ws app
  = WindowManager.bring_to_front window
      (Taskbar.remove_window window (DraggableWindow.restore window app)).
Proof.
  revert idx k. induction ws as [|w0 rest IH]; intros idx k Hk Hhit; [discriminate|].
  simpl. destruct k as [|k]; simpl in Hk.
  - injection Hk as ->. rewrite Nat.add_0_r in Hhit. rewrite Hhit. reflexivity.
  - rewrite (button_rects_disjoint (idx + S k) idx app pos) by (try exact Hhit; lia).
    apply (IH (S idx) k Hk). rewrite <- Hhit. f_equal. f_equal. lia.
Qed.

Lemma taskbar_click_miss (pos : Z * Z) (ws : list wid) (idx : nat) (app : APP) :
  (forall k, (k < length ws)%nat ->
     Rect.collidepoint (Taskbar.button_rect (idx + k) app) pos = false) ->
  Taskbar_click pos idx ws app = app.
Proof.
  revert idx. induction ws as [|w0 rest IH]; intros idx Hmiss; [reflexivity|].
  simpl. rewrite <- (Nat.add_0_r idx) at 1. rewrite (Hmiss 0%nat) by (simpl; lia).
  apply IH. intros k Hk. replace (S idx + k)%nat with (idx + S k)%nat by lia.
  apply Hmiss. simpl. lia.
Qed.

(** X4: a left click on the button of the [k]-th minimized window restores
    that window and no other: it gets [prev_rect] back with both flags
    clear, leaves the taskbar list (the others keep their order) and, when
    the window manager holds it, becomes the topmost window.  A left
    click that is on no button, and a click of another mouse button,
    change nothing. *)
Theorem X4_taskbar_click (app : APP) (pos : Z * Z) (button : Z) :
  (forall (k : nat) (window : wid) (w : DW.t),
      minimized_windows app !! k = Some window ->
      Rect.collidepoint (Taskbar.button_rect k app) pos = true ->
      App.window_store app !! window = Some w ->
      NoDup (minimized_windows app) ->
      let app' := Taskbar_handle_event (MOUSEBUTTONDOWN 1 pos) app in
      App.window_store app' !! window
      = Some (DW.set_maximized false
                (DW.set_minimized false (DW.set_rect (DW.prev_rect w) w)))
      /\ (forall other, other <> window ->
            App.window_store app' !! other = App.window_store app !! other)
      /\ minimized_windows app' = remove_first window (minimized_windows app)
      /\ (window ∉ minimized_windows app')
      /\ (window ∈ WindowManager.windows app ->
          last (WindowManager.windows app') = Some window))
  /\ ((forall k, (k < length (minimized_windows app))%nat ->
         Rect.collidepoint (Taskbar.button_rect k app) pos = false) ->
      Taskbar_handle_event (MOUSEBUTTONDOWN 1 pos) app = app)
  /\ (button <> 1 -> Taskbar_handle_event (MOUSEBUTTONDOWN button pos) app = app).
Proof.
  split; [|split].
  - intros k window w Hk Hhit Hw Hnd app'.
    assert (Hin : window ∈ minimized_windows app)
      by (eapply list_elem_of_lookup_2, Hk).
    assert (Happ : app' = WindowManager.bring_to_front window
                            (Taskbar.remove_window window
                               (DraggableWindow.restore window app)))
      by (apply (taskbar_click_hit pos _ 0 k window app Hk Hhit)).
    assert (Hmw : minimized_windows app'
                  = remove_first window (minimized_windows app)).
    { rewrite Happ, minimized_windows_bring_to_front.
      unfold DraggableWindow.restore.
      set (a := App.update_window window _ app).
      assert (Ha : minimized_windows (Taskbar.remove_window window a)
                   = remove_first window (minimized_windows app)).
      { unfold Taskbar.remove_window. change (TaskbarObj.minimized_windows (App.taskbar a))
          with (minimized_windows app).
        rewrite decide_True by exact Hin. reflexivity. }
      unfold Taskbar.remove_window at 1.
      change (TaskbarObj.minimized_windows
                (App.taskbar (Taskbar.remove_window window a)))
        with (minimized_windows (Taskbar.remove_window window a)).
      rewrite Ha.
      rewrite decide_False by (apply remove_first_NoDup_absent, Hnd).
      exact Ha. }
    assert (Hstore : App.window_store app'
                     = App.window_store (DraggableWindow.restore window app)).
    { rewrite Happ. unfold WindowManager.bring_to_front, Taskbar.remove_window.
      repeat case_decide; reflexivity. }
    split; [rewrite Hstore; apply restore_self, Hw|].
    split.
    { intros other Hne. rewrite Hstore. unfold DraggableWindow.restore.
      rewrite window_store_remove_window. apply window_store_update_ne. congruence. }
    split; [exact Hmw|].
    split; [rewrite Hmw; apply remove_first_NoDup_absent, Hnd|].
    intros Hwin. rewrite Happ.
    assert (Hwin' : window ∈ WindowManager.windows
                      (Taskbar.remove_window window
                         (DraggableWindow.restore window app))).
    { unfold DraggableWindow.restore, Taskbar.remove_window.
      repeat case_decide; exact Hwin. }
    rewrite (bring_to_front_present _ _ Hwin'). apply last_snoc.
  - intros Hmiss. simpl. apply taskbar_click_miss. exact Hmiss.
  - intros Hne. simpl. apply Z.eqb_neq in Hne. rewrite Hne. reflexivity.
Qed.

Lemma X4_taskbar_click_witness :
  let app := DraggableWindow.minimize 0%nat main in
  let app' := Taskbar_handle_event (MOUSEBUTTONDOWN 1 (50, 580)) app in
  minimized_windows app' = remove_first 0%nat (minimized_windows app)
  /\ 0%nat ∉ minimized_windows app'.
Proof.
  intros app app'.
  destruct (X4_taskbar_click app (50, 580) 1) as (Hhit & _ & _).
  destruct (Hhit 0%nat 0%nat (DW.set_minimized true (DW.init 100 100 300 200 "Main Window")))
    as (_ & _ & Hmw & Hout & _); [reflexivity| reflexivity| reflexivity| |].
  - vm_compute. apply NoDup_singleton.
  - split; [exact Hmw|exact Hout].
Defined.

(** ** A drag, from press to release *)

Lemma press_on_body (self : wid) (app : APP) (w : DW.t) (pos : Z * Z) :
  App.window_store app !! self = Some w ->
  DW.minimized w = false ->
  Rect.collidepoint (DW.minimize_button w) pos = false ->
  Rect.collidepoint (DW.maximize_button w) pos = false ->
  fst (DraggableWindow.handle_event self (MOUSEBUTTONDOWN 1 pos) app)
  = let r := DW.rect w in
    let handle := Rect.mk (Rect.right r - 10) (Rect.bottom r - 10) 10 10 in
    if Rect.collidepoint handle pos then
      App.update_window self
        (fun w => DW.set_offset_y (snd pos - Rect.bottom (DW.rect w))
                    (DW.set_offset_x (fst pos - Rect.right (DW.rect w))
                       (DW.set_resize true (DW.set_selected true w)))) app
    else if Rect.collidepoint r pos then
      App.update_window self
        (fun w => DW.set_offset_y (snd pos - Rect.y (DW.rect w))
                    (DW.set_offset_x (fst pos - Rect.x (DW.rect w))
                       (DW.set_resize false (DW.set_selected true w)))) app
    else app.
Proof.
  intros Hw Hmin Hb1 Hb2. unfold DraggableWindow.handle_event.
  rewrite Hw, Hmin. change (1 =? 1) with true. cbv iota.
  rewrite Hb1, Hb2. cbv zeta.
  destruct (Rect.collidepoint (Rect.mk _ _ 10 10) pos); [reflexivity|].
  destruct (Rect.collidepoint (DW.rect w) pos); reflexivity.
Qed.

(** X5: a drag follows the cursor.  After a left press at [p] on a window
    that is not minimized, away from its two buttons, a motion to [q]
    moves the window by [q - p] when the press was on the body and the
    displaced rectangle stays in the screen area, and changes the size by
    [q - p] when the press was on the resize handle and the new size is at
    least 200x150 and fits; nothing else of the rectangle changes. *)
Theorem X5_drag_follows_cursor
    (self : wid) (app : APP) (w : DW.t) (p q : Z * Z) :
  App.window_store app !! self = Some w ->
  DW.minimized w = false ->
  Rect.collidepoint (DW.minimize_button w) p = false ->
  Rect.collidepoint (DW.maximize_button w) p = false ->
  let r := DW.rect w in
  let dx := fst q - fst p in
  let dy := snd q - snd p in
  let handle := Rect.mk (Rect.right r - 10) (Rect.bottom r - 10) 10 10 in
  let app1 := fst (DraggableWindow.handle_event self (MOUSEBUTTONDOWN 1 p) app) in
  let app2 := fst (DraggableWindow.handle_event self (MOUSEMOTION q) app1) in
  (Rect.collidepoint handle p = false -> Rect.collidepoint r p = true ->
   0 <= Rect.x r + dx -> Rect.x r + dx + Rect.width r <= App.screen_width app ->
   0 <= Rect.y r + dy ->
   Rect.y r + dy + Rect.height r <= App.screen_height app - TASKBAR_HEIGHT ->
   rect_of self app2
   = Some (Rect.mk (Rect.x r + dx) (Rect.y r + dy) (Rect.width r) (Rect.height r)))
  /\ (Rect.collidepoint handle p = true ->
      200 <= Rect.width r + dx -> 150 <= Rect.height r + dy ->
      Rect.x r + Rect.width r + dx <= App.screen_width app ->
      Rect.y r + Rect.height r + dy <= App.screen_height app - TASKBAR_HEIGHT ->
      rect_of self app2
      = Some (Rect.mk (Rect.x r) (Rect.y r) (Rect.width r + dx) (Rect.height r + dy))).
Proof.
  intros Hw Hmin Hb1 Hb2 r dx dy handle app1 app2.
  pose proof (press_on_body self app w p Hw Hmin Hb1 Hb2) as Hpress.
  cbv zeta in Hpress. fold r handle app1 in Hpress.
  split.
  - intros Hh Hr Hx0 Hx1 Hy0 Hy1. fold r in Hr. rewrite Hh, Hr in Hpress.
    pose proof (window_store_update_eq self
                  (fun w => DW.set_offset_y (snd p - Rect.y (DW.rect w))
                              (DW.set_offset_x (fst p - Rect.x (DW.rect w))
                                 (DW.set_resize false (DW.set_selected true w))))
                  app w Hw) as Hw1.
    rewrite <- Hpress in Hw1.
    unfold app2. rewrite (motion_selected _ _ _ _ Hw1) by (destruct w; assumption || reflexivity).
    unfold rect_of. erewrite window_store_update_eq by exact Hw1.
    cbn [fmap option_fmap option_map DW.resize DW.set_offset_y DW.set_offset_x
         DW.set_resize DW.set_selected].
    unfold DraggableWindow.move_drag. rewrite Hpress.
    cbn [App.update_window App.set_window_store App.screen_width App.screen_height
         DW.rect DW.set_rect DW.offset_x DW.offset_y Rect.set_x Rect.set_y
         DW.set_offset_y DW.set_offset_x DW.set_resize DW.set_selected
         Rect.x Rect.y Rect.width Rect.height].
    fold r. f_equal. unfold dx, dy in *. unfold Rect.set_y, Rect.set_x.
    cbn [Rect.x Rect.y Rect.width Rect.height]. f_equal; lia.
  - intros Hh Hwd Hht Hx1 Hy1. rewrite Hh in Hpress.
    pose proof (window_store_update_eq self
                  (fun w => DW.set_offset_y (snd p - Rect.bottom (DW.rect w))
                              (DW.set_offset_x (fst p - Rect.right (DW.rect w))
                                 (DW.set_resize true (DW.set_selected true w))))
                  app w Hw) as Hw1.
    rewrite <- Hpress in Hw1.
    unfold app2. rewrite (motion_selected _ _ _ _ Hw1) by (destruct w; assumption || reflexivity).
    unfold rect_of. erewrite window_store_update_eq by exact Hw1.
    cbn [fmap option_fmap option_map DW.resize DW.set_offset_y DW.set_offset_x
         DW.set_resize DW.set_selected].
    unfold DraggableWindow.resize_drag. rewrite Hpress.
    cbn [App.update_window App.set_window_store App.screen_width App.screen_height
         DW.rect DW.set_rect DW.offset_x DW.offset_y Rect.set_width Rect.set_height
         DW.set_offset_y DW.set_offset_x DW.set_resize DW.set_selected
         Rect.x Rect.y Rect.width Rect.height].
    fold r. unfold Rect.right, Rect.bottom, Rect.set_height, Rect.set_width.
    cbn [Rect.x Rect.y Rect.width Rect.height].
    replace (Z.max 200 (fst q - Rect.x r - (fst p - (Rect.x r + Rect.width r))))
      with (Rect.width r + dx) by (unfold dx; lia).
    replace (Z.max 150 (snd q - Rect.y r - (snd p - (Rect.y r + Rect.height r))))
      with (Rect.height r + dy) by (unfold dy; lia).
    replace ((Rect.x r + (Rect.width r + dx) <=? App.screen_width app)
             && (Rect.y r + (Rect.height r + dy)
                 <=? App.screen_height app - TASKBAR_HEIGHT)) with true.
    + reflexivity.
    + symmetry. apply andb_true_iff. rewrite !Z.leb_le. lia.
Qed.

Lemma X5_drag_follows_cursor_witness :
  let app1 := fst (DraggableWindow.handle_event 0%nat (MOUSEBUTTONDOWN 1 (200, 110)) main) in
  rect_of 0%nat (fst (DraggableWindow.handle_event 0%nat (MOUSEMOTION (230, 150)) app1))
  = Some (Rect.mk 130 140 300 200).
Proof.
  intros app1.
  apply (X5_drag_follows_cursor 0%nat main
           (DW.init 100 100 300 200 "Main Window") (200, 110) (230, 150));
    try reflexivity; vm_compute; discriminate.
Defined.

(** X6: a minimized window ignores every event: whatever the sequence of
    events delivered to it, the whole state stays as it is, and each call
    returns [None]. *)
Theorem X6_minimized_window_ignores_events
    (self : wid) (app : APP) (w : DW.t) (events : list Event) :
  App.window_store app !! self = Some w ->
  DW.minimized w = true ->
  window_events self events app = app
  /\ (forall event, DraggableWindow.handle_event self event app = (app, None)).
Proof.
  intros Hw Hmin.
  assert (Hone : forall event,
             DraggableWindow.handle_event self event app = (app, None)).
  { intros event. unfold DraggableWindow.handle_event. rewrite Hw, Hmin. reflexivity. }
  split; [|exact Hone].
  unfold window_events.
  induction events as [|event events IH]; [reflexivity|].
  simpl. rewrite Hone. exact IH.
Qed.

Lemma X6_minimized_window_ignores_events_witness :
  let app := DraggableWindow.minimize 0%nat main in
  window_events 0%nat
    [MOUSEBUTTONDOWN 1 (200, 200); MOUSEMOTION (300, 300); MOUSEBUTTONUP 1 (300, 300)]
    app = app.
Proof.
  intros app.
  apply (X6_minimized_window_ignores_events 0%nat app
           (DW.set_minimized true (DW.init 100 100 300 200 "Main Window")));
    reflexivity.
Defined.

(** X7: a release of the left button ends any drag of a window that is not
    minimized: [selected] and [resize] are cleared, the rectangle is kept,
    the window manager no longer finds the window selected, and every
    later sequence of motion events leaves the state as it is. *)
Theorem X7_release_ends_drag
    (self : wid) (app : APP) (w : DW.t) (pos : Z * Z) (motions : list (Z * Z)) :
  App.window_store app !! self = Some w ->
  DW.minimized w = false ->
  let app1 := fst (DraggableWindow.handle_event self (MOUSEBUTTONUP 1 pos) app) in
  App.window_store app1 !! self
  = Some (DW.set_resize false (DW.set_selected false w))
  /\ rect_of self app1 = Some (DW.rect w)
  /\ WindowManager.is_selected self app1 = false
  /\ window_events self (map MOUSEMOTION motions) app1 = app1.
Proof.
  intros Hw Hmin app1.
  assert (Happ1 : app1 = App.update_window self
                           (fun w => DW.set_resize false (DW.set_selected false w)) app).
  { unfold app1, DraggableWindow.handle_event. rewrite Hw, Hmin. reflexivity. }
  pose proof (window_store_update_eq self
                (fun w => DW.set_resize false (DW.set_selected false w)) app w Hw)
    as Hw1.
  rewrite <- Happ1 in Hw1.
  split; [exact Hw1|].
  split; [unfold rect_of; rewrite Hw1; reflexivity|].
  split; [unfold WindowManager.is_selected; rewrite Hw1; reflexivity|].
  unfold window_events.
  induction motions as [|q motions IH]; [reflexivity|].
  simpl. unfold DraggableWindow.handle_event at 2. rewrite Hw1.
  cbn [DW.minimized DW.selected DW.set_resize DW.set_selected].
  rewrite Hmin. cbn [fst]. exact IH.
Qed.

Lemma X7_release_ends_drag_witness :
  let app := fst (DraggableWindow.handle_event 0%nat (MOUSEBUTTONDOWN 1 (200, 200)) main) in
  let app1 := fst (DraggableWindow.handle_event 0%nat (MOUSEBUTTONUP 1 (210, 200)) app) in
  WindowManager.is_selected 0%nat app = true
  /\ window_events 0%nat (map MOUSEMOTION [(220, 210); (230, 220)]) app1 = app1.
Proof.
  intros app app1. split; [reflexivity|].
  apply (X7_release_ends_drag 0%nat app
           (DW.set_offset_y 100
              (DW.set_offset_x 100
                 (DW.set_resize false
                    (DW.set_selected true (DW.init 100 100 300 200 "Main Window")))))
           (210, 200) [(220, 210); (230, 220)]); reflexivity.
Defined.

(** ** Pages of the main menu *)

Lemma py_slice_length {A : Type} (l : list A) (start : Z) :
  (length (py_slice l start (start + 5)) <= 5)%nat.
Proof.
  unfold py_slice. rewrite length_take.
  destruct (start <? 0) eqn:H1, (start + 5 <? 0) eqn:H2;
    rewrite ?Z.ltb_lt, ?Z.ltb_ge in *; lia.
Qed.

Lemma py_slice_page_length {A : Type} (l : list A) (page : Z) :
  0 <= page ->
  length (py_slice l (page * 5) (page * 5 + 5))
  = Z.to_nat (Z.min 5 (Z.of_nat (length l) - page * 5)).
Proof.
  intros Hpage. unfold py_slice. rewrite length_take, length_drop.
  replace (page * 5 <? 0) with false by (symmetry; apply Z.ltb_ge; lia).
  replace (page * 5 + 5 <? 0) with false by (symmetry; apply Z.ltb_ge; lia).
  lia.
Qed.

Lemma has_multiple_pages_total (self : MainMenuWindowObj.t) (app : APP) :
  MainMenuWindow.has_multiple_pages self app = true
  <-> 2 <= MainMenuWindow.get_total_pages self app.
Proof.
  unfold MainMenuWindow.has_multiple_pages, MainMenuWindow.get_total_pages,
    OPTIONS_PER_PAGE.
  rewrite Z.ltb_lt. Z.div_mod_to_equations. lia.
Qed.

Lemma main_menu_handle_event_shape
    (host : Host) (self : MainMenuWindowObj.t) (event : Event) (app : APP) :
  let result := MainMenuWindow.handle_event host self event app in
  (fst (fst result) = self /\ snd (fst result) = app)
  \/ (fst result = MainMenuWindow.create_new_option self app)
  \/ (MainMenuWindow.has_multiple_pages self app = true
      /\ snd (fst result) = app
      /\ exists step,
           fst (fst result)
           = MainMenuWindowObj.set_current_page
               ((MainMenuWindowObj.current_page self + step)
                  mod MainMenuWindow.get_total_pages self app) self).
Proof.
  cbv zeta. unfold MainMenuWindow.handle_event.
  destruct event; try (left; split; reflexivity).
  destruct (button =? 1); [|left; split; reflexivity].
  destruct (MainMenuWindow.clicked_option _ _ _ _) as [option|].
  - destruct (String.eqb _ "RGB"); [left; split; reflexivity|].
    destruct (String.eqb _ "Help"); [left; split; reflexivity|].
    destruct (String.eqb _ "New Option").
    + right. left. destruct (MainMenuWindow.create_new_option self app). reflexivity.
    + destruct option; left; split; reflexivity.
  - destruct (MainMenuWindow.has_multiple_pages self app) eqn:Hmulti;
      [|left; split; reflexivity].
    destruct (Rect.collidepoint _ pos).
    { right. right. split; [reflexivity|]. split; [reflexivity|].
      exists (-1). reflexivity. }
    destruct (Rect.collidepoint _ pos); [|left; split; reflexivity].
    right. right. split; [reflexivity|]. split; [reflexivity|].
    exists 1. reflexivity.
Qed.

(** X8: [current_page] always names a page.  If it does before an event
    (as it does in a new menu), it does after [handle_event], whatever the
    event; there are several pages exactly when [get_total_pages] is at
    least 2, so the page arithmetic never divides by zero; the visible
    options are the three static ones followed by at most five dynamic
    ones, and at least one dynamic option is shown whenever the target
    has any. *)
Theorem X8_current_page_stays_valid
    (host : Host) (self : MainMenuWindowObj.t) (event : Event) (app : APP)
    (w : DW.t) :
  App.window_store app !! MainMenuWindowObj.target_window self = Some w ->
  valid_page self app ->
  let result := MainMenuWindow.handle_event host self event app in
  valid_page (fst (fst result)) (snd (fst result))
  /\ (MainMenuWindow.has_multiple_pages self app = true
      <-> 2 <= MainMenuWindow.get_total_pages self app)
  /\ (exists page,
         MainMenuWindow.get_visible_options self app
         = map Static MainMenuWindowObj.static_options ++ map Dynamic page
         /\ (length page <= 5)%nat
         /\ (DW.dynamic_options w <> [] -> page <> []))
  /\ valid_page (MainMenuWindowObj.init 0 0 (MainMenuWindowObj.target_window self)) app.
Proof.
  intros Hw [Hcp Hvalid] result.
  split; [|split; [apply has_multiple_pages_total|split]].
  - pose proof (main_menu_handle_event_shape host self event app) as Hshape.
    cbv zeta in Hshape. fold result in Hshape.
    destruct Hshape as [[Hs Ha]|[Hcreate|(Hmulti & Ha & step & Hs)]].
    + rewrite Hs, Ha. split; assumption.
    + rewrite Hcreate.
      pose proof (create_new_option_dynamic_options self app w Hw) as Hdyn.
      unfold valid_page.
      replace (MainMenuWindowObj.current_page
                 (fst (MainMenuWindow.create_new_option self app)))
        with (MainMenuWindow.get_total_pages
                (fst (MainMenuWindow.create_new_option self app))
                (snd (MainMenuWindow.create_new_option self app)) - 1)
        by reflexivity.
      unfold MainMenuWindow.get_total_pages. rewrite Hdyn, length_app.
      simpl length. unfold OPTIONS_PER_PAGE. Z.div_mod_to_equations. lia.
    + rewrite Hs, Ha. apply has_multiple_pages_total in Hmulti.
      unfold valid_page. cbn [MainMenuWindowObj.current_page MainMenuWindowObj.set_current_page].
      change (MainMenuWindow.get_total_pages
                (MainMenuWindowObj.set_current_page _ self) app)
        with (MainMenuWindow.get_total_pages self app).
      pose proof (Z.mod_pos_bound (MainMenuWindowObj.current_page self + step)
                    (MainMenuWindow.get_total_pages self app)).
      lia.
  - exists (py_slice (MainMenuWindow.dynamic_options self app)
                     (MainMenuWindowObj.current_page self * OPTIONS_PER_PAGE)
                     (MainMenuWindowObj.current_page self * OPTIONS_PER_PAGE
                      + OPTIONS_PER_PAGE)).
    split; [reflexivity|]. split; [apply py_slice_length|].
    intros Hnonempty Hpage. apply (f_equal length) in Hpage.
    unfold OPTIONS_PER_PAGE in Hpage.
    rewrite py_slice_page_length in Hpage by exact Hcp.
    unfold MainMenuWindow.get_total_pages, OPTIONS_PER_PAGE in Hvalid.
    unfold MainMenuWindow.dynamic_options in *. rewrite Hw in *.
    destruct (DW.dynamic_options w) as [|o os]; [congruence|].
    simpl length in *. Z.div_mod_to_equations. lia.
  - split; [reflexivity|right; reflexivity].
Qed.

Lemma X8_current_page_stays_valid_witness :
  let menu := MainMenuWindowObj.init 150 150 0%nat in
  valid_page
    (fst (fst (MainMenuWindow.handle_event (example_host 0) menu
                 (MOUSEBUTTONDOWN 1 (170, 225)) main)))
    (snd (fst (MainMenuWindow.handle_event (example_host 0) menu
                 (MOUSEBUTTONDOWN 1 (170, 225)) main))).
Proof.
  intros menu.
  apply (X8_current_page_stays_valid (example_host 0) menu
           (MOUSEBUTTONDOWN 1 (170, 225)) main
           (DW.init 100 100 300 200 "Main Window") eq_refl).
  split; [reflexivity|right; reflexivity].
Defined.

Lemma clicked_option_none (self : MainMenuWindowObj.t) (pos : Z * Z)
    (options : list MenuOption) (start : nat) :
  (forall i, Rect.collidepoint (MainMenuWindow.option_rect self i) pos = false) ->
  MainMenuWindow.clicked_option self pos start options = None.
Proof.
  intros Hmiss. revert start.
  induction options as [|option rest IH]; intros start; [reflexivity|].
  simpl. rewrite Hmiss. apply IH.
Qed.

Lemma option_rows_above_footer (self : MainMenuWindowObj.t) (pos : Z * Z) (i : nat) :
  (i < 8)%nat ->
  Rect.y (MainMenuWindowObj.rect self) + 250 <= snd pos ->
  Rect.collidepoint (MainMenuWindow.option_rect self i) pos = false.
Proof.
  intros Hi Hpos. unfold Rect.collidepoint, MainMenuWindow.option_rect.
  cbn [Rect.x Rect.y Rect.width Rect.height].
  apply andb_false_iff. right. apply Z.ltb_ge. lia.
Qed.

Lemma clicked_option_footer (self : MainMenuWindowObj.t) (app : APP) (pos : Z * Z) :
  Rect.y (MainMenuWindowObj.rect self) + 250 <= snd pos ->
  MainMenuWindow.clicked_option self pos 0
    (MainMenuWindow.get_visible_options self app) = None.
Proof.
  intros Hpos. unfold MainMenuWindow.get_visible_options.
  set (page := py_slice _ _ _).
  assert (Hlen : (length page <= 5)%nat) by apply py_slice_length.
  clearbody page.
  assert (Hgen : forall options start,
             (start + length options <= 8)%nat ->
             MainMenuWindow.clicked_option self pos start options = None).
  { induction options as [|option rest IH]; intros start Hle; [reflexivity|].
    simpl in *. rewrite option_rows_above_footer by (try exact Hpos; lia).
    apply IH. lia. }
  apply Hgen. rewrite length_app, !length_map. simpl. lia.
Qed.

(** X9: paging with the two footer buttons.  After [draw], a menu of the
    standard width 200 with several pages is 290 high, and its footer
    buttons lie below every option row; a left click on "->" moves to the
    next page and one on "<-" to the previous page, both wrapping around,
    with no popup returned and no change of the state; from a valid page
    a click on "->" followed by one on "<-" comes back to the same
    menu. *)
Theorem X9_page_buttons
    (host : Host) (self : MainMenuWindowObj.t) (app : APP) (p1 p2 : Z * Z) :
  Rect.width (MainMenuWindowObj.rect self) = 200 ->
  MainMenuWindow.has_multiple_pages self app = true ->
  let menu := MainMenuWindow.draw self app in
  let page := MainMenuWindowObj.current_page self in
  let pages := MainMenuWindow.get_total_pages self app in
  let click m p := MainMenuWindow.handle_event host m (MOUSEBUTTONDOWN 1 p) app in
  Rect.height (MainMenuWindowObj.rect menu) = 290
  /\ (Rect.collidepoint (MainMenuWindow.next_button_rect menu) p1 = true ->
      click menu p1
      = (MainMenuWindowObj.set_current_page ((page + 1) mod pages) menu, app, None))
  /\ (Rect.collidepoint (MainMenuWindow.prev_button_rect menu) p2 = true ->
      click menu p2
      = (MainMenuWindowObj.set_current_page ((page - 1) mod pages) menu, app, None))
  /\ (Rect.collidepoint (MainMenuWindow.next_button_rect menu) p1 = true ->
      Rect.collidepoint (MainMenuWindow.prev_button_rect menu) p2 = true ->
      0 <= page < pages ->
      fst (fst (click (fst (fst (click menu p1))) p2)) = menu).
Proof.
  intros Hwidth Hmulti menu page pages click.
  assert (Hheight : Rect.height (MainMenuWindowObj.rect menu) = 290).
  { unfold menu, MainMenuWindow.draw. rewrite Hmulti. reflexivity. }
  assert (Hrect : forall v,
             MainMenuWindowObj.rect (MainMenuWindowObj.set_current_page v menu)
             = MainMenuWindowObj.rect menu) by reflexivity.
  assert (Hnext : forall m p,
             MainMenuWindowObj.rect m = MainMenuWindowObj.rect menu ->
             MainMenuWindowObj.target_window m = MainMenuWindowObj.target_window self ->
             Rect.collidepoint (MainMenuWindow.next_button_rect menu) p = true ->
             click m p
             = (MainMenuWindowObj.set_current_page
                  ((MainMenuWindowObj.current_page m + 1) mod pages) m, app, None)).
  { intros m p Hm Ht Hhit. unfold click, MainMenuWindow.handle_event.
    change (1 =? 1) with true. cbv iota.
    unfold MainMenuWindow.next_button_rect, Rect.collidepoint in Hhit.
    cbn [Rect.x Rect.y Rect.width Rect.height] in Hhit.
    rewrite Hheight in Hhit.
    rewrite !andb_true_iff, !Z.leb_le, !Z.ltb_lt in Hhit.
    rewrite clicked_option_footer by (rewrite Hm; lia).
    replace (MainMenuWindow.has_multiple_pages m app) with true
      by (unfold MainMenuWindow.has_multiple_pages, MainMenuWindow.dynamic_options in *;
          rewrite Ht; symmetry; exact Hmulti).
    replace (Rect.collidepoint (MainMenuWindow.prev_button_rect m) p) with false.
    2:{ symmetry. unfold MainMenuWindow.prev_button_rect, Rect.collidepoint.
        rewrite Hm. cbn [Rect.x Rect.y Rect.width Rect.height].
        apply andb_false_iff. left. apply andb_false_iff. left.
        apply andb_false_iff. right. apply Z.ltb_ge.
        change (Rect.width (MainMenuWindowObj.rect menu))
          with (Rect.width (MainMenuWindowObj.rect self)) in Hhit.
        lia. }
    replace (Rect.collidepoint (MainMenuWindow.next_button_rect m) p) with true.
    2:{ symmetry. unfold MainMenuWindow.next_button_rect, Rect.collidepoint.
        rewrite Hm, Hheight. cbn [Rect.x Rect.y Rect.width Rect.height].
        rewrite !andb_true_iff, !Z.leb_le, !Z.ltb_lt. exact Hhit. }
    unfold MainMenuWindow.get_total_pages, MainMenuWindow.dynamic_options, pages.
    rewrite Ht. reflexivity. }
  assert (Hprev : forall m p,
             MainMenuWindowObj.rect m = MainMenuWindowObj.rect menu ->
             MainMenuWindowObj.target_window m = MainMenuWindowObj.target_window self ->
             Rect.collidepoint (MainMenuWindow.prev_button_rect menu) p = true ->
             click m p
             = (MainMenuWindowObj.set_current_page
                  ((MainMenuWindowObj.current_page m - 1) mod pages) m, app, None)).
  { intros m p Hm Ht Hhit. unfold click, MainMenuWindow.handle_event.
    change (1 =? 1) with true. cbv iota.
    assert (Hhit' := Hhit).
    unfold MainMenuWindow.prev_button_rect, Rect.collidepoint in Hhit'.
    cbn [Rect.x Rect.y Rect.width Rect.height] in Hhit'.
    rewrite Hheight in Hhit'.
    rewrite !andb_true_iff, !Z.leb_le, !Z.ltb_lt in Hhit'.
    rewrite clicked_option_footer by (rewrite Hm; lia).
    replace (MainMenuWindow.has_multiple_pages m app) with true
      by (unfold MainMenuWindow.has_multiple_pages, MainMenuWindow.dynamic_options in *;
          rewrite Ht; symmetry; exact Hmulti).
    replace (Rect.collidepoint (MainMenuWindow.prev_button_rect m) p) with true
      by (unfold MainMenuWindow.prev_button_rect; rewrite Hm; symmetry; exact Hhit).
    unfold MainMenuWindow.get_total_pages, MainMenuWindow.dynamic_options, pages.
    rewrite Ht. reflexivity. }
  split; [exact Hheight|].
  split; [intros Hhit; exact (Hnext menu p1 eq_refl eq_refl Hhit)|].
  split; [intros Hhit; exact (Hprev menu p2 eq_refl eq_refl Hhit)|].
  intros Hhit1 Hhit2 Hpage.
  rewrite (Hnext menu p1 eq_refl eq_refl Hhit1). cbn [fst].
  rewrite (Hprev (MainMenuWindowObj.set_current_page
                    ((MainMenuWindowObj.current_page menu + 1) mod pages) menu)
             p2 eq_refl eq_refl Hhit2).
  cbn [fst].
  cbn [MainMenuWindowObj.current_page MainMenuWindowObj.set_current_page
       MainMenuWindowObj.target_window MainMenuWindowObj.rect].
  change (MainMenuWindowObj.current_page menu) with page.
  replace ((((page + 1) mod pages) - 1) mod pages) with page.
  - unfold menu, MainMenuWindow.draw, page. destruct self; reflexivity.
  - symmetry. destruct (Z.eq_dec (page + 1) pages) as [Heq|Hne].
    + rewrite Heq, Z.mod_same by lia.
      symmetry. apply Z.mod_unique with (q := -1); lia.
    + rewrite (Z.mod_small (page + 1)) by lia.
      replace (page + 1 - 1) with page by lia. apply Z.mod_small. lia.
Qed.

Lemma X9_page_buttons_witness :
  match Application.run (new_option_session 6) main with
  | Some app =>
    let menu := MainMenuWindow.draw (MainMenuWindowObj.init 150 150 0%nat) app in
    MainMenuWindow.handle_event (example_host 0) menu (MOUSEBUTTONDOWN 1 (300, 410)) app
    = (MainMenuWindowObj.set_current_page 1 menu, app, None)
  | None => False
  end.
Proof.
  destruct (Application.run (new_option_session 6) main) as [app|] eqn:Hrun;
    [|vm_compute in Hrun; discriminate].
  intros menu.
  assert (Hmulti : MainMenuWindow.has_multiple_pages
                     (MainMenuWindowObj.init 150 150 0%nat) app = true).
  { vm_compute in Hrun. injection Hrun as <-. reflexivity. }
  assert (Hpages : MainMenuWindow.get_total_pages
                     (MainMenuWindowObj.init 150 150 0%nat) app = 2).
  { vm_compute in Hrun. injection Hrun as <-. reflexivity. }
  destruct (X9_page_buttons (example_host 0) (MainMenuWindowObj.init 150 150 0%nat)
              app (300, 410) (170, 410) eq_refl Hmulti) as (_ & Hnext & _).
  fold menu in Hnext. rewrite Hpages in Hnext. apply Hnext.
  unfold menu, MainMenuWindow.draw. rewrite Hmulti. reflexivity.
Defined.

(** ** The edit buffer of an option popup *)

Lemma drop_last_snoc (s : string) (c : ascii) :
  drop_last (s +:+ String c EmptyString) = s.
Proof.
  induction s as [|a s IH]; [reflexivity|].
  simpl. rewrite IH. destruct s; reflexivity.
Qed.

(** X10: the popup is never in both edit modes: a new popup is in none,
    and [handle_event] keeps at most one on, whatever the event.  No event
    other than an Enter key press changes the title, the body or anything
    outside the popup.  In an edit mode, typing one character and then
    pressing backspace gives back the popup as it was. *)
Theorem X10_edit_buffer
    (host : Host) (self : EditablePopupWindowObj.t) (event : Event) (app : APP) :
  one_edit_mode self ->
  let result := EditablePopupWindow.handle_event host self event app in
  one_edit_mode (fst result)
  /\ ((forall unicode, event <> KEYDOWN K_RETURN unicode) ->
      snd result = app
      /\ EditablePopupWindowObj.title (fst result) = EditablePopupWindowObj.title self
      /\ EditablePopupWindowObj.body (fst result) = EditablePopupWindowObj.body self)
  /\ (forall (key : Z) (c : ascii) (unicode : string),
         key <> K_RETURN -> key <> K_BACKSPACE ->
         EditablePopupWindowObj.editing_title self
         || EditablePopupWindowObj.editing_body self = true ->
         let typed := fst (EditablePopupWindow.handle_event host self
                             (KEYDOWN key (String c EmptyString)) app) in
         EditablePopupWindowObj.input_text typed
         = EditablePopupWindowObj.input_text self +:+ String c EmptyString
         /\ EditablePopupWindow.handle_event host typed
              (KEYDOWN K_BACKSPACE unicode) app = (self, app))
  /\ (forall x y target o,
         one_edit_mode (EditablePopupWindow.init x y target o app)).
Proof.
  intros Hmode result. unfold one_edit_mode in *.
  destruct self as [target o title body rect et eb input cv cc].
  cbn [EditablePopupWindowObj.editing_title EditablePopupWindowObj.editing_body] in Hmode.
  split; [|split; [|split]].
  - unfold result, EditablePopupWindow.handle_event.
    destruct event as [|key unicode| |button pos| | |]; try exact Hmode.
    + cbn [EditablePopupWindowObj.editing_title EditablePopupWindowObj.editing_body
           EditablePopupWindowObj.input_text].
      destruct et, eb; try discriminate Hmode; cbn [orb]; try reflexivity;
        (destruct (key =? K_RETURN);
         [destruct (negb _); reflexivity
         |destruct (key =? K_BACKSPACE); reflexivity]).
    + destruct (button =? 1); [|exact Hmode].
      destruct (Rect.collidepoint _ pos); [reflexivity|].
      destruct (Rect.collidepoint _ pos); reflexivity.
  - intros Hnot. unfold result, EditablePopupWindow.handle_event.
    destruct event as [|key unicode| |button pos| | |];
      try (split; [reflexivity|split; reflexivity]).
    + destruct (_ || _); [|split; [reflexivity|split; reflexivity]].
      destruct (key =? K_RETURN) eqn:Hkey.
      * apply Z.eqb_eq in Hkey. subst key. exfalso. exact (Hnot unicode eq_refl).
      * destruct (key =? K_BACKSPACE); split; try reflexivity; split; reflexivity.
    + destruct (button =? 1); [|split; [reflexivity|split; reflexivity]].
      destruct (Rect.collidepoint _ pos); [split; [reflexivity|split; reflexivity]|].
      destruct (Rect.collidepoint _ pos); split; try reflexivity; split; reflexivity.
  - intros key c unicode Hk1 Hk2 Hedit.
    cbn [EditablePopupWindowObj.editing_title EditablePopupWindowObj.editing_body] in Hedit.
    unfold EditablePopupWindow.handle_event.
    cbn [EditablePopupWindowObj.editing_title EditablePopupWindowObj.editing_body
         EditablePopupWindowObj.input_text].
    rewrite Hedit. apply Z.eqb_neq in Hk1, Hk2. rewrite Hk1, Hk2.
    cbn [fst EditablePopupWindowObj.set_input_text
         EditablePopupWindowObj.editing_title EditablePopupWindowObj.editing_body
         EditablePopupWindowObj.input_text].
    rewrite Hedit. change (K_BACKSPACE =? K_RETURN) with false.
    change (K_BACKSPACE =? K_BACKSPACE) with true. cbv iota.
    split; [reflexivity|].
    cbn [EditablePopupWindowObj.set_input_text
         EditablePopupWindowObj.target_window EditablePopupWindowObj.option
         EditablePopupWindowObj.title EditablePopupWindowObj.body
         EditablePopupWindowObj.rect EditablePopupWindowObj.editing_title
         EditablePopupWindowObj.editing_body EditablePopupWindowObj.input_text
         EditablePopupWindowObj.cursor_visible EditablePopupWindowObj.cursor_counter].
    rewrite drop_last_snoc. reflexivity.
  - intros x y tg o'. unfold EditablePopupWindow.init.
    destruct (App.option_store app !! o'); reflexivity.
Qed.

Lemma X10_edit_buffer_witness :
  let self := editing_popup 0%nat "Option 1" "Editable body text." false true "abc" in
  let typed := fst (EditablePopupWindow.handle_event (example_host 0) self
                      (KEYDOWN 100 "d") main_with_option) in
  EditablePopupWindowObj.input_text typed = "abcd"%string
  /\ EditablePopupWindow.handle_event (example_host 0) typed (KEYDOWN K_BACKSPACE "")
       main_with_option = (self, main_with_option).
Proof.
  intros self typed.
  destruct (X10_edit_buffer (example_host 0) self OTHER main_with_option eq_refl)
    as (_ & _ & Htype & _).
  apply (Htype 100 "d"%char ""%string); [discriminate|discriminate|reflexivity].
Defined.

(** X11: a committed title is shared with the target window's menu.  After
    Enter (without shift) in title mode the option dictionary holds the
    buffer as its name, so the menu shows the new name for that entry and
    a popup opened on the same option afterwards starts from it; no other
    option dictionary and no window changes. *)
Theorem X11_commit_is_shared
    (host : Host) (self : EditablePopupWindowObj.t) (app : APP)
    (record : OptionRecord.t) (unicode : string) :
  App.option_store app !! EditablePopupWindowObj.option self = Some record ->
  EditablePopupWindowObj.editing_title self = true ->
  Z.land (get_mods host) KMOD_SHIFT = 0 ->
  let o := EditablePopupWindowObj.option self in
  let buffer := EditablePopupWindowObj.input_text self in
  let app' := snd (EditablePopupWindow.handle_event host self
                     (KEYDOWN K_RETURN unicode) app) in
  MainMenuWindow.option_name (Dynamic o) app' = buffer
  /\ (forall x y target,
         EditablePopupWindowObj.title (EditablePopupWindow.init x y target o app')
         = buffer
         /\ EditablePopupWindowObj.body (EditablePopupWindow.init x y target o app')
            = OptionRecord.body record)
  /\ (forall other, other <> o ->
         App.option_store app' !! other = App.option_store app !! other)
  /\ App.window_store app' = App.window_store app.
Proof.
  intros Hrecord Htitle Hshift o buffer app'.
  assert (Happ : app' = App.update_option o (OptionRecord.set_name buffer) app).
  { unfold app', EditablePopupWindow.handle_event.
    rewrite Htitle, Hshift. reflexivity. }
  pose proof (option_store_update_eq o (OptionRecord.set_name buffer) app record Hrecord)
    as Hlook.
  rewrite <- Happ in Hlook.
  split; [unfold MainMenuWindow.option_name; rewrite Hlook; reflexivity|].
  split.
  { intros x y target. unfold EditablePopupWindow.init. rewrite Hlook.
    split; reflexivity. }
  split; [|rewrite Happ; reflexivity].
  intros other Hne. rewrite Happ. unfold App.update_option, App.set_option_store.
  cbn [App.option_store]. apply list_lookup_alter_ne. congruence.
Qed.

Lemma X11_commit_is_shared_witness :
  let self := editing_popup 0%nat "Option 1" "Editable body text." true false "Notes" in
  MainMenuWindow.option_name (Dynamic 0%nat)
    (snd (EditablePopupWindow.handle_event (example_host 0) self
            (KEYDOWN K_RETURN "") main_with_option))
  = "Notes"%string.
Proof.
  intros self.
  apply (X11_commit_is_shared (example_host 0) self main_with_option
           (OptionRecord.mk "Option 1" "Editable body text.") ""); reflexivity.
Defined.

(** ** The colour sliders *)

Lemma slider_value_table :
  forallb
    (fun k =>
       match RGBPropertiesWindow.slider_value (Rect.mk 0 0 150 20) (Z.of_nat k, 0) with
       | Some v => (0 <=? v) && (v <=? 255)
       | None => false
       end)
    (seq 0 151) = true.
Proof. vm_compute. reflexivity. Qed.

Lemma slider_value_range (slider : Rect.t) (pos : Z * Z) :
  Rect.width slider = 150 ->
  exists v,
    RGBPropertiesWindow.slider_value slider pos = Some v
    /\ 0 <= v <= 255
    /\ (fst pos <= Rect.x slider -> v = 0)
    /\ (Rect.x slider + 150 <= fst pos -> v = 255).
Proof.
  intros Hwidth. unfold RGBPropertiesWindow.slider_value. rewrite Hwidth.
  set (m := Z.min (Z.max 0 (fst pos - Rect.x slider)) 150).
  assert (Hm : 0 <= m <= 150) by (unfold m; lia).
  pose proof slider_value_table as Htable.
  rewrite forallb_forall in Htable.
  specialize (Htable (Z.to_nat m)).
  unfold RGBPropertiesWindow.slider_value in Htable.
  cbn [Rect.x Rect.width fst] in Htable.
  rewrite Z2Nat.id in Htable by lia.
  replace (Z.min (Z.max 0 (m - 0)) 150) with m in Htable by lia.
  specialize (Htable ltac:(apply in_seq; lia)).
  destruct (PyFloat.truediv m 150 ≫= _) as [v|] eqn:Hv; [|discriminate].
  exists v. apply andb_true_iff in Htable. rewrite !Z.leb_le in Htable.
  split; [reflexivity|]. split; [lia|].
  split.
  - intros Hleft. assert (m = 0) as Hm0 by (unfold m; lia).
    rewrite Hm0 in Hv. vm_compute in Hv. congruence.
  - intros Hright. assert (m = 150) as Hm150 by (unfold m; lia).
    rewrite Hm150 in Hv. vm_compute in Hv. congruence.
Qed.

Lemma drag_channel_ok (dragging : bool) (slider : Rect.t) set (pos : Z * Z)
    (st : RGBPropertiesWindowObj.t * APP) (P : RGBPropertiesWindowObj.t -> Prop) :
  Rect.width slider = 150 ->
  P (fst st) ->
  (forall v, 0 <= v <= 255 -> P (set v (fst st))) ->
  exists st',
    RGBPropertiesWindow.drag_channel dragging slider set pos st = Some st'
    /\ P (fst st').
Proof.
  intros Hwidth HP Hset. unfold RGBPropertiesWindow.drag_channel.
  destruct dragging; [|exists st; split; [reflexivity|exact HP]].
  destruct (slider_value_range slider pos Hwidth) as (v & Hv & Hrange & _).
  rewrite Hv. cbn [mbind option_bind].
  eexists. split; [reflexivity|]. apply Hset, Hrange.
Qed.

(** X12: the colour popup never fails and keeps its channels bytes.  A
    popup made by [init] has sliders 150 wide and channels within 0..255;
    from such a popup every event is handled without an exception and
    leaves such a popup.  The value of a slider is 0 at or left of its
    left edge and 255 at or right of its right edge.  A left press on the
    R slider arms it and disarms nothing.  With the R slider alone armed,
    a motion sets the R channel of the popup to the value of the slider
    and the colour of the target window to the new R with the old G and
    B, and changes nothing else of that window and no other window; with
    the three sliders armed it sets each channel, and the colour, from
    its own slider; with none armed it changes nothing.  A release of the
    left button disarms the three sliders and keeps the channels and the
    state. *)
Theorem X12_rgb_sliders
    (host : Host) (self : RGBPropertiesWindowObj.t) (event : Event) (app : APP)
    (pos : Z * Z) :
  rgb_ok self ->
  (exists self' app',
      RGBPropertiesWindow.handle_event self event app = Some (self', app')
      /\ rgb_ok self')
  /\ (exists v,
        RGBPropertiesWindow.slider_value (RGBPropertiesWindowObj.slider_R self) pos
        = Some v
        /\ 0 <= v <= 255
        /\ (fst pos <= Rect.x (RGBPropertiesWindowObj.slider_R self) -> v = 0)
        /\ (Rect.x (RGBPropertiesWindowObj.slider_R self) + 150 <= fst pos -> v = 255)
        /\ (RGBPropertiesWindowObj.dragging_r self = true ->
            RGBPropertiesWindowObj.dragging_g self = false ->
            RGBPropertiesWindowObj.dragging_b self = false ->
            exists self' app',
              RGBPropertiesWindow.handle_event self (MOUSEMOTION pos) app
              = Some (self', app')
              /\ (RGBPropertiesWindowObj.r self', RGBPropertiesWindowObj.g self',
                  RGBPropertiesWindowObj.b self')
                 = (v, RGBPropertiesWindowObj.g self, RGBPropertiesWindowObj.b self)
              /\ (RGBPropertiesWindowObj.dragging_r self',
                  RGBPropertiesWindowObj.dragging_g self',
                  RGBPropertiesWindowObj.dragging_b self') = (true, false, false)
              /\ (forall w,
                     App.window_store app !! RGBPropertiesWindowObj.target_window self
                     = Some w ->
                     exists w',
                       App.window_store app' !! RGBPropertiesWindowObj.target_window self
                       = Some w'
                       /\ DW.color w'
                          = (v, RGBPropertiesWindowObj.g self,
                             RGBPropertiesWindowObj.b self)
                       /\ DW.set_color (DW.color w) w' = w)
              /\ (forall other,
                     other <> RGBPropertiesWindowObj.target_window self ->
                     App.window_store app' !! other = App.window_store app !! other))
        /\ (RGBPropertiesWindowObj.dragging_r self = true ->
            RGBPropertiesWindowObj.dragging_g self = true ->
            RGBPropertiesWindowObj.dragging_b self = true ->
            exists vg vb self' app',
              RGBPropertiesWindow.slider_value
                (RGBPropertiesWindowObj.slider_G self) pos = Some vg
              /\ RGBPropertiesWindow.slider_value
                   (RGBPropertiesWindowObj.slider_B self) pos = Some vb
              /\ RGBPropertiesWindow.handle_event self (MOUSEMOTION pos) app
                 = Some (self', app')
              /\ (RGBPropertiesWindowObj.r self', RGBPropertiesWindowObj.g self',
                  RGBPropertiesWindowObj.b self') = (v, vg, vb)
              /\ (forall w,
                     App.window_store app !! RGBPropertiesWindowObj.target_window self
                     = Some w ->
                     DW.color
                       <$> App.window_store app'
                           !! RGBPropertiesWindowObj.target_window self
                     = Some (v, vg, vb)))
        /\ (RGBPropertiesWindowObj.dragging_r self = false ->
            RGBPropertiesWindowObj.dragging_g self = false ->
            RGBPropertiesWindowObj.dragging_b self = false ->
            RGBPropertiesWindow.handle_event self (MOUSEMOTION pos) app
            = Some (self, app)))
  /\ (Rect.collidepoint (RGBPropertiesWindowObj.slider_R self) pos = true ->
      exists self',
        RGBPropertiesWindow.handle_event self (MOUSEBUTTONDOWN 1 pos) app
        = Some (self', app)
        /\ RGBPropertiesWindowObj.dragging_r self' = true
        /\ (RGBPropertiesWindowObj.dragging_g self = true ->
            RGBPropertiesWindowObj.dragging_g self' = true)
        /\ (RGBPropertiesWindowObj.dragging_b self = true ->
            RGBPropertiesWindowObj.dragging_b self' = true))
  /\ (exists self',
        RGBPropertiesWindow.handle_event self (MOUSEBUTTONUP 1 pos) app
        = Some (self', app)
        /\ (RGBPropertiesWindowObj.dragging_r self',
            RGBPropertiesWindowObj.dragging_g self',
            RGBPropertiesWindowObj.dragging_b self') = (false, false, false)
        /\ (RGBPropertiesWindowObj.r self', RGBPropertiesWindowObj.g self',
            RGBPropertiesWindowObj.b self')
           = (RGBPropertiesWindowObj.r self, RGBPropertiesWindowObj.g self,
              RGBPropertiesWindowObj.b self))
  /\ (forall x y target, rgb_ok (RGBPropertiesWindow.init host x y target)).
Proof.
  intros Hok. pose proof Hok as (HwR & HwG & HwB & Hr & Hg & Hb).
  split; [|split; [|split; [|split]]].
  - unfold RGBPropertiesWindow.handle_event.
    destruct event as [| | |button p|button p|p|];
      try (eexists _, _; split; [reflexivity|exact Hok]).
    + destruct (button =? 1); eexists _, _; (split; [reflexivity|]);
        [|exact Hok]. destruct self; exact Hok.
    + destruct (button =? 1); eexists _, _; (split; [reflexivity|]);
        [|exact Hok]. destruct self; exact Hok.
    + destruct (drag_channel_ok (RGBPropertiesWindowObj.dragging_r self)
                  (RGBPropertiesWindowObj.slider_R self) RGBPropertiesWindowObj.set_r
                  p (self, app) rgb_ok HwR Hok) as (st1 & H1 & Hok1).
      { intros v Hv. destruct self. unfold rgb_ok in *. simpl in *. tauto. }
      rewrite H1. cbn [mbind option_bind].
      assert (HG1 : RGBPropertiesWindowObj.slider_G (fst st1)
                    = RGBPropertiesWindowObj.slider_G self
                    /\ RGBPropertiesWindowObj.slider_B (fst st1)
                       = RGBPropertiesWindowObj.slider_B self).
      { unfold RGBPropertiesWindow.drag_channel in H1.
        destruct (RGBPropertiesWindowObj.dragging_r self).
        - destruct (RGBPropertiesWindow.slider_value _ p); [|discriminate].
          injection H1 as <-. split; reflexivity.
        - injection H1 as <-. split; reflexivity. }
      destruct HG1 as [HG1 HB1].
      destruct (drag_channel_ok (RGBPropertiesWindowObj.dragging_g self)
                  (RGBPropertiesWindowObj.slider_G self) RGBPropertiesWindowObj.set_g
                  p st1 rgb_ok HwG Hok1) as (st2 & H2 & Hok2).
      { intros v Hv. destruct (fst st1). unfold rgb_ok in *. simpl in *. tauto. }
      rewrite H2. cbn [mbind option_bind].
      destruct (drag_channel_ok (RGBPropertiesWindowObj.dragging_b self)
                  (RGBPropertiesWindowObj.slider_B self) RGBPropertiesWindowObj.set_b
                  p st2 rgb_ok HwB Hok2) as (st3 & H3 & Hok3).
      { intros v Hv. destruct (fst st2). unfold rgb_ok in *. simpl in *. tauto. }
      destruct st3 as [self3 app3]. exists self3, app3. split; [exact H3|exact Hok3].
  - destruct (slider_value_range (RGBPropertiesWindowObj.slider_R self) pos HwR)
      as (v & Hv & Hrange & Hleft & Hright).
    exists v. repeat (split; [assumption|]).
    split; [|split].
    2: { intros Hdr Hdg Hdb.
         destruct (slider_value_range (RGBPropertiesWindowObj.slider_G self) pos HwG)
           as (vg & Hvg & _).
         destruct (slider_value_range (RGBPropertiesWindowObj.slider_B self) pos HwB)
           as (vb & Hvb & _).
         exists vg, vb. eexists _, _.
         split; [exact Hvg|]. split; [exact Hvb|].
         split.
         { unfold RGBPropertiesWindow.handle_event.
           rewrite Hdr, Hdg, Hdb. unfold RGBPropertiesWindow.drag_channel.
           rewrite Hv. cbn [mbind option_bind fst snd]. rewrite Hvg.
           cbn [mbind option_bind fst snd]. rewrite Hvb. reflexivity. }
         split; [reflexivity|].
         intros w Hw. unfold RGBPropertiesWindow.update_color.
         cbn [RGBPropertiesWindowObj.target_window RGBPropertiesWindowObj.set_r
              RGBPropertiesWindowObj.set_g RGBPropertiesWindowObj.set_b
              RGBPropertiesWindowObj.r RGBPropertiesWindowObj.g
              RGBPropertiesWindowObj.b].
         erewrite window_store_update_eq;
           [reflexivity|].
         erewrite window_store_update_eq;
           [reflexivity|].
         apply window_store_update_eq, Hw. }
    2: { intros Hdr Hdg Hdb. unfold RGBPropertiesWindow.handle_event.
         rewrite Hdr, Hdg, Hdb. reflexivity. }
    intros Hdr Hdg Hdb.
    exists (RGBPropertiesWindowObj.set_r v self),
      (App.update_window (RGBPropertiesWindowObj.target_window self)
         (DW.set_color (v, RGBPropertiesWindowObj.g self,
                        RGBPropertiesWindowObj.b self)) app).
    split.
    { unfold RGBPropertiesWindow.handle_event.
      rewrite Hdr, Hdg, Hdb. unfold RGBPropertiesWindow.drag_channel at 3.
      rewrite Hv. reflexivity. }
    split; [reflexivity|].
    split; [cbn; rewrite Hdr, Hdg, Hdb; reflexivity|].
    split.
    + intros w Hw. eexists. split; [apply window_store_update_eq, Hw|].
      split; [reflexivity|]. destruct w; reflexivity.
    + intros other Hne. apply window_store_update_ne. congruence.
  - intros Hhit. eexists. split.
    { unfold RGBPropertiesWindow.handle_event. change (1 =? 1) with true.
      cbv iota zeta. rewrite Hhit. reflexivity. }
    split; [reflexivity|].
    split; intros ->; cbn;
      match goal with |- context [if ?c then _ else _] => destruct c end;
      reflexivity.
  - eexists. split; [reflexivity|]. split; reflexivity.
  - intros x y target. unfold RGBPropertiesWindow.init.
    destruct (calculate_popup_size _ _ _). unfold rgb_ok. simpl. lia.
Qed.

Lemma X12_rgb_sliders_witness :
  let fresh := RGBPropertiesWindow.init (example_host 0) 200 200 0%nat in
  exists armed moved app',
    RGBPropertiesWindow.handle_event fresh (MOUSEBUTTONDOWN 1 (230, 265)) main
    = Some (armed, main)
    /\ RGBPropertiesWindowObj.dragging_r armed = true
    /\ RGBPropertiesWindow.handle_event armed (MOUSEMOTION (295, 265)) main
       = Some (moved, app')
    /\ RGBPropertiesWindowObj.r moved = 127
    /\ DW.color <$> App.window_store app' !! 0%nat = Some (127, 100, 250)
    /\ DW.rect <$> App.window_store app' !! 0%nat = Some (Rect.mk 100 100 300 200).
Proof.
  intros fresh.
  assert (Hfresh : rgb_ok fresh)
    by (unfold rgb_ok; vm_compute; repeat split; discriminate).
  destruct (X12_rgb_sliders (example_host 0) fresh QUIT main (230, 265) Hfresh)
    as (_ & _ & Hpress & _).
  destruct (Hpress eq_refl) as (armed & Hdown & Harmed & _).
  assert (Heq : armed = RGBPropertiesWindowObj.set_dragging true false false fresh)
    by (vm_compute in Hdown; injection Hdown as <-; reflexivity).
  assert (Hok : rgb_ok armed)
    by (rewrite Heq; unfold rgb_ok; vm_compute; repeat split; discriminate).
  destruct (X12_rgb_sliders (example_host 0) armed QUIT main (295, 265) Hok)
    as (_ & (v & Hv & _ & _ & _ & Hmove & _) & _).
  destruct Hmove as (moved & app' & Hmotion & Hrgb & _ & Htarget & _);
    [exact Harmed|rewrite Heq; reflexivity|rewrite Heq; reflexivity|].
  assert (Hv127 : v = 127)
    by (rewrite Heq in Hv; vm_compute in Hv; injection Hv as <-; reflexivity).
  destruct (Htarget (DW.init 100 100 300 200 "Main Window"))
    as (w' & Hw' & Hcolor & Hrest); [rewrite Heq; reflexivity|].
  exists armed, moved, app'.
  split; [exact Hdown|]. split; [exact Harmed|]. split; [exact Hmotion|].
  split; [injection Hrgb as -> _ _; exact Hv127|].
  rewrite Heq in Hw'. cbn [RGBPropertiesWindowObj.target_window
                           RGBPropertiesWindowObj.set_dragging] in Hw'.
  change (RGBPropertiesWindowObj.target_window fresh) with 0%nat in Hw'.
  rewrite Hw'. cbn [fmap option_fmap option_map].
  split.
  - rewrite Hcolor, Hv127, Heq. reflexivity.
  - exact (f_equal Some (f_equal DW.rect Hrest)).
Defined.

(** ** What only the global branch of the dispatch writes *)

Lemma apply_op_display (self : wid) (op : WindowOp) (app : APP) :
  display_of (apply_op self op app) = display_of app.
Proof.
  destruct op; simpl.
  - unfold DraggableWindow.minimize, Taskbar.add_window. case_decide; reflexivity.
  - reflexivity.
  - unfold DraggableWindow.restore, Taskbar.remove_window. case_decide; reflexivity.
  - unfold DraggableWindow.toggle_maximize.
    destruct (_ !! _) as [w|]; [|reflexivity].
    destruct (DW.maximized w); [|reflexivity].
    unfold DraggableWindow.restore, Taskbar.remove_window. case_decide; reflexivity.
Qed.

Lemma window_handle_event_display (self : wid) (event : Event) (app : APP) :
  display_of (fst (DraggableWindow.handle_event self event app)) = display_of app.
Proof.
  destruct (handle_event_shape self event app) as [->|[[f ->]|[->| ->]]];
    try reflexivity; apply apply_op_display.
Qed.

Lemma bring_to_front_display (window : wid) (app : APP) :
  display_of (WindowManager.bring_to_front window app) = display_of app.
Proof. unfold WindowManager.bring_to_front. case_decide; reflexivity. Qed.

Lemma dispatch_display (event : Event) (todo : list wid) (app : APP) :
  display_of (fst (WindowManager.dispatch event todo app)) = display_of app.
Proof.
  revert app. induction todo as [|window rest IH]; intros app; [reflexivity|].
  cbn [WindowManager.dispatch].
  pose proof (window_handle_event_display window event app) as H1.
  destruct (WindowManager.is_selected window _).
  - cbn [fst]. rewrite <- H1. apply (bring_to_front_display window).
  - specialize (IH (fst (DraggableWindow.handle_event window event app))).
    destruct (WindowManager.dispatch event rest _) as [app2 called].
    cbn [fst] in *. rewrite IH. exact H1.
Qed.

Lemma taskbar_click_display (pos : Z * Z) (ws : list wid) (idx : nat) (app : APP) :
  display_of (Taskbar_click pos idx ws app) = display_of app.
Proof.
  revert idx. induction ws as [|window rest IH]; intros idx; [reflexivity|].
  simpl. destruct (Rect.collidepoint _ pos); [|apply IH].
  rewrite bring_to_front_display.
  transitivity (display_of (DraggableWindow.restore window app)).
  - unfold Taskbar.remove_window. case_decide; reflexivity.
  - apply (apply_op_display window Restore).
Qed.

Lemma drag_channel_display (dragging : bool) (slider : Rect.t) set (pos : Z * Z)
    (st st' : RGBPropertiesWindowObj.t * APP) :
  RGBPropertiesWindow.drag_channel dragging slider set pos st = Some st' ->
  display_of (snd st') = display_of (snd st).
Proof.
  unfold RGBPropertiesWindow.drag_channel. destruct dragging.
  - destruct (RGBPropertiesWindow.slider_value slider pos) as [v|]; simpl;
      [|discriminate].
    intros [= <-]. reflexivity.
  - intros [= <-]. reflexivity.
Qed.

Lemma popup_handle_event_display
    (host : Host) (p p' : Popup) (event : Event) (app app' : APP)
    (new_popup : option Popup) :
  Popup_handle_event host p event app = Some (p', app', new_popup) ->
  display_of app' = display_of app.
Proof.
  destruct p as [m|e|r| |]; simpl.
  - pose proof (main_menu_handle_event_shape host m event app) as H.
    cbv zeta in H.
    destruct (MainMenuWindow.handle_event host m event app) as [[m' a'] n'].
    cbn [fst snd] in H. intros [= _ <- _].
    destruct H as [[_ ->]|[H|(_ & -> & _)]]; try reflexivity.
    injection H as _ ->. reflexivity.
  - unfold EditablePopupWindow.handle_event.
    destruct event as [|key unicode| |button pos| | |];
      try (intros [= _ <- _]; reflexivity).
    + destruct (_ || _); [|intros [= _ <- _]; reflexivity].
      destruct (key =? K_RETURN).
      * destruct (negb _).
        -- destruct (EditablePopupWindowObj.editing_body e);
             intros [= _ <- _]; reflexivity.
        -- destruct (EditablePopupWindowObj.editing_title e);
             [intros [= _ <- _]; reflexivity|].
           destruct (EditablePopupWindowObj.editing_body e);
             intros [= _ <- _]; reflexivity.
      * destruct (key =? K_BACKSPACE); intros [= _ <- _]; reflexivity.
    + destruct (button =? 1); [|intros [= _ <- _]; reflexivity].
      destruct (Rect.collidepoint _ pos); [intros [= _ <- _]; reflexivity|].
      destruct (Rect.collidepoint _ pos); intros [= _ <- _]; reflexivity.
  - destruct (RGBPropertiesWindow.handle_event r event app) as [[r' a']|] eqn:H;
      simpl; [|discriminate].
    intros [= _ <- _]. revert H. unfold RGBPropertiesWindow.handle_event.
    destruct event as [| | |button pos|button pos|pos|];
      try (intros [= _ <-]; reflexivity).
    + destruct (button =? 1); intros [= _ <-]; reflexivity.
    + destruct (button =? 1); intros [= _ <-]; reflexivity.
    + destruct (RGBPropertiesWindow.drag_channel _ _ _ _ _) as [st1|] eqn:H1;
        simpl; [|discriminate].
      destruct (RGBPropertiesWindow.drag_channel _ _ _ _ st1) as [st2|] eqn:H2;
        simpl; [|discriminate].
      intros H3.
      apply drag_channel_display in H1, H2, H3. simpl in *. congruence.
  - intros [= _ <- _]. reflexivity.
  - intros [= _ <- _]. reflexivity.
Qed.

Lemma menu_handle_event_display
    (host : Host) (current_menu : Popup) (event : Event) (app app' : APP) :
  Application.menu_handle_event host current_menu event app = Some app' ->
  display_of app' = display_of app.
Proof.
  unfold Application.menu_handle_event.
  destruct (Popup_handle_event host current_menu event app)
    as [[[menu a'] new_popup]|] eqn:H; simpl; [|discriminate].
  intros [= <-]. apply popup_handle_event_display in H. rewrite <- H. reflexivity.
Qed.

Lemma handle_mouse_display (host : Host) (event : Event) (app app' : APP) :
  Application.handle_mouse host event app = Some app' ->
  display_of app' = display_of app.
Proof.
  assert (Hrest :
            (match last (App.menu_stack app) with
             | Some current_menu =>
               Application.menu_handle_event host current_menu event app
             | None => Some app
             end ≫= (fun a => Some (WindowManager.handle_event event a)))
            = Some app' ->
            display_of app' = display_of app).
  { destruct (last (App.menu_stack app)) as [current_menu|].
    - destruct (Application.menu_handle_event _ _ _ _) as [a|] eqn:H; simpl;
        [|discriminate].
      intros [= <-]. apply menu_handle_event_display in H. rewrite <- H.
      apply dispatch_display.
    - simpl. intros [= <-]. apply dispatch_display. }
  destruct event; try exact Hrest.
  unfold Application.handle_mouse.
  destruct (button =? 1) eqn:Hb.
  - destruct (Rect.collidepoint _ pos).
    { intros H. injection H as <-. simpl. rewrite Hb. apply taskbar_click_display. }
    destruct (last (App.menu_stack app)) as [current_menu|].
    + destruct (Rect.collidepoint _ pos); [apply menu_handle_event_display|].
      intros [= <-]. reflexivity.
    + intros [= <-]. apply dispatch_display.
  - destruct (button =? 3); [|intros [= <-]; reflexivity].
    destruct (last (App.menu_stack app)) as [current_menu|].
    + destruct (Rect.collidepoint _ pos); intros [= <-]; reflexivity.
    + destruct (Application.window_under _ _ _); intros [= <-]; reflexivity.
Qed.

Lemma rescale_windows_display (scale_x scale_y : spec_float) (ws : list wid)
    (app app' : APP) :
  Application.rescale_windows scale_x scale_y ws app = Some app' ->
  display_of app' = display_of app.
Proof.
  intros H. apply rescale_windows_spec in H. destruct H as (H & _).
  rewrite H. reflexivity.
Qed.

Lemma draw_display (app app' : APP) :
  Application.draw app = Some app' -> display_of app' = display_of app.
Proof. intros H. apply draw_frame in H. rewrite <- H. reflexivity. Qed.

Lemma pinned_of_display (a b : APP) :
  display_of a = display_of b -> taskbar_pinned b -> taskbar_pinned a.
Proof.
  unfold display_of, taskbar_pinned. intros [= Hw Hh _ _ _ _ Hr] Hb.
  rewrite Hw, Hh, Hr. exact Hb.
Qed.

Lemma update_taskbar_rect_pinned (app : APP) :
  taskbar_pinned (Application.update_taskbar_rect app).
Proof. reflexivity. Qed.

Lemma running_of_display (a b : APP) :
  display_of a = display_of b -> App.running a = App.running b.
Proof. unfold display_of. intros [= _ _ _ Hr _ _ _]. exact Hr. Qed.

(** The global branch: what it does to the display state. *)
Lemma handle_global_display (host : Host) (event : Event) (app app' : APP) :
  Application.handle_global host event app = Some app' ->
  (taskbar_pinned app -> taskbar_pinned app')
  /\ App.running app' = match event with QUIT => false | _ => App.running app end
  /\ (event <> QUIT -> (forall w h, event <> VIDEORESIZE w h) ->
      (forall unicode, event = KEYDOWN K_f unicode ->
                       Z.land (get_mods host) KMOD_CTRL = 0) ->
      display_of app' = display_of app).
Proof.
  unfold Application.handle_global.
  destruct event as [|key unicode|w h| | | |];
    try (intros [= <-]; split; [tauto|]; split; [reflexivity|]; reflexivity).
  - intros [= <-]. split; [tauto|]. split; [reflexivity|]. intros H. congruence.
  - destruct (negb _) eqn:Hctrl;
      [|intros [= <-]; split; [tauto|]; split; [reflexivity|]; reflexivity].
    unfold Application.on_ctrl_key.
    destruct (key =? K_n) eqn:Hn.
    { destruct (randint (entropy_x host) _ _) as [new_x|];
        cbn [mbind option_bind]; [|discriminate].
      destruct (randint (entropy_y host) _ _) as [new_y|];
        cbn [mbind option_bind]; [|discriminate].
      intros [= <-]. split; [tauto|]. split; reflexivity. }
    destruct (key =? K_w) eqn:Hw.
    { destruct (App.selected_window app) as [window|]; intros [= <-];
        [|split; [tauto|]; split; reflexivity].
      pose proof (apply_op_display window Minimize app) as Hd. simpl in Hd.
      split; [apply pinned_of_display; exact Hd|].
      split; [exact (running_of_display _ _ Hd)|]. intros _ _ _. exact Hd. }
    destruct (key =? K_f) eqn:Hf; intros [= <-];
      [|split; [tauto|]; split; reflexivity].
    split; [intros _; apply update_taskbar_rect_pinned|].
    split; [destruct (App.is_fullscreen app); reflexivity|].
    intros _ _ Hnof. apply Z.eqb_eq in Hf. subst key.
    rewrite (Hnof unicode eq_refl) in Hctrl. discriminate.
  - unfold Application.on_videoresize. cbv zeta.
    destruct (PyFloat.truediv _ (App.prev_screen_width _)) as [scale_x|];
      cbn [mbind option_bind]; [|discriminate].
    destruct (PyFloat.truediv _ (App.prev_screen_height _)) as [scale_y|];
      cbn [mbind option_bind]; [|discriminate].
    destruct (Application.rescale_windows _ _ _ _) as [a|] eqn:H;
      cbn [mbind option_bind]; [|discriminate].
    intros [= <-]. apply rescale_windows_display in H.
    assert (Hpin : taskbar_pinned a).
    { apply (pinned_of_display _ _ H), update_taskbar_rect_pinned. }
    split; [intros _; exact Hpin|].
    split; [exact (running_of_display _ _ H)|].
    intros _ Hnot. exfalso. exact (Hnot w h eq_refl).
Qed.

Lemma handle_event_display (host : Host) (event : Event) (app app' : APP) :
  Application.handle_event host event app = Some app' ->
  (taskbar_pinned app -> taskbar_pinned app')
  /\ App.running app' = match event with QUIT => false | _ => App.running app end
  /\ (event <> QUIT -> (forall w h, event <> VIDEORESIZE w h) ->
      (forall unicode, event = KEYDOWN K_f unicode ->
                       Z.land (get_mods host) KMOD_CTRL = 0) ->
      display_of app' = display_of app).
Proof.
  unfold Application.handle_event.
  destruct (Application.handle_global host event app) as [a|] eqn:Hg;
    cbn [mbind option_bind]; [|discriminate].
  intros Hm. apply handle_mouse_display in Hm.
  apply handle_global_display in Hg. destruct Hg as (Hpin & Hrun & Hdisp).
  split; [intros Hp; apply (pinned_of_display _ a Hm), Hpin, Hp|].
  split; [rewrite (running_of_display _ _ Hm); exact Hrun|].
  intros H1 H2 H3. rewrite Hm. apply Hdisp; assumption.
Qed.

Lemma handle_events_snoc (inputs : list (Host * Event)) (host : Host)
    (event : Event) (app : APP) :
  handle_events (inputs ++ [(host, event)]) app
  = handle_events inputs app ≫= Application.handle_event host event.
Proof. unfold handle_events. rewrite foldl_app. reflexivity. Qed.

Lemma handle_events_cons (inputs : list (Host * Event)) (host : Host)
    (event : Event) (app : APP) :
  handle_events ((host, event) :: inputs) app
  = Application.handle_event host event app ≫= handle_events inputs.
Proof.
  unfold handle_events. simpl.
  destruct (Application.handle_event host event app) as [a|]; [reflexivity|].
  simpl. induction inputs as [|[h e] inputs IH]; [reflexivity|exact IH].
Qed.

Lemma handle_events_app (before after : list (Host * Event)) (app : APP) :
  handle_events (before ++ after) app
  = handle_events before app ≫= handle_events after.
Proof.
  revert app. induction before as [|[host event] before IH]; intros app.
  - reflexivity.
  - rewrite <- app_comm_cons. rewrite !handle_events_cons.
    destruct (Application.handle_event host event app) as [a|]; [|reflexivity].
    simpl. apply IH.
Qed.

Lemma handle_events_display (inputs : list (Host * Event)) (app app' : APP) :
  handle_events inputs app = Some app' ->
  (taskbar_pinned app -> taskbar_pinned app')
  /\ (App.running app = false -> App.running app' = false).
Proof.
  revert app. induction inputs as [|[host event] inputs IH]; intros app.
  - intros [= <-]. tauto.
  - rewrite handle_events_cons.
    destruct (Application.handle_event host event app) as [a|] eqn:H;
      cbn [mbind option_bind]; [|discriminate].
    intros Hrest. apply IH in Hrest. apply handle_event_display in H.
    destruct H as (Hpin & Hrun & _). destruct Hrest as (Hpin' & Hrun').
    split; [tauto|]. intros Hstop. apply Hrun'. rewrite Hrun.
    destruct event; first [reflexivity|exact Hstop].
Qed.

Lemma frame_handle_events (events : list (Host * Event)) (app : APP) :
  Application.frame events app = handle_events events app ≫= Application.draw.
Proof. reflexivity. Qed.

Lemma run_pinned (frames : list (list (Host * Event))) (app app' : APP) :
  taskbar_pinned app ->
  Application.run frames app = Some app' ->
  taskbar_pinned app'.
Proof.
  revert app. induction frames as [|events frames IH]; intros app Hpin; simpl.
  - intros [= <-]. exact Hpin.
  - destruct (App.running app); [|intros [= <-]; exact Hpin].
    rewrite frame_handle_events.
    destruct (handle_events events app) as [a|] eqn:H; cbn [mbind option_bind];
      [|discriminate].
    destruct (Application.draw a) as [drawn|] eqn:Hdraw; [|discriminate].
    apply IH. apply (pinned_of_display _ a (draw_display a drawn Hdraw)).
    apply (handle_events_display events app a H), Hpin.
Qed.

(** X13: the display state is written by the global branch alone.  An
    event that is not a quit, a resize of the screen or a Ctrl+F leaves
    the screen size, the fullscreen flag, [running], the previous screen
    size and the taskbar rectangle as they are; [running] is cleared by a
    quit event and never set again; and the taskbar rectangle is always
    the bottom strip of the current screen, in every state the program
    reaches. *)
Theorem X13_display_state (host : Host) (event : Event) (app app' : APP) :
  Application.handle_event host event app = Some app' ->
  (event <> QUIT -> (forall w h, event <> VIDEORESIZE w h) ->
   (forall unicode, event = KEYDOWN K_f unicode ->
                    Z.land (get_mods host) KMOD_CTRL = 0) ->
   display_of app' = display_of app)
  /\ App.running app' = match event with QUIT => false | _ => App.running app end
  /\ (taskbar_pinned app -> taskbar_pinned app')
  /\ (forall frames final,
         Application.run frames main = Some final -> taskbar_pinned final).
Proof.
  intros H. apply handle_event_display in H. destruct H as (Hpin & Hrun & Hdisp).
  split; [exact Hdisp|]. split; [exact Hrun|]. split; [exact Hpin|].
  intros frames final. apply run_pinned. reflexivity.
Qed.

Lemma X13_display_state_witness :
  exists app',
    Application.handle_event (example_host 64) (KEYDOWN K_f "f") main = Some app'
    /\ (App.screen_width app', App.screen_height app') = (1920, 1080)
    /\ taskbar_pinned app'.
Proof.
  destruct (Application.handle_event (example_host 64) (KEYDOWN K_f "f") main)
    as [app'|] eqn:H; [|vm_compute in H; discriminate].
  exists app'. split; [reflexivity|].
  destruct (X13_display_state _ _ _ _ H) as (_ & _ & Hpin & _).
  split; [vm_compute in H; injection H as <-; reflexivity|].
  apply Hpin. reflexivity.
Defined.

(** X14: a quit event ends the loop after the frame it arrives in.  The
    events that follow it in the same frame are still handled, with
    [running] false, and the frame is drawn.  If that [draw] raises, so
    does the run; otherwise the run ends in the drawn state, with
    [running] false, and no later frame is processed. *)
Theorem X14_quit_ends_the_loop
    (before after : list (Host * Event)) (host : Host)
    (later : list (list (Host * Event))) (app a b c : APP) :
  App.running app = true ->
  handle_events before app = Some a ->
  Application.handle_event host QUIT a = Some b ->
  handle_events after b = Some c ->
  App.running b = false
  /\ App.running c = false
  /\ Application.run ((before ++ (host, QUIT) :: after) :: later) app
     = Application.draw c
  /\ (forall drawn, Application.draw c = Some drawn -> App.running drawn = false).
Proof.
  intros Hrun Ha Hb Hc.
  assert (Hstopb : App.running b = false).
  { apply handle_event_display in Hb. destruct Hb as (_ & Hb & _). exact Hb. }
  assert (Hstopc : App.running c = false)
    by (apply (handle_events_display after b c Hc), Hstopb).
  assert (Hdrawn : forall drawn,
             Application.draw c = Some drawn -> App.running drawn = false).
  { intros drawn Hdraw.
    rewrite (running_of_display _ _ (draw_display c drawn Hdraw)). exact Hstopc. }
  split; [exact Hstopb|]. split; [exact Hstopc|]. split; [|exact Hdrawn].
  cbn [Application.run]. rewrite Hrun, frame_handle_events, handle_events_app, Ha.
  cbn [mbind option_bind]. rewrite handle_events_cons, Hb.
  cbn [mbind option_bind]. rewrite Hc. cbn [mbind option_bind].
  destruct (Application.draw c) as [drawn|] eqn:Hdraw; [|reflexivity].
  cbn [mbind option_bind].
  destruct later; cbn [Application.run]; [reflexivity|].
  rewrite (Hdrawn drawn eq_refl). reflexivity.
Qed.

Lemma X14_quit_ends_the_loop_witness :
  (exists final,
      Application.run
        [ [(example_host 0, QUIT); (example_host 0, MOUSEBUTTONDOWN 1 (200, 200))];
          [(example_host 0, MOUSEBUTTONUP 1 (200, 200))] ] main = Some final
      /\ App.running final = false
      /\ WindowManager.is_selected 0%nat final = true)
  /\ Application.run
       [ [(example_host 0, VIDEORESIZE 800 30); (example_host 0, QUIT)];
         [(example_host 0, VIDEORESIZE 800 600)] ] main = None.
Proof.
  split.
  - destruct (Application.handle_event (example_host 0) QUIT main) as [b|] eqn:Hb;
      [|vm_compute in Hb; discriminate].
    destruct (handle_events [(example_host 0, MOUSEBUTTONDOWN 1 (200, 200))] b)
      as [c|] eqn:Hc; [|vm_compute in Hb; injection Hb as <-; vm_compute in Hc; discriminate].
    destruct (X14_quit_ends_the_loop []
                [(example_host 0, MOUSEBUTTONDOWN 1 (200, 200))] (example_host 0)
                [[(example_host 0, MOUSEBUTTONUP 1 (200, 200))]] main main b c
                eq_refl eq_refl Hb Hc) as (_ & _ & Hrun & Hstop).
    vm_compute in Hb. injection Hb as <-. vm_compute in Hc. injection Hc as <-.
    match type of Hrun with
    | _ = Application.draw ?c =>
      destruct (Application.draw c) as [drawn|] eqn:Hdraw;
        [|vm_compute in Hdraw; discriminate]
    end.
    exists drawn. split; [exact Hrun|]. split; [apply Hstop; reflexivity|].
    vm_compute in Hdraw. injection Hdraw as <-. reflexivity.
  - destruct (handle_events [(example_host 0, VIDEORESIZE 800 30)] main)
      as [a|] eqn:Ha; [|vm_compute in Ha; discriminate].
    destruct (Application.handle_event (example_host 0) QUIT a) as [b|] eqn:Hb;
      [|vm_compute in Ha; injection Ha as <-; vm_compute in Hb; discriminate].
    destruct (X14_quit_ends_the_loop [(example_host 0, VIDEORESIZE 800 30)] []
                (example_host 0) [[(example_host 0, VIDEORESIZE 800 600)]]
                main a b b eq_refl Ha Hb eq_refl) as (_ & _ & Hrun & _).
    etransitivity; [exact Hrun|]. vm_compute in Ha. injection Ha as <-.
    vm_compute in Hb. injection Hb as <-. vm_compute. reflexivity.
Defined.

Lemma window_handle_event_key (self : wid) (key : Z) (unicode : string) (app : APP) :
  fst (DraggableWindow.handle_event self (KEYDOWN key unicode) app) = app.
Proof.
  unfold DraggableWindow.handle_event.
  destruct (App.window_store app !! self) as [win|]; [|reflexivity].
  destruct (DW.minimized win); reflexivity.
Qed.

(** A key event changes no window; the loop of the window manager still
    raises the topmost selected window. *)
Lemma dispatch_key (key : Z) (unicode : string) (todo : list wid) (app : APP) :
  let app' := fst (WindowManager.dispatch (KEYDOWN key unicode) todo app) in
  App.window_store app' = App.window_store app
  /\ WindowManager.windows app' ≡ₚ WindowManager.windows app
  /\ ((forall w, w ∈ todo -> WindowManager.is_selected w app = false) -> app' = app).
Proof.
  cbv zeta. induction todo as [|window rest IH];
    [split; [reflexivity|split; [reflexivity|intros _; reflexivity]]|].
  cbn [WindowManager.dispatch]. rewrite window_handle_event_key.
  destruct (WindowManager.is_selected window app) eqn:Hsel.
  - cbn [fst]. split; [|split].
    + unfold WindowManager.bring_to_front. case_decide; reflexivity.
    + unfold WindowManager.bring_to_front. case_decide as Hin; [|reflexivity].
      change (remove_first window (WindowManager.windows app) ++ [window]
              ≡ₚ WindowManager.windows app).
      rewrite <- (remove_first_Permutation window (WindowManager.windows app) Hin) at 2.
      rewrite Permutation_app_comm. reflexivity.
    + intros Hnone. rewrite (Hnone window) in Hsel by left. discriminate.
  - destruct (WindowManager.dispatch (KEYDOWN key unicode) rest app) as [a called].
    cbn [fst] in *. destruct IH as (Hstore & Hperm & Hnone).
    split; [exact Hstore|]. split; [exact Hperm|].
    intros H. apply Hnone. intros w Hw. apply H. right. exact Hw.
Qed.

Lemma randint_range (entropy a b n : Z) :
  randint entropy a b = Some n -> a <= n <= b.
Proof.
  unfold randint. destruct (a <=? b) eqn:Hab; [|discriminate].
  intros [= <-]. apply Z.leb_le in Hab.
  pose proof (Z.mod_pos_bound entropy (b - a + 1)). lia.
Qed.

Lemma randint_empty (entropy a b : Z) :
  b < a -> randint entropy a b = None.
Proof.
  intros Hlt. unfold randint. destruct (a <=? b) eqn:Hab; [|reflexivity].
  apply Z.leb_le in Hab. lia.
Qed.

Lemma randint_some (entropy a b : Z) :
  a <= b -> exists n, randint entropy a b = Some n.
Proof.
  intros Hle. unfold randint. apply Z.leb_le in Hle. rewrite Hle. eauto.
Qed.

Lemma is_selected_new_window (app : APP) (w : wid) (x y : Z) (title : string) :
  WindowManager.is_selected w app = false ->
  WindowManager.is_selected w
    (WindowManager.add_window (length (App.window_store app))
       (App.set_window_store
          (App.window_store app ++ [DW.init x y 300 200 title]) app)) = false.
Proof.
  unfold WindowManager.is_selected. cbn [WindowManager.add_window].
  change (App.window_store (WindowManager.add_window _ ?a)) with (App.window_store a).
  cbn [App.window_store App.set_window_store].
  destruct (App.window_store app !! w) as [win|] eqn:Hw.
  - rewrite (lookup_app_l_Some _ _ _ _ Hw). intros H; exact H.
  - intros _. apply lookup_ge_None in Hw.
    rewrite lookup_app_r by exact Hw.
    destruct (w - length (App.window_store app))%nat as [|k]; [reflexivity|].
    reflexivity.
Qed.

(** X15: Ctrl+N.  On a screen narrower than 400 or lower than 340 pixels
    the range handed to [random.randint] is empty and the handler raises.
    On a larger screen, with no popup open, it never raises: it creates
    one 300x200 window titled with the number of windows plus one, at
    least 50 pixels from the left and top edges and from the right edge
    and the taskbar, leaves the existing windows as they are and adds the
    new one to the window list, on top unless a window is selected. *)
Theorem X15_ctrl_n (host : Host) (unicode : string) (app : APP) :
  Z.land (get_mods host) KMOD_CTRL <> 0 ->
  (App.screen_width app < 400 \/ App.screen_height app < 340 ->
   Application.handle_event host (KEYDOWN K_n unicode) app = None)
  /\ (400 <= App.screen_width app -> 340 <= App.screen_height app ->
      App.menu_stack app = [] ->
      exists app' new_x new_y,
        Application.handle_event host (KEYDOWN K_n unicode) app = Some app'
        /\ 50 <= new_x /\ new_x + 300 <= App.screen_width app - 50
        /\ 50 <= new_y
        /\ new_y + 200 <= App.screen_height app - TASKBAR_HEIGHT - 50
        /\ App.window_store app'
           = App.window_store app
             ++ [DW.init new_x new_y 300 200
                   ("Window " +:+ str_of_nat (S (length (WindowManager.windows app))))]
        /\ WindowManager.windows app'
           ≡ₚ WindowManager.windows app ++ [length (App.window_store app)]
        /\ ((forall w, w ∈ WindowManager.windows app ->
                       WindowManager.is_selected w app = false) ->
            WindowManager.windows app'
            = WindowManager.windows app ++ [length (App.window_store app)])).
Proof.
  intros Hctrl. apply Z.eqb_neq in Hctrl.
  unfold Application.handle_event, Application.handle_global.
  rewrite Hctrl. cbn [negb]. unfold Application.on_ctrl_key.
  rewrite Z.eqb_refl. unfold TASKBAR_HEIGHT. split.
  - intros [Hw|Hh].
    + rewrite (randint_empty (entropy_x host)) by lia. reflexivity.
    + destruct (randint (entropy_x host) _ _); [|reflexivity].
      cbn [mbind option_bind].
      rewrite (randint_empty (entropy_y host)) by lia. reflexivity.
  - intros Hw Hh Hstack.
    destruct (randint_some (entropy_x host) 50 (App.screen_width app - 350))
      as [new_x Hx]; [lia|].
    destruct (randint_some (entropy_y host) 50 (App.screen_height app - 40 - 250))
      as [new_y Hy]; [lia|].
    rewrite Hx. cbn [mbind option_bind]. rewrite Hy. cbn [mbind option_bind].
    cbv zeta. apply randint_range in Hx, Hy.
    set (title := "Window " +:+ str_of_nat (S (length (WindowManager.windows app)))).
    set (added := WindowManager.add_window _ _).
    unfold Application.handle_mouse.
    replace (App.menu_stack added) with (@nil Popup) by (symmetry; exact Hstack).
    cbn [last mbind option_bind].
    eexists _, new_x, new_y. split; [reflexivity|].
    do 4 (split; [lia|]).
    unfold WindowManager.handle_event, WindowManager.handle_event_trace.
    destruct (dispatch_key K_n unicode (rev (WindowManager.windows added)) added)
      as (Hstore & Hperm & Hnone).
    split; [rewrite Hstore; reflexivity|].
    split; [rewrite Hperm; reflexivity|].
    intros Hunsel. rewrite Hnone; [reflexivity|].
    intros w Hw'. apply list_elem_of_In, in_rev, list_elem_of_In in Hw'.
    change (WindowManager.windows added)
      with (WindowManager.windows app ++ [length (App.window_store app)]) in Hw'.
    apply elem_of_app in Hw'. destruct Hw' as [Hw'|Hw'].
    + apply is_selected_new_window, Hunsel, Hw'.
    + apply list_elem_of_singleton in Hw'. subst w.
      unfold WindowManager.is_selected.
      change (App.window_store added)
        with (App.window_store app ++ [DW.init new_x new_y 300 200 title]).
      rewrite lookup_app_r by lia. rewrite Nat.sub_diag. reflexivity.
Qed.

Lemma X15_ctrl_n_witness :
  Application.handle_event (example_host 64) (KEYDOWN K_n "n")
    (App.set_screen_size 399 600 main) = None
  /\ exists app',
       Application.handle_event (example_host 64) (KEYDOWN K_n "n") main = Some app'
       /\ WindowManager.windows app' = [0%nat; 1%nat].
Proof.
  assert (Hctrl : Z.land (get_mods (example_host 64)) KMOD_CTRL <> 0)
    by (vm_compute; discriminate).
  split.
  - destruct (X15_ctrl_n (example_host 64) "n" (App.set_screen_size 399 600 main) Hctrl)
      as [Hraise _].
    apply Hraise. left. vm_compute. reflexivity.
  - destruct (X15_ctrl_n (example_host 64) "n" main Hctrl) as [_ Hnew].
    destruct Hnew as (app' & new_x & new_y & Hev & _ & _ & _ & _ & _ & _ & Hwin);
      [vm_compute; discriminate|vm_compute; discriminate|reflexivity|].
    exists app'. split; [exact Hev|].
    apply Hwin. intros w Hw. apply list_elem_of_singleton in Hw. subst w. reflexivity.
Defined.

(** A key event reaches the option dictionaries only. *)
Lemma popup_handle_event_key (host : Host) (p : Popup) (key : Z)
    (unicode : string) (app : APP) :
  exists p' app1,
    Popup_handle_event host p (KEYDOWN key unicode) app = Some (p', app1, None)
    /\ App.set_option_store (App.option_store app1) app = app1.
Proof.
  assert (Hid : App.set_option_store (App.option_store app) app = app)
    by (destruct app; reflexivity).
  destruct p as [m|e|c|r|r]; cbn [Popup_handle_event];
    try (eexists _, app; split; [reflexivity|exact Hid]).
  destruct (EditablePopupWindow.handle_event host e (KEYDOWN key unicode) app)
    as [e' app1] eqn:H.
  exists (EditablePopup e'), app1. split; [reflexivity|].
  unfold EditablePopupWindow.handle_event in H.
  repeat match type of H with
         | (if ?c then _ else _) = _ => destruct c
         | (let self := _ in _) = _ => cbv zeta in H
         end;
    injection H as <- <-; first [exact Hid | destruct app; reflexivity].
Qed.

Lemma dispatch_key_frame (key : Z) (unicode : string) (todo : list wid) (app : APP) :
  let app' := fst (WindowManager.dispatch (KEYDOWN key unicode) todo app) in
  App.taskbar app' = App.taskbar app
  /\ App.menu_stack app' = App.menu_stack app
  /\ App.option_store app' = App.option_store app.
Proof.
  cbv zeta. induction todo as [|window rest IH]; [repeat split|].
  cbn [WindowManager.dispatch]. rewrite window_handle_event_key.
  destruct (WindowManager.is_selected window app).
  - cbn [fst]. unfold WindowManager.bring_to_front. case_decide; repeat split.
  - destruct (WindowManager.dispatch (KEYDOWN key unicode) rest app) as [a called].
    exact IH.
Qed.

(** The second half of [handle_event] on a key event: it never raises and
    changes no window. *)
Lemma handle_mouse_key (host : Host) (key : Z) (unicode : string) (app : APP) :
  exists app',
    Application.handle_mouse host (KEYDOWN key unicode) app = Some app'
    /\ App.window_store app' = App.window_store app
    /\ App.taskbar app' = App.taskbar app
    /\ display_of app' = display_of app
    /\ WindowManager.windows app' ≡ₚ WindowManager.windows app
    /\ ((forall w, w ∈ WindowManager.windows app ->
                   WindowManager.is_selected w app = false) ->
        WindowManager.windows app' = WindowManager.windows app
        /\ App.selected_window app' = App.selected_window app).
Proof.
  assert (Hmid : exists a,
             match last (App.menu_stack app) with
             | Some current_menu =>
               Application.menu_handle_event host current_menu (KEYDOWN key unicode) app
             | None => Some app
             end = Some a
             /\ exists stack,
                 App.set_menu_stack stack
                   (App.set_option_store (App.option_store a) app) = a).
  { destruct (last (App.menu_stack app)) as [current_menu|].
    - unfold Application.menu_handle_event.
      destruct (popup_handle_event_key host current_menu key unicode app)
        as (p' & app1 & -> & Happ1).
      cbn [mbind option_bind]. eexists. split; [reflexivity|].
      exists (removelast (App.menu_stack app1) ++ [p']).
      change (App.option_store (App.set_menu_stack _ app1))
        with (App.option_store app1).
      rewrite Happ1. reflexivity.
    - exists app. split; [reflexivity|]. exists (App.menu_stack app).
      destruct app; reflexivity. }
  destruct Hmid as (a & Ha & stack & Hshape).
  assert (Hev : Application.handle_mouse host (KEYDOWN key unicode) app
                = Some (WindowManager.handle_event (KEYDOWN key unicode) a)).
  { unfold Application.handle_mouse. rewrite Ha. reflexivity. }
  eexists. split; [exact Hev|].
  unfold WindowManager.handle_event, WindowManager.handle_event_trace.
  destruct (dispatch_key key unicode (rev (WindowManager.windows a)) a)
    as (Hstore & Hperm & Hnone).
  destruct (dispatch_key_frame key unicode (rev (WindowManager.windows a)) a)
    as (Htask & _ & _).
  assert (Hfields : App.window_store a = App.window_store app
                    /\ App.taskbar a = App.taskbar app
                    /\ WindowManager.windows a = WindowManager.windows app
                    /\ App.selected_window a = App.selected_window app)
    by (rewrite <- Hshape; repeat split).
  destruct Hfields as (Hs & Ht & Hw & Hsel).
  split; [rewrite Hstore; exact Hs|].
  split; [rewrite Htask; exact Ht|].
  split; [exact (handle_mouse_display _ _ _ _ Hev)|].
  split; [rewrite Hperm, Hw; reflexivity|].
  intros Hunsel. rewrite Hnone; [split; assumption|].
  intros w Hin. apply list_elem_of_In, in_rev, list_elem_of_In in Hin.
  rewrite Hw in Hin. unfold WindowManager.is_selected. rewrite Hs.
  exact (Hunsel w Hin).
Qed.

(** X16: Ctrl+F never raises and toggles the fullscreen flag.  The
    screen size becomes the size of the surface [set_mode] returns: the
    one of the fullscreen display when entering fullscreen, the one
    granted for the 800x600 request when leaving it.  The taskbar is
    moved to the bottom of the new screen, but, unlike a resize event,
    the toggle neither rescales nor moves any window and leaves the
    recorded previous screen size as it was. *)
Theorem X16_ctrl_f (host : Host) (unicode : string) (app : APP) :
  Z.land (get_mods host) KMOD_CTRL <> 0 ->
  exists app',
    Application.handle_event host (KEYDOWN K_f unicode) app = Some app'
    /\ App.is_fullscreen app' = negb (App.is_fullscreen app)
    /\ (App.screen_width app', App.screen_height app')
       = (if App.is_fullscreen app then windowed_size host else fullscreen_size host)
    /\ taskbar_pinned app'
    /\ minimized_windows app' = minimized_windows app
    /\ App.window_store app' = App.window_store app
    /\ (App.prev_screen_width app', App.prev_screen_height app')
       = (App.prev_screen_width app, App.prev_screen_height app).
Proof.
  intros Hctrl. apply Z.eqb_neq in Hctrl.
  unfold Application.handle_event, Application.handle_global.
  rewrite Hctrl. cbn [negb]. unfold Application.on_ctrl_key.
  change (K_f =? K_n) with false. change (K_f =? K_w) with false.
  rewrite Z.eqb_refl. cbv iota zeta. cbn [mbind option_bind].
  set (a := Application.update_taskbar_rect _).
  destruct (handle_mouse_key host K_f unicode a)
    as (app' & Hev & Hstore & Htask & Hdisp & _).
  exists app'. split; [exact Hev|].
  assert (Hpin : taskbar_pinned app')
    by (apply (pinned_of_display _ a Hdisp), update_taskbar_rect_pinned).
  unfold minimized_windows. rewrite Hstore, Htask.
  unfold display_of in Hdisp. injection Hdisp as -> -> -> _ -> -> _.
  subst a.
  destruct (App.is_fullscreen app), (fullscreen_size host), (windowed_size host);
    repeat split; exact Hpin.
Qed.

Lemma X16_ctrl_f_witness :
  let host := {| get_mods := 64; entropy_x := 0; entropy_y := 0;
                 fullscreen_size := (1920, 1080);
                 windowed_size := (1024, 768);
                 font_size := fun line => (0, 17) |} in
  exists app' app'',
    Application.handle_event host (KEYDOWN K_f "f") main = Some app'
    /\ Application.handle_event host (KEYDOWN K_f "f") app' = Some app''
    /\ (App.screen_width app', App.screen_height app') = (1920, 1080)
    /\ (App.screen_width app'', App.screen_height app'') = (1024, 768)
    /\ (App.prev_screen_width app'', App.prev_screen_height app'') = (800, 600)
    /\ rect_of 0%nat app'' = Some (Rect.mk 100 100 300 200).
Proof.
  intros host.
  assert (Hctrl : Z.land (get_mods host) KMOD_CTRL <> 0)
    by (vm_compute; discriminate).
  destruct (X16_ctrl_f host "f" main Hctrl)
    as (app' & Hev & Hfull & Hsize & _ & _ & Hstore & Hprev).
  destruct (X16_ctrl_f host "f" app' Hctrl)
    as (app'' & Hev' & _ & Hsize' & _ & _ & Hstore' & Hprev').
  exists app', app''. split; [exact Hev|]. split; [exact Hev'|].
  split; [exact Hsize|].
  split; [rewrite Hsize', Hfull; reflexivity|].
  split; [rewrite Hprev', Hprev; reflexivity|].
  unfold rect_of. rewrite Hstore', Hstore. reflexivity.
Defined.

(** X17: Ctrl+W never raises and never closes a window.  Without a
    selected window it changes no window and no taskbar entry; with one
    it sets the [minimized] flag of that window, leaving its other
    attributes and the other windows alone, and gives it a taskbar
    button.  The window list is only permuted, and [selected_window] is
    cleared unless a window is being dragged. *)
Theorem X17_ctrl_w (host : Host) (unicode : string) (app : APP) :
  Z.land (get_mods host) KMOD_CTRL <> 0 ->
  exists app',
    Application.handle_event host (KEYDOWN K_w unicode) app = Some app'
    /\ WindowManager.windows app' ≡ₚ WindowManager.windows app
    /\ display_of app' = display_of app
    /\ match App.selected_window app with
       | None =>
         App.window_store app' = App.window_store app
         /\ minimized_windows app' = minimized_windows app
       | Some window =>
         App.window_store app'
         = alter (DW.set_minimized true) window (App.window_store app)
         /\ minimized_windows app'
            = (if decide (window ∈ minimized_windows app)
               then minimized_windows app
               else minimized_windows app ++ [window])
         /\ ((forall w, w ∈ WindowManager.windows app ->
                        WindowManager.is_selected w app = false) ->
             App.selected_window app' = None)
       end.
Proof.
  intros Hctrl. apply Z.eqb_neq in Hctrl.
  unfold Application.handle_event, Application.handle_global.
  rewrite Hctrl. cbn [negb]. unfold Application.on_ctrl_key.
  change (K_w =? K_n) with false. rewrite Z.eqb_refl. cbv iota.
  destruct (App.selected_window app) as [window|] eqn:Hsel;
    cbn [mbind option_bind].
  - set (a := App.set_selected_window None (DraggableWindow.minimize window app)).
    destruct (handle_mouse_key host K_w unicode a)
      as (app' & Hev & Hstore & Htask & Hdisp & Hperm & Hnone).
    exists app'. split; [exact Hev|].
    split; [rewrite Hperm; subst a; unfold DraggableWindow.minimize, Taskbar.add_window;
            case_decide; reflexivity|].
    split; [rewrite Hdisp; exact (apply_op_display window Minimize app)|].
    unfold minimized_windows. rewrite Hstore, Htask.
    split; [subst a; unfold DraggableWindow.minimize, Taskbar.add_window;
            case_decide; reflexivity|].
    split; [subst a; unfold DraggableWindow.minimize, Taskbar.add_window;
            cbn [App.taskbar App.update_window App.set_window_store
                 App.set_selected_window];
            case_decide; reflexivity|].
    intros Hunsel. destruct Hnone as [_ ->]; [|reflexivity].
    intros w Hin.
    assert (Hw : WindowManager.windows a = WindowManager.windows app)
      by (subst a; unfold DraggableWindow.minimize, Taskbar.add_window;
          case_decide; reflexivity).
    rewrite Hw in Hin. specialize (Hunsel w Hin).
    unfold WindowManager.is_selected in *.
    replace (App.window_store a)
      with (alter (DW.set_minimized true) window (App.window_store app))
      by (subst a; unfold DraggableWindow.minimize, Taskbar.add_window;
          case_decide; reflexivity).
    rewrite list_lookup_alter. case_decide as Heq; [subst w|exact Hunsel].
    destruct (App.window_store app !! window); [exact Hunsel|reflexivity].
  - destruct (handle_mouse_key host K_w unicode app)
      as (app' & Hev & Hstore & Htask & Hdisp & Hperm & _).
    exists app'. split; [exact Hev|]. split; [exact Hperm|].
    split; [exact Hdisp|]. unfold minimized_windows.
    rewrite Hstore, Htask. split; reflexivity.
Qed.

Lemma X17_ctrl_w_witness :
  exists app1 app2,
    handle_events [(example_host 0, MOUSEBUTTONDOWN 1 (200, 200));
                   (example_host 0, MOUSEBUTTONUP 1 (200, 200))] main = Some app1
    /\ Application.handle_event (example_host 64) (KEYDOWN K_w "w") app1 = Some app2
    /\ App.selected_window app1 = Some 0%nat
    /\ minimized_windows app2 = [0%nat]
    /\ WindowManager.windows app2 ≡ₚ [0%nat].
Proof.
  assert (Hctrl : Z.land (get_mods (example_host 64)) KMOD_CTRL <> 0)
    by (vm_compute; discriminate).
  destruct (handle_events [(example_host 0, MOUSEBUTTONDOWN 1 (200, 200));
                           (example_host 0, MOUSEBUTTONUP 1 (200, 200))] main)
    as [app1|] eqn:H1; [|vm_compute in H1; discriminate].
  destruct (X17_ctrl_w (example_host 64) "w" app1 Hctrl)
    as (app2 & Hev & Hperm & _ & Hcase).
  exists app1, app2. split; [reflexivity|]. split; [exact Hev|].
  vm_compute in H1. injection H1 as <-.
  split; [reflexivity|]. split; [|exact Hperm].
  cbn [App.selected_window] in Hcase. destruct Hcase as (_ & -> & _). reflexivity.
Defined.

(** ** The window list *)

Lemma apply_op_wlist (self : wid) (op : WindowOp) (app : APP) :
  WindowManager.windows (apply_op self op app) = WindowManager.windows app.
Proof.
  destruct op; simpl.
  - unfold DraggableWindow.minimize, Taskbar.add_window. case_decide; reflexivity.
  - reflexivity.
  - unfold DraggableWindow.restore, Taskbar.remove_window. case_decide; reflexivity.
  - unfold DraggableWindow.toggle_maximize.
    destruct (_ !! _) as [w|]; [|reflexivity].
    destruct (DW.maximized w); [|reflexivity].
    unfold DraggableWindow.restore, Taskbar.remove_window. case_decide; reflexivity.
Qed.

Lemma window_handle_event_wlist (self : wid) (event : Event) (app : APP) :
  WindowManager.windows (fst (DraggableWindow.handle_event self event app)) = WindowManager.windows app.
Proof.
  destruct (handle_event_shape self event app) as [->|[[f ->]|[->| ->]]];
    try reflexivity; apply apply_op_wlist.
Qed.

Lemma bring_to_front_wlist (window : wid) (app : APP) :
  WindowManager.windows (WindowManager.bring_to_front window app)
  ≡ₚ WindowManager.windows app.
Proof.
  unfold WindowManager.bring_to_front. case_decide as Hin; [|reflexivity].
  change (remove_first window (WindowManager.windows app) ++ [window]
          ≡ₚ WindowManager.windows app).
  rewrite <- (remove_first_Permutation window (WindowManager.windows app) Hin) at 2.
  rewrite Permutation_app_comm. reflexivity.
Qed.

Lemma dispatch_wlist (event : Event) (todo : list wid) (app : APP) :
  WindowManager.windows (fst (WindowManager.dispatch event todo app))
  ≡ₚ WindowManager.windows app.
Proof.
  revert app. induction todo as [|window rest IH]; intros app; [reflexivity|].
  cbn [WindowManager.dispatch].
  pose proof (window_handle_event_wlist window event app) as H1.
  destruct (WindowManager.is_selected window _).
  - cbn [fst]. rewrite <- H1. apply (bring_to_front_wlist window).
  - specialize (IH (fst (DraggableWindow.handle_event window event app))).
    destruct (WindowManager.dispatch event rest _) as [app2 called].
    cbn [fst] in *. rewrite IH, H1. reflexivity.
Qed.

Lemma taskbar_click_wlist (pos : Z * Z) (ws : list wid) (idx : nat) (app : APP) :
  WindowManager.windows (Taskbar_click pos idx ws app) ≡ₚ WindowManager.windows app.
Proof.
  revert idx. induction ws as [|window rest IH]; intros idx; [reflexivity|].
  simpl. destruct (Rect.collidepoint _ pos); [|apply IH].
  rewrite bring_to_front_wlist.
  transitivity (WindowManager.windows (DraggableWindow.restore window app)).
  - unfold Taskbar.remove_window. case_decide; reflexivity.
  - pose proof (apply_op_wlist window Restore app) as H. simpl in H.
    rewrite H. reflexivity.
Qed.

Lemma drag_channel_wlist (dragging : bool) (slider : Rect.t) set (pos : Z * Z)
    (st st' : RGBPropertiesWindowObj.t * APP) :
  RGBPropertiesWindow.drag_channel dragging slider set pos st = Some st' ->
  WindowManager.windows (snd st') = WindowManager.windows (snd st).
Proof.
  unfold RGBPropertiesWindow.drag_channel. destruct dragging.
  - destruct (RGBPropertiesWindow.slider_value slider pos) as [v|]; simpl;
      [|discriminate].
    intros [= <-]. reflexivity.
  - intros [= <-]. reflexivity.
Qed.

Lemma popup_handle_event_wlist
    (host : Host) (p p' : Popup) (event : Event) (app app' : APP)
    (new_popup : option Popup) :
  Popup_handle_event host p event app = Some (p', app', new_popup) ->
  WindowManager.windows app' = WindowManager.windows app.
Proof.
  destruct p as [m|e|r| |]; simpl.
  - pose proof (main_menu_handle_event_shape host m event app) as H.
    cbv zeta in H.
    destruct (MainMenuWindow.handle_event host m event app) as [[m' a'] n'].
    cbn [fst snd] in H. intros [= _ <- _].
    destruct H as [[_ ->]|[H|(_ & -> & _)]]; try reflexivity.
    injection H as _ ->. reflexivity.
  - unfold EditablePopupWindow.handle_event.
    destruct event as [|key unicode| |button pos| | |];
      try (intros [= _ <- _]; reflexivity).
    + destruct (_ || _); [|intros [= _ <- _]; reflexivity].
      destruct (key =? K_RETURN).
      * destruct (negb _).
        -- destruct (EditablePopupWindowObj.editing_body e);
             intros [= _ <- _]; reflexivity.
        -- destruct (EditablePopupWindowObj.editing_title e);
             [intros [= _ <- _]; reflexivity|].
           destruct (EditablePopupWindowObj.editing_body e);
             intros [= _ <- _]; reflexivity.
      * destruct (key =? K_BACKSPACE); intros [= _ <- _]; reflexivity.
    + destruct (button =? 1); [|intros [= _ <- _]; reflexivity].
      destruct (Rect.collidepoint _ pos); [intros [= _ <- _]; reflexivity|].
      destruct (Rect.collidepoint _ pos); intros [= _ <- _]; reflexivity.
  - destruct (RGBPropertiesWindow.handle_event r event app) as [[r' a']|] eqn:H;
      simpl; [|discriminate].
    intros [= _ <- _]. revert H. unfold RGBPropertiesWindow.handle_event.
    destruct event as [| | |button pos|button pos|pos|];
      try (intros [= _ <-]; reflexivity).
    + destruct (button =? 1); intros [= _ <-]; reflexivity.
    + destruct (button =? 1); intros [= _ <-]; reflexivity.
    + destruct (RGBPropertiesWindow.drag_channel _ _ _ _ _) as [st1|] eqn:H1;
        simpl; [|discriminate].
      destruct (RGBPropertiesWindow.drag_channel _ _ _ _ st1) as [st2|] eqn:H2;
        simpl; [|discriminate].
      intros H3.
      apply drag_channel_wlist in H1, H2, H3. simpl in *. congruence.
  - intros [= _ <- _]. reflexivity.
  - intros [= _ <- _]. reflexivity.
Qed.

Lemma menu_handle_event_wlist
    (host : Host) (current_menu : Popup) (event : Event) (app app' : APP) :
  Application.menu_handle_event host current_menu event app = Some app' ->
  WindowManager.windows app' = WindowManager.windows app.
Proof.
  unfold Application.menu_handle_event.
  destruct (Popup_handle_event host current_menu event app)
    as [[[menu a'] new_popup]|] eqn:H; simpl; [|discriminate].
  intros [= <-]. apply popup_handle_event_wlist in H. rewrite <- H. reflexivity.
Qed.

Lemma handle_mouse_wlist (host : Host) (event : Event) (app app' : APP) :
  Application.handle_mouse host event app = Some app' ->
  WindowManager.windows app' ≡ₚ WindowManager.windows app.
Proof.
  assert (Hrest :
            (match last (App.menu_stack app) with
             | Some current_menu =>
               Application.menu_handle_event host current_menu event app
             | None => Some app
             end ≫= (fun a => Some (WindowManager.handle_event event a)))
            = Some app' ->
            WindowManager.windows app' ≡ₚ WindowManager.windows app).
  { destruct (last (App.menu_stack app)) as [current_menu|].
    - destruct (Application.menu_handle_event _ _ _ _) as [a|] eqn:H; simpl;
        [|discriminate].
      intros [= <-]. apply menu_handle_event_wlist in H. rewrite <- H.
      apply dispatch_wlist.
    - simpl. intros [= <-]. apply dispatch_wlist. }
  destruct event; try exact Hrest.
  unfold Application.handle_mouse.
  destruct (button =? 1) eqn:Hb.
  - destruct (Rect.collidepoint _ pos).
    { intros H. injection H as <-. simpl. rewrite Hb. apply taskbar_click_wlist. }
    destruct (last (App.menu_stack app)) as [current_menu|].
    + destruct (Rect.collidepoint _ pos);
        [intros H; rewrite (menu_handle_event_wlist _ _ _ _ _ H); reflexivity|].
      intros [= <-]. reflexivity.
    + intros [= <-]. apply dispatch_wlist.
  - destruct (button =? 3); [|intros [= <-]; reflexivity].
    destruct (last (App.menu_stack app)) as [current_menu|].
    + destruct (Rect.collidepoint _ pos); intros [= <-]; reflexivity.
    + destruct (Application.window_under _ _ _); intros [= <-]; reflexivity.
Qed.

Lemma rescale_windows_wlist (scale_x scale_y : spec_float) (ws : list wid)
    (app app' : APP) :
  Application.rescale_windows scale_x scale_y ws app = Some app' ->
  WindowManager.windows app' = WindowManager.windows app.
Proof.
  intros H. apply rescale_windows_spec in H. destruct H as (H & _).
  rewrite H. reflexivity.
Qed.

Lemma draw_wlist (app app' : APP) :
  Application.draw app = Some app' ->
  WindowManager.windows app' = WindowManager.windows app.
Proof. intros H. apply draw_frame in H. rewrite <- H. reflexivity. Qed.

Lemma handle_global_wlist (host : Host) (event : Event) (app app' : APP) :
  Application.handle_global host event app = Some app' ->
  WindowManager.windows app' = WindowManager.windows app
  \/ (WindowManager.windows app'
      = WindowManager.windows app ++ [length (App.window_store app)]
      /\ Z.land (get_mods host) KMOD_CTRL <> 0
      /\ exists unicode, event = KEYDOWN K_n unicode).
Proof.
  unfold Application.handle_global.
  destruct event as [|key unicode|w h| | | |];
    try (intros [= <-]; left; reflexivity).
  - destruct (negb _) eqn:Hctrl; [|intros [= <-]; left; reflexivity].
    unfold Application.on_ctrl_key.
    destruct (key =? K_n) eqn:Hn.
    { destruct (randint (entropy_x host) _ _) as [new_x|];
        cbn [mbind option_bind]; [|discriminate].
      destruct (randint (entropy_y host) _ _) as [new_y|];
        cbn [mbind option_bind]; [|discriminate].
      intros [= <-]. right. split; [reflexivity|].
      apply negb_true_iff, Z.eqb_neq in Hctrl. split; [exact Hctrl|].
      apply Z.eqb_eq in Hn. subst key. exists unicode. reflexivity. }
    destruct (key =? K_w).
    { destruct (App.selected_window app) as [window|]; intros [= <-];
        left; [|reflexivity].
      exact (apply_op_wlist window Minimize app). }
    destruct (key =? K_f); intros [= <-]; left; [|reflexivity].
    destruct (App.is_fullscreen app); reflexivity.
  - unfold Application.on_videoresize. cbv zeta.
    destruct (PyFloat.truediv _ (App.prev_screen_width _)) as [scale_x|];
      cbn [mbind option_bind]; [|discriminate].
    destruct (PyFloat.truediv _ (App.prev_screen_height _)) as [scale_y|];
      cbn [mbind option_bind]; [|discriminate].
    destruct (Application.rescale_windows _ _ _ _) as [a|] eqn:H;
      cbn [mbind option_bind]; [|discriminate].
    intros [= <-]. apply rescale_windows_wlist in H. left.
    change (WindowManager.windows a = WindowManager.windows app).
    rewrite H. reflexivity.
Qed.

Lemma application_handle_event_wlist
    (host : Host) (event : Event) (app app' : APP) :
  Application.handle_event host event app = Some app' ->
  WindowManager.windows app' ≡ₚ WindowManager.windows app
  \/ (WindowManager.windows app'
      ≡ₚ WindowManager.windows app ++ [length (App.window_store app)]
      /\ Z.land (get_mods host) KMOD_CTRL <> 0
      /\ exists unicode, event = KEYDOWN K_n unicode).
Proof.
  unfold Application.handle_event.
  destruct (Application.handle_global host event app) as [a|] eqn:Hg;
    cbn [mbind option_bind]; [|discriminate].
  intros Hm. apply handle_mouse_wlist in Hm.
  apply handle_global_wlist in Hg. destruct Hg as [Hg|(Hg & Hrest)].
  - left. rewrite Hm, Hg. reflexivity.
  - right. split; [rewrite Hm, Hg; reflexivity|exact Hrest].
Qed.

Lemma handle_events_wlist (inputs : list (Host * Event)) (app app' : APP) :
  handle_events inputs app = Some app' ->
  exists new, WindowManager.windows app' ≡ₚ WindowManager.windows app ++ new.
Proof.
  revert app. induction inputs as [|[host event] inputs IH]; intros app.
  - intros [= <-]. exists []. rewrite app_nil_r. reflexivity.
  - rewrite handle_events_cons.
    destruct (Application.handle_event host event app) as [a|] eqn:H;
      cbn [mbind option_bind]; [|discriminate].
    intros Hrest. apply IH in Hrest. destruct Hrest as [new Hnew].
    apply application_handle_event_wlist in H. destruct H as [H|(H & _)].
    + exists new. rewrite Hnew, H. reflexivity.
    + exists (length (App.window_store app) :: new).
      rewrite Hnew, H, <- app_assoc. reflexivity.
Qed.

Lemma run_wlist (frames : list (list (Host * Event))) (app app' : APP) :
  Application.run frames app = Some app' ->
  exists new, WindowManager.windows app' ≡ₚ WindowManager.windows app ++ new.
Proof.
  revert app. induction frames as [|events frames IH]; intros app; simpl.
  - intros [= <-]. exists []. rewrite app_nil_r. reflexivity.
  - destruct (App.running app);
      [|intros [= <-]; exists []; rewrite app_nil_r; reflexivity].
    rewrite frame_handle_events.
    destruct (handle_events events app) as [a|] eqn:H; cbn [mbind option_bind];
      [|discriminate].
    destruct (Application.draw a) as [drawn|] eqn:Hdraw; [|discriminate].
    intros Hrun. apply IH in Hrun. destruct Hrun as [new2 H2].
    apply handle_events_wlist in H. destruct H as [new1 H1].
    exists (new1 ++ new2).
    rewrite H2, (draw_wlist a drawn Hdraw), H1, <- app_assoc. reflexivity.
Qed.

(** X18: no event ever takes a window out of the window manager.  One
    call of [handle_event] only reorders the window list, except Ctrl+N,
    which adds one window to it; over any run the final list is the
    initial one, reordered, plus the windows created on the way, so every
    window stays in it. *)
Theorem X18_windows_are_never_removed (host : Host) (event : Event) (app app' : APP) :
  Application.handle_event host event app = Some app' ->
  (WindowManager.windows app' ≡ₚ WindowManager.windows app
   \/ (WindowManager.windows app'
       ≡ₚ WindowManager.windows app ++ [length (App.window_store app)]
       /\ Z.land (get_mods host) KMOD_CTRL <> 0
       /\ exists unicode, event = KEYDOWN K_n unicode))
  /\ (forall window, window ∈ WindowManager.windows app ->
                     window ∈ WindowManager.windows app')
  /\ (forall frames final,
         Application.run frames app = Some final ->
         exists new,
           WindowManager.windows final ≡ₚ WindowManager.windows app ++ new).
Proof.
  intros H. apply application_handle_event_wlist in H.
  split; [exact H|]. split.
  - intros window Hin. destruct H as [H|(H & _)]; rewrite H; [exact Hin|].
    apply elem_of_app. left. exact Hin.
  - intros frames final. apply run_wlist.
Qed.

Lemma X18_windows_are_never_removed_witness :
  exists app',
    Application.handle_event (example_host 64) (KEYDOWN K_w "w") main = Some app'
    /\ (0%nat ∈ WindowManager.windows app').
Proof.
  destruct (Application.handle_event (example_host 64) (KEYDOWN K_w "w") main)
    as [app'|] eqn:H; [|vm_compute in H; discriminate].
  exists app'. split; [reflexivity|].
  destruct (X18_windows_are_never_removed _ _ _ _ H) as (_ & Hkept & _).
  apply Hkept. left.
Defined.

(** ** Right click *)

Lemma window_under_none (pos : Z * Z) (ws : list wid) (app : APP) :
  (forall w win, w ∈ ws -> App.window_store app !! w = Some win ->
                 Rect.collidepoint (DW.rect win) pos = false) ->
  Application.window_under pos ws app = None.
Proof.
  induction ws as [|window rest IH]; intros Hout; [reflexivity|].
  cbn [Application.window_under].
  assert (Hrest : Application.window_under pos rest app = None)
    by (apply IH; intros w win Hin; apply Hout; right; exact Hin).
  destruct (App.window_store app !! window) as [win|] eqn:Hw; [|exact Hrest].
  rewrite (Hout window win) by (first [left|exact Hw]). exact Hrest.
Qed.

Lemma window_under_first (pos : Z * Z) (before after : list wid) (window : wid)
    (win : DW.t) (app : APP) :
  (forall w' win', w' ∈ before -> App.window_store app !! w' = Some win' ->
                   Rect.collidepoint (DW.rect win') pos = false) ->
  App.window_store app !! window = Some win ->
  Rect.collidepoint (DW.rect win) pos = true ->
  Application.window_under pos (before ++ window :: after) app = Some window.
Proof.
  intros Hout Hw Hhit. induction before as [|w0 before IH].
  - cbn [List.app Application.window_under]. rewrite Hw, Hhit. reflexivity.
  - cbn [List.app Application.window_under].
    assert (Hrest : Application.window_under pos (before ++ window :: after) app
                    = Some window)
      by (apply IH; intros w' win' Hin; apply Hout; right; exact Hin).
    destruct (App.window_store app !! w0) as [win0|] eqn:Hw0; [|exact Hrest].
    rewrite (Hout w0 win0) by (first [left|exact Hw0]). exact Hrest.
Qed.

(** X19: a right click with no popup open.  If the cursor is on no
    window rectangle nothing changes; otherwise the main menu opens at
    the cursor for the topmost window under it, the last one in the
    window list whose rectangle contains the point.  The test looks at
    the rectangle only: a minimized window, which is not drawn, still
    gets the menu. *)
Theorem X19_right_click (host : Host) (pos : Z * Z) (app : APP) :
  App.menu_stack app = [] ->
  ((forall w win, w ∈ WindowManager.windows app ->
                  App.window_store app !! w = Some win ->
                  Rect.collidepoint (DW.rect win) pos = false) ->
   Application.handle_event host (MOUSEBUTTONDOWN 3 pos) app = Some app)
  /\ (forall below window above win,
         WindowManager.windows app = below ++ window :: above ->
         App.window_store app !! window = Some win ->
         Rect.collidepoint (DW.rect win) pos = true ->
         (forall w' win', w' ∈ above -> App.window_store app !! w' = Some win' ->
                          Rect.collidepoint (DW.rect win') pos = false) ->
         Application.handle_event host (MOUSEBUTTONDOWN 3 pos) app
         = Some (App.set_menu_stack
                   [MainMenu (MainMenuWindowObj.mk window
                                (Rect.mk (fst pos) (snd pos) 200 0) 0)]
                   app)).
Proof.
  intros Hstack.
  assert (Hev : Application.handle_event host (MOUSEBUTTONDOWN 3 pos) app
                = match Application.window_under pos
                          (rev (WindowManager.windows app)) app with
                  | Some window =>
                    Some (App.set_menu_stack
                            [MainMenu (MainMenuWindowObj.init (fst pos) (snd pos) window)]
                            app)
                  | None => Some app
                  end).
  { unfold Application.handle_event, Application.handle_global.
    cbn [mbind option_bind]. unfold Application.handle_mouse.
    change (3 =? 1) with false. change (3 =? 3) with true. cbv iota.
    rewrite Hstack. reflexivity. }
  rewrite Hev. split.
  - intros Hout. rewrite window_under_none; [reflexivity|].
    intros w win Hin. apply Hout.
    apply list_elem_of_In, in_rev, list_elem_of_In in Hin. exact Hin.
  - intros below window above win Hws Hw Hhit Hout.
    rewrite Hws, rev_app_distr. cbn [rev]. rewrite <- app_assoc. cbn [List.app].
    rewrite (window_under_first pos (rev above) (rev below) window win app);
      [reflexivity| |exact Hw|exact Hhit].
    intros w' win' Hin. apply Hout.
    apply list_elem_of_In, in_rev, list_elem_of_In in Hin. exact Hin.
Qed.

Lemma X19_right_click_witness :
  DW.minimized <$> App.window_store (DraggableWindow.minimize 0%nat main) !! 0%nat
  = Some true
  /\ Application.handle_event (example_host 0) (MOUSEBUTTONDOWN 3 (200, 200))
       (DraggableWindow.minimize 0%nat main)
     = Some (App.set_menu_stack
               [MainMenu (MainMenuWindowObj.mk 0%nat (Rect.mk 200 200 200 0) 0)]
               (DraggableWindow.minimize 0%nat main)).
Proof.
  split; [reflexivity|].
  destruct (X19_right_click (example_host 0) (200, 200)
              (DraggableWindow.minimize 0%nat main) eq_refl) as [_ Hopen].
  eapply (Hopen [] 0%nat []); [reflexivity|reflexivity|reflexivity|].
  intros w' win' Hin. inversion Hin.
Defined.

(** ** The rows of the main menu *)

Lemma option_rects_disjoint (self : MainMenuWindowObj.t) (i j : nat) (pos : Z * Z) :
  i <> j ->
  Rect.collidepoint (MainMenuWindow.option_rect self i) pos = true ->
  Rect.collidepoint (MainMenuWindow.option_rect self j) pos = false.
Proof.
  intros Hne. unfold Rect.collidepoint, MainMenuWindow.option_rect.
  cbn [Rect.x Rect.y Rect.width Rect.height].
  rewrite !andb_true_iff, !Z.leb_le, !Z.ltb_lt. intros [[_ H1] H2].
  apply andb_false_iff.
  destruct (Z.ltb_spec (snd pos)
              (Rect.y (MainMenuWindowObj.rect self) + 10 + Z.of_nat j * 30 + 25));
    [|right; reflexivity].
  left. apply andb_false_iff. right. apply Z.leb_gt. lia.
Qed.

Lemma clicked_option_hit (self : MainMenuWindowObj.t) (pos : Z * Z)
    (options : list MenuOption) (start i : nat) (option : MenuOption) :
  options !! i = Some option ->
  Rect.collidepoint (MainMenuWindow.option_rect self (start + i)) pos = true ->
  MainMenuWindow.clicked_option self pos start options = Some option.
Proof.
  revert start i. induction options as [|first rest IH]; intros start i Hi Hhit.
  - inversion Hi.
  - cbn [MainMenuWindow.clicked_option]. destruct i as [|i].
    + rewrite Nat.add_0_r in Hhit. rewrite Hhit. injection Hi as ->. reflexivity.
    + rewrite (option_rects_disjoint self (start + S i) start pos) by (first [lia|exact Hhit]).
      apply (IH (S start) i); [exact Hi|].
      replace (S start + i)%nat with (start + S i)%nat by lia. exact Hhit.
Qed.

(** X20: a left click on row [i] of the main menu acts on the [i]-th
    visible option, and what it does is decided by the name of the option
    alone: "RGB" opens the colour sliders for the target window, "Help"
    the help popup, "New Option" creates an option and opens nothing, and
    any other name opens the editor on that very option.  A dynamic
    option whose name is one of the three static names is therefore
    treated as the static entry. *)
Theorem X20_menu_click (host : Host) (self : MainMenuWindowObj.t) (app : APP)
    (i : nat) (option : MenuOption) (pos : Z * Z) :
  MainMenuWindow.get_visible_options self app !! i = Some option ->
  Rect.collidepoint (MainMenuWindow.option_rect self i) pos = true ->
  let name := MainMenuWindow.option_name option app in
  let result := MainMenuWindow.handle_event host self (MOUSEBUTTONDOWN 1 pos) app in
  (name = "RGB"%string ->
   result = (self, app,
             Some (RGBProperties
                     (RGBPropertiesWindow.init host (fst pos) (snd pos)
                        (MainMenuWindowObj.target_window self)))))
  /\ (name = "Help"%string ->
      result = (self, app, Some (Help (HelpWindow.init host (fst pos) (snd pos)))))
  /\ (name = "New Option"%string ->
      result = (MainMenuWindow.create_new_option self app, None))
  /\ (name <> "RGB"%string -> name <> "Help"%string -> name <> "New Option"%string ->
      forall o, option = Dynamic o ->
        result = (self, app,
                  Some (EditablePopup
                          (EditablePopupWindow.init (fst pos) (snd pos)
                             (MainMenuWindowObj.target_window self) o app)))).
Proof.
  intros Hi Hhit name result. subst result.
  unfold MainMenuWindow.handle_event. change (1 =? 1) with true. cbv iota.
  rewrite (clicked_option_hit self pos _ 0 i option Hi Hhit). cbv zeta.
  fold name. split; [|split; [|split]].
  - intros ->. reflexivity.
  - intros ->. reflexivity.
  - intros ->. cbn [String.eqb Ascii.eqb Bool.eqb].
    destruct (MainMenuWindow.create_new_option self app). reflexivity.
  - intros H1 H2 H3 o ->.
    apply String.eqb_neq in H1, H2, H3. rewrite H1, H2, H3. reflexivity.
Qed.

Lemma X20_menu_click_witness :
  MainMenuWindow.handle_event (example_host 0) (MainMenuWindowObj.init 150 150 0%nat)
    (MOUSEBUTTONDOWN 1 (170, 255))
    (App.update_option 0%nat (OptionRecord.set_name "Help") main_with_option)
  = (MainMenuWindowObj.init 150 150 0%nat,
     App.update_option 0%nat (OptionRecord.set_name "Help") main_with_option,
     Some (Help (HelpWindow.init (example_host 0) 170 255))).
Proof.
  apply (X20_menu_click (example_host 0) (MainMenuWindowObj.init 150 150 0%nat)
           (App.update_option 0%nat (OptionRecord.set_name "Help") main_with_option)
           3%nat (Dynamic 0%nat) (170, 255)); reflexivity.
Defined.

(** X21: the geometry [draw] gives the main menu agrees with the one
    [handle_event] tests.  A menu that has not been drawn yet has height 0
    and contains no point.  After [draw] every row of a visible option
    lies inside the menu rectangle, and on a menu with several pages so
    do the two page buttons, which overlap no row. *)
Theorem X21_menu_layout (self : MainMenuWindowObj.t) (app : APP) (pos : Z * Z) :
  Rect.width (MainMenuWindowObj.rect self) = 200 ->
  let drawn := MainMenuWindow.draw self app in
  (forall x y target,
      Rect.collidepoint (MainMenuWindowObj.rect (MainMenuWindowObj.init x y target)) pos
      = false)
  /\ MainMenuWindow.get_visible_options drawn app
     = MainMenuWindow.get_visible_options self app
  /\ (forall i,
         (i < length (MainMenuWindow.get_visible_options self app))%nat ->
         Rect.collidepoint (MainMenuWindow.option_rect drawn i) pos = true ->
         Rect.collidepoint (MainMenuWindowObj.rect drawn) pos = true)
  /\ (MainMenuWindow.has_multiple_pages self app = true ->
      Rect.collidepoint (MainMenuWindow.prev_button_rect drawn) pos = true
      \/ Rect.collidepoint (MainMenuWindow.next_button_rect drawn) pos = true ->
      Rect.collidepoint (MainMenuWindowObj.rect drawn) pos = true
      /\ MainMenuWindow.clicked_option drawn pos 0
           (MainMenuWindow.get_visible_options drawn app) = None).
Proof.
  intros Hwidth drawn.
  split.
  { intros x y target. unfold Rect.collidepoint, MainMenuWindowObj.init.
    cbn [MainMenuWindowObj.rect Rect.x Rect.y Rect.width Rect.height].
    destruct (Z.leb_spec y (snd pos)) as [Hle|Hgt].
    - apply andb_false_iff. right. apply Z.ltb_ge. lia.
    - rewrite andb_false_r. reflexivity. }
  split; [reflexivity|].
  assert (Hlen : (length (MainMenuWindow.get_visible_options self app) <= 8)%nat).
  { unfold MainMenuWindow.get_visible_options. rewrite length_app, !length_map.
    pose proof (py_slice_length (MainMenuWindow.dynamic_options self app)
                  (MainMenuWindowObj.current_page self * OPTIONS_PER_PAGE)) as H.
    unfold OPTIONS_PER_PAGE in *.
    cbn [length MainMenuWindowObj.static_options]. lia. }
  split.
  - intros i Hi. subst drawn. unfold MainMenuWindow.draw. cbv zeta.
    unfold Rect.collidepoint, MainMenuWindow.option_rect.
    cbn [MainMenuWindowObj.rect MainMenuWindowObj.set_rect Rect.set_height
         Rect.x Rect.y Rect.width Rect.height].
    rewrite !andb_true_iff, !Z.leb_le, !Z.ltb_lt. intros [[[H1 H2] H3] H4].
    repeat split; try lia.
    destruct (MainMenuWindow.has_multiple_pages self app);
      cbn [MainMenuWindowObj.static_options length]; unfold OPTIONS_PER_PAGE; lia.
  - intros Hmulti Hhit. split.
    + subst drawn. revert Hhit. unfold MainMenuWindow.draw. cbv zeta.
      rewrite Hmulti.
      unfold Rect.collidepoint, MainMenuWindow.prev_button_rect,
        MainMenuWindow.next_button_rect.
      cbn [MainMenuWindowObj.rect MainMenuWindowObj.set_rect Rect.set_height
           Rect.x Rect.y Rect.width Rect.height
           MainMenuWindowObj.static_options length].
      unfold OPTIONS_PER_PAGE.
      rewrite !andb_true_iff, !Z.leb_le, !Z.ltb_lt. lia.
    + apply clicked_option_footer.
      subst drawn. revert Hhit. unfold MainMenuWindow.draw. cbv zeta. rewrite Hmulti.
      unfold Rect.collidepoint, MainMenuWindow.prev_button_rect,
        MainMenuWindow.next_button_rect.
      cbn [MainMenuWindowObj.rect MainMenuWindowObj.set_rect Rect.set_height
           Rect.x Rect.y Rect.width Rect.height
           MainMenuWindowObj.static_options length].
      unfold OPTIONS_PER_PAGE.
      rewrite !andb_true_iff, !Z.leb_le, !Z.ltb_lt. lia.
Qed.

Lemma X21_menu_layout_witness :
  Rect.collidepoint
    (MainMenuWindowObj.rect
       (MainMenuWindow.draw (MainMenuWindowObj.init 150 150 0%nat) main))
    (170, 225) = true.
Proof.
  destruct (X21_menu_layout (MainMenuWindowObj.init 150 150 0%nat) main (170, 225)
              eq_refl) as (_ & _ & Hrows & _).
  apply (Hrows 2%nat); [vm_compute; lia|reflexivity].
Defined.

(** ** The title-bar buttons *)

Lemma update_window_idem (self : wid) (f : DW.t -> DW.t) (app : APP) :
  (forall x, f (f x) = f x) ->
  App.update_window self f (App.update_window self f app)
  = App.update_window self f app.
Proof.
  intros Hidem. unfold App.update_window.
  destruct app as [? ? ? ? ? ? ? ? ? ? store ?].
  unfold App.set_window_store. cbn [App.window_store]. f_equal.
  apply list_eq. intros i. rewrite !list_lookup_alter.
  destruct (decide (self = i)) as [->|Hne].
  - rewrite ?decide_True by reflexivity.
    destruct (store !! i); [|reflexivity]. cbn [fmap option_fmap option_map].
    rewrite Hidem. reflexivity.
  - rewrite ?decide_False by exact Hne. reflexivity.
Qed.

(** X22: [draw] on a window that is not minimized.  It raises when the
    width or the height of the window is negative.  Otherwise it puts the
    two 20x20 buttons 5 pixels below the top edge of the window, the
    minimize button 50 and the maximize button 25 pixels left of its
    right edge, and drawing again changes nothing.  The two buttons are
    disjoint and, on a window at least 50 wide and 25 high, inside the
    window.  A left press on the minimize button minimizes the window and
    one on the maximize button toggles its maximized state. *)
Theorem X22_title_bar_buttons (self : wid) (app : APP) (w : DW.t) (pos : Z * Z) :
  App.window_store app !! self = Some w ->
  DW.minimized w = false ->
  Rect.width (DW.minimize_button w) = 20 ->
  Rect.height (DW.minimize_button w) = 20 ->
  Rect.width (DW.maximize_button w) = 20 ->
  Rect.height (DW.maximize_button w) = 20 ->
  let r := DW.rect w in
  (Rect.width r < 0 \/ Rect.height r < 0 -> DraggableWindow.draw self app = None)
  /\ (0 <= Rect.width r -> 0 <= Rect.height r ->
      exists app1 w1,
        DraggableWindow.draw self app = Some app1
        /\ App.window_store app1 !! self = Some w1
        /\ DW.rect w1 = r
        /\ DW.minimize_button w1
           = Rect.mk (Rect.x r + Rect.width r - 50) (Rect.y r + 5) 20 20
        /\ DW.maximize_button w1
           = Rect.mk (Rect.x r + Rect.width r - 25) (Rect.y r + 5) 20 20
        /\ DraggableWindow.draw self app1 = Some app1
        /\ (Rect.collidepoint (DW.minimize_button w1) pos = true ->
            Rect.collidepoint (DW.maximize_button w1) pos = false
            /\ DraggableWindow.handle_event self (MOUSEBUTTONDOWN 1 pos) app1
               = (DraggableWindow.minimize self app1, Some "minimized"%string))
        /\ (Rect.collidepoint (DW.maximize_button w1) pos = true ->
            DraggableWindow.handle_event self (MOUSEBUTTONDOWN 1 pos) app1
            = (DraggableWindow.toggle_maximize self app1, Some "maximized"%string))
        /\ (50 <= Rect.width r -> 25 <= Rect.height r ->
            Rect.collidepoint (DW.minimize_button w1) pos = true
            \/ Rect.collidepoint (DW.maximize_button w1) pos = true ->
            Rect.collidepoint (DW.rect w1) pos = true)).
Proof.
  intros Hw Hmin Hw1 Hh1 Hw2 Hh2 r.
  split.
  { intros Hneg. unfold DraggableWindow.draw. rewrite Hw, Hmin. fold r.
    replace ((Rect.width r <? 0) || (Rect.height r <? 0)) with true; [reflexivity|].
    symmetry. apply orb_true_iff. rewrite !Z.ltb_lt. exact Hneg. }
  intros Hwidth Hheight.
  set (f := DraggableWindow.place_buttons).
  assert (Hsize : forall x : DW.t,
             (Rect.width (DW.rect x) <? 0) || (Rect.height (DW.rect x) <? 0) = false ->
             forall a, App.window_store a !! self = Some x -> DW.minimized x = false ->
                       DraggableWindow.draw self a = Some (App.update_window self f a)).
  { intros x Hx a Ha Hm. unfold DraggableWindow.draw. rewrite Ha, Hm, Hx. reflexivity. }
  assert (Hpos : (Rect.width r <? 0) || (Rect.height r <? 0) = false).
  { apply orb_false_iff. rewrite !Z.ltb_ge. split; assumption. }
  assert (Hidem : forall x, f (f x) = f x).
  { intros x. unfold f, DraggableWindow.place_buttons.
    destruct x as [xr ? xm ? ? ? ? ? ? ? ? [] []]. reflexivity. }
  set (app1 := App.update_window self f app).
  exists app1, (f w).
  split; [exact (Hsize w Hpos app Hw Hmin)|].
  assert (Hstore : App.window_store app1 !! self = Some (f w))
    by (apply window_store_update_eq, Hw).
  split; [exact Hstore|].
  assert (Hf : f w = DW.set_maximize_button
                       (Rect.mk (Rect.x r + Rect.width r - 25) (Rect.y r + 5) 20 20)
                       (DW.set_minimize_button
                          (Rect.mk (Rect.x r + Rect.width r - 50) (Rect.y r + 5) 20 20)
                          w)).
  { unfold f, DraggableWindow.place_buttons. subst r.
    destruct w as [wr ? ? ? ? ? ? ? ? ? ? [bx1 by1 bw1 bh1] [bx2 by2 bw2 bh2]].
    cbn in Hw1, Hh1, Hw2, Hh2. subst. cbn. unfold DW.button_width, Rect.right.
    repeat f_equal; lia. }
  split; [rewrite Hf; reflexivity|].
  split; [rewrite Hf; reflexivity|].
  split; [rewrite Hf; reflexivity|].
  assert (Hmin1 : DW.minimized (f w) = false) by (rewrite Hf; exact Hmin).
  split.
  { rewrite (Hsize (f w)); [|rewrite Hf; exact Hpos|exact Hstore|exact Hmin1].
    f_equal. apply update_window_idem, Hidem. }
  split; [|split].
  - intros Hhit. split.
    + revert Hhit. rewrite Hf. unfold Rect.collidepoint.
      cbn [DW.minimize_button DW.maximize_button DW.set_minimize_button
           DW.set_maximize_button Rect.x Rect.y Rect.width Rect.height].
      rewrite !andb_true_iff, !Z.leb_le, !Z.ltb_lt. intros [[[H1 H2] H3] H4].
      apply andb_false_iff. left. apply andb_false_iff. left.
      apply andb_false_iff. left. apply Z.leb_gt. lia.
    + unfold DraggableWindow.handle_event. rewrite Hstore, Hmin1.
      change (1 =? 1) with true. cbv iota. rewrite Hhit. reflexivity.
  - intros Hhit.
    assert (Hmiss : Rect.collidepoint (DW.minimize_button (f w)) pos = false).
    { revert Hhit. rewrite Hf. unfold Rect.collidepoint.
      cbn [DW.minimize_button DW.maximize_button DW.set_minimize_button
           DW.set_maximize_button Rect.x Rect.y Rect.width Rect.height].
      rewrite !andb_true_iff, !Z.leb_le, !Z.ltb_lt. intros [[[H1 H2] H3] H4].
      apply andb_false_iff. left. apply andb_false_iff. left.
      apply andb_false_iff. right. apply Z.ltb_ge. lia. }
    unfold DraggableWindow.handle_event. rewrite Hstore, Hmin1.
    change (1 =? 1) with true. cbv iota. rewrite Hmiss, Hhit. reflexivity.
  - intros Hwide Hhigh. rewrite Hf. unfold Rect.collidepoint.
    cbn [DW.minimize_button DW.maximize_button DW.set_minimize_button
         DW.set_maximize_button DW.rect Rect.x Rect.y Rect.width Rect.height].
    fold r. rewrite !andb_true_iff, !Z.leb_le, !Z.ltb_lt. lia.
Qed.

Lemma X22_title_bar_buttons_witness :
  (exists app1,
      DraggableWindow.draw 0%nat main = Some app1
      /\ DW.minimize_button <$> App.window_store app1 !! 0%nat
         = Some (Rect.mk 350 105 20 20)
      /\ DraggableWindow.handle_event 0%nat (MOUSEBUTTONDOWN 1 (355, 110)) app1
         = (DraggableWindow.minimize 0%nat app1, Some "minimized"%string))
  /\ DraggableWindow.draw 0%nat
       (App.update_window 0%nat (DW.set_rect (Rect.mk 0 0 150 (-10))) main) = None.
Proof.
  split.
  - destruct (X22_title_bar_buttons 0%nat main (DW.init 100 100 300 200 "Main Window")
                (355, 110) eq_refl eq_refl eq_refl eq_refl eq_refl eq_refl)
      as [_ Hdraw].
    destruct Hdraw as (app1 & w1 & Hsome & Hw1 & _ & Hbutton & _ & _ & Hmin & _);
      [vm_compute; discriminate|vm_compute; discriminate|].
    exists app1. split; [exact Hsome|]. rewrite Hw1. cbn [fmap option_fmap option_map].
    split; [rewrite Hbutton; reflexivity|].
    apply Hmin. rewrite Hbutton. reflexivity.
  - destruct (X22_title_bar_buttons 0%nat
                (App.update_window 0%nat (DW.set_rect (Rect.mk 0 0 150 (-10))) main)
                (DW.set_rect (Rect.mk 0 0 150 (-10))
                   (DW.init 100 100 300 200 "Main Window"))
                (0, 0) eq_refl eq_refl eq_refl eq_refl eq_refl eq_refl)
      as [Hraise _].
    apply Hraise. right. vm_compute. reflexivity.
Defined.

(** ** Popups sized from their text *)

Lemma calculate_popup_size_fold (host : Host) (text_lines : list string)
    (max_width total_height : Z) :
  let result :=
    fold_left
      (fun '(max_width, total_height) line =>
         let '(w, h) := font_size host line in
         (if max_width <? w then w else max_width, total_height + (h + 5)))
      text_lines (max_width, total_height) in
  snd result
  = total_height + foldr Z.add 0 (map (fun line => snd (font_size host line) + 5) text_lines)
  /\ max_width <= fst result
  /\ (forall line, line ∈ text_lines -> fst (font_size host line) <= fst result)
  /\ (fst result = max_width
      \/ exists line, line ∈ text_lines /\ fst result = fst (font_size host line)).
Proof.
  cbv zeta. revert max_width total_height.
  induction text_lines as [|line rest IH]; intros max_width total_height.
  - cbn. split; [lia|]. split; [lia|]. split; [|left; reflexivity].
    intros line Hin. inversion Hin.
  - cbn [fold_left map foldr].
    destruct (font_size host line) as [w h] eqn:Hsize. cbn [fst snd].
    specialize (IH (if max_width <? w then w else max_width) (total_height + (h + 5))).
    destruct IH as (Hh & Hmax & Hfit & Hwho).
    assert (Hstep : max_width <= (if max_width <? w then w else max_width)
                    /\ w <= (if max_width <? w then w else max_width))
      by (destruct (Z.ltb_spec max_width w); lia).
    split; [rewrite Hh; lia|]. split; [lia|]. split.
    + intros l Hin. apply elem_of_cons in Hin. destruct Hin as [->|Hin].
      * rewrite Hsize. cbn [fst]. lia.
      * apply Hfit, Hin.
    + destruct Hwho as [Hwho|(l & Hin & Hwho)].
      * destruct (Z.ltb_spec max_width w); [|left; exact Hwho].
        right. exists line. split; [left|]. rewrite Hsize. exact Hwho.
      * right. exists l. split; [right; exact Hin|exact Hwho].
Qed.

(** X23: the size [calculate_popup_size] gives a popup.  The height is
    twice the padding plus, for each line, the height of the line and 5
    pixels; the width is twice the padding plus the width of the widest
    line (0 when there is no line, or when no line has a positive width),
    so every line fits between the paddings.  The popup of the colour
    sliders is never narrower than 200 pixels. *)
Theorem X23_popup_size (host : Host) (text_lines : list string) (padding : Z) :
  let size := calculate_popup_size host text_lines padding in
  snd size
  = padding * 2
    + foldr Z.add 0 (map (fun line => snd (font_size host line) + 5) text_lines)
  /\ (forall line, line ∈ text_lines ->
                   fst (font_size host line) + padding * 2 <= fst size)
  /\ (fst size = padding * 2
      \/ exists line, line ∈ text_lines
                      /\ fst size = fst (font_size host line) + padding * 2)
  /\ calculate_popup_size host [] padding = (padding * 2, padding * 2)
  /\ (forall x y target,
         200 <= Rect.width
                  (RGBPropertiesWindowObj.rect (RGBPropertiesWindow.init host x y target))).
Proof.
  cbv zeta. unfold calculate_popup_size.
  pose proof (calculate_popup_size_fold host text_lines 0 (padding * 2)) as H.
  cbv zeta in H. destruct (fold_left _ text_lines _) as [max_width total_height].
  cbn [fst snd] in *. destruct H as (Hh & Hmax & Hfit & Hwho).
  split; [exact Hh|]. split; [intros line Hin; specialize (Hfit line Hin); lia|].
  split.
  { destruct Hwho as [->|(line & Hin & ->)]; [left; reflexivity|].
    right. exists line. split; [exact Hin|reflexivity]. }
  split; [reflexivity|].
  intros x y target. unfold RGBPropertiesWindow.init.
  destruct (calculate_popup_size host RGBPropertiesWindow.text_lines 20) as [width height].
  cbn [RGBPropertiesWindowObj.rect Rect.width]. lia.
Qed.

(** ** Resizing to an empty screen *)

Lemma truediv_nonzero (a b : Z) (q : spec_float) :
  PyFloat.truediv a b = Some q -> b <> 0.
Proof.
  unfold PyFloat.truediv. destruct (b =? 0) eqn:Hb; [discriminate|].
  intros _. apply Z.eqb_neq, Hb.
Qed.

Lemma on_videoresize_prev (w h : Z) (app app' : APP) :
  Application.on_videoresize w h app = Some app' ->
  display_of app'
  = (w, h, App.is_fullscreen app, App.running app, w, h,
     Rect.mk 0 (h - TASKBAR_HEIGHT) w TASKBAR_HEIGHT)
  /\ App.prev_screen_width app <> 0
  /\ App.prev_screen_height app <> 0.
Proof.
  unfold Application.on_videoresize. cbv zeta.
  destruct (PyFloat.truediv _ (App.prev_screen_width _)) as [scale_x|] eqn:Hw;
    cbn [mbind option_bind]; [|discriminate].
  destruct (PyFloat.truediv _ (App.prev_screen_height _)) as [scale_y|] eqn:Hh;
    cbn [mbind option_bind]; [|discriminate].
  apply truediv_nonzero in Hw, Hh.
  destruct (Application.rescale_windows _ _ _ _) as [a|] eqn:H;
    cbn [mbind option_bind]; [|discriminate].
  intros [= <-]. apply rescale_windows_display in H.
  split; [|split; assumption].
  unfold display_of in *. injection H as H1 H2 H3 H4 _ _ H7.
  cbn [App.screen_width App.screen_height App.is_fullscreen App.running
       App.prev_screen_width App.prev_screen_height App.taskbar
       App.set_prev_screen_size].
  rewrite H1, H2, H3, H4, H7. reflexivity.
Qed.

(** X24: a resize event records the new size as the previous one, and
    the next resize divides by it.  A resize event is therefore handled
    only if the recorded previous width and height are not 0, and after a
    resize to a width or a height of 0 every later resize event raises
    ZeroDivisionError. *)
Theorem X24_resize_to_empty_screen (host : Host) (w h : Z) (app app' : APP) :
  Application.handle_event host (VIDEORESIZE w h) app = Some app' ->
  (App.screen_width app', App.screen_height app') = (w, h)
  /\ (App.prev_screen_width app', App.prev_screen_height app') = (w, h)
  /\ App.prev_screen_width app <> 0
  /\ App.prev_screen_height app <> 0
  /\ (w = 0 \/ h = 0 ->
      forall host2 w2 h2,
        Application.handle_event host2 (VIDEORESIZE w2 h2) app' = None).
Proof.
  unfold Application.handle_event at 1. cbn [Application.handle_global].
  destruct (Application.on_videoresize w h app) as [a|] eqn:Hg;
    cbn [mbind option_bind]; [|discriminate].
  intros Hm. apply handle_mouse_display in Hm.
  apply on_videoresize_prev in Hg. destruct Hg as (Hdisp & Hpw & Hph).
  rewrite Hdisp in Hm. unfold display_of in Hm.
  injection Hm as Hsw Hsh _ _ Hprevw Hprevh _.
  split; [rewrite Hsw, Hsh; reflexivity|].
  split; [rewrite Hprevw, Hprevh; reflexivity|].
  split; [exact Hpw|]. split; [exact Hph|].
  intros Hzero host2 w2 h2.
  destruct (Application.handle_event host2 (VIDEORESIZE w2 h2) app')
    as [app2|] eqn:Hnext; [|reflexivity].
  unfold Application.handle_event in Hnext. cbn [Application.handle_global] in Hnext.
  destruct (Application.on_videoresize w2 h2 app') as [a2|] eqn:Hg2;
    cbn [mbind option_bind] in Hnext; [|discriminate].
  apply on_videoresize_prev in Hg2. destruct Hg2 as (_ & Hpw2 & Hph2).
  exfalso. destruct Hzero; congruence.
Qed.

Lemma X24_resize_to_empty_screen_witness :
  exists app',
    Application.handle_event (example_host 0) (VIDEORESIZE 0 600) main = Some app'
    /\ Application.handle_event (example_host 0) (VIDEORESIZE 800 600) app' = None.
Proof.
  destruct (Application.handle_event (example_host 0) (VIDEORESIZE 0 600) main)
    as [app'|] eqn:Hev; [|vm_compute in Hev; discriminate].
  exists app'. split; [reflexivity|].
  destruct (X24_resize_to_empty_screen (example_host 0) 0 600 main app' Hev)
    as (_ & _ & _ & _ & Hnext).
  apply Hnext. left. reflexivity.
Defined.
